(** * Belle Epoque data-preparation scripts: coordinate projection, filtering,
      simplification and height estimation.

    Python floats are modelled as exact rationals ([Q]); decimal literals of
    the scripts denote the rationals they spell.  Equality of numbers is
    [Qeq] ([==]), the value equality Python's [==] computes. *)

From Stdlib Require Import String Ascii DecimalString.
From Stdlib Require Import QArith Qround Qabs Qminmax ZArith Bool Lia Lqa.
From Stdlib Require Import List Sorted Permutation.
Import ListNotations.
Local Open Scope Q_scope.

(** ** Python numerics *)

Module PyNum.

(** Round half to even, on the exact value: what [round(x)] computes. *)
Definition round_half_even (q : Q) : Z :=
  let f := Qfloor q in
  match ((q - inject_Z f) ?= (1 # 2))%Q with
  | Lt => f
  | Gt => (f + 1)%Z
  | Eq => if Z.even f then f else (f + 1)%Z
  end.

(** [round(x, 1)]: the nearest multiple of one tenth. *)
Definition round1 (x : Q) : Q := inject_Z (round_half_even (x * 10)) / 10.

(** Python's two-argument [min]: the first argument wins ties. *)
Definition min2 (a b : Q) : Q := if Qle_bool a b then a else b.

(** Exceptions a script can die of. *)
Inductive PyErr : Type :=
| ValueError          (* min() or max() of an empty sequence *)
| TransformError      (* raised by the coordinate transformer *)
| SystemExit (code : Z).

Definition Exc (A : Type) : Type := (PyErr + A)%type.

Definition ret {A} (a : A) : Exc A := inr a.
Definition raise {A} (e : PyErr) : Exc A := inl e.
Definition bind {A B} (m : Exc A) (k : A -> Exc B) : Exc B :=
  match m with
  | inl e => inl e
  | inr a => k a
  end.

(** [min(xs)] and [max(xs)] over a list: [ValueError] when it is empty. *)
Fixpoint min_from (m : Q) (xs : list Q) : Q :=
  match xs with
  | [] => m
  | x :: r => min_from (if Qlt_le_dec x m then x else m) r
  end.

Fixpoint max_from (m : Q) (xs : list Q) : Q :=
  match xs with
  | [] => m
  | x :: r => max_from (if Qlt_le_dec m x then x else m) r
  end.

Definition py_min (xs : list Q) : Exc Q :=
  match xs with
  | [] => raise ValueError
  | x :: r => ret (min_from x r)
  end.

Definition py_max (xs : list Q) : Exc Q :=
  match xs with
  | [] => raise ValueError
  | x :: r => ret (max_from x r)
  end.

End PyNum.

Notation "x <- m ;; k" := (PyNum.bind m (fun x => k))
  (at level 61, m at next level, right associativity).

(** ** Shared data *)

(** A local point [[x, z]] (a two-element list or tuple in the scripts). *)
Definition Point : Type := (Q * Q)%type.

(** Python's [==] on two such points compares the coordinates by value. *)
Definition pt_eqb (p q : Point) : bool :=
  Qeq_bool (fst p) (fst q) && Qeq_bool (snd p) (snd q).

Definition pt_eq (p q : Point) : Prop := fst p == fst q /\ snd p == snd q.

(** A building record of buildings.json. *)
Record Building : Type := mkBuilding {
  b_id : string;
  b_footprint : list Point;
  b_position : Q * Q * Q;
  b_size : Q * Q * Q;           (* [width, height, depth] *)
  b_color : option string       (* the key is added after sorting *)
}.

Definition size1 (b : Building) : Q := snd (fst (b_size b)).
Definition position0 (b : Building) : Q := fst (fst (b_position b)).
Definition position2 (b : Building) : Q := snd (b_position b).


(** A street record of streets.json. *)
Record Street : Type := mkStreet {
  s_id : string;
  s_name : string;
  s_type : string;
  s_points : list Point;
  s_width : Z;
  s_color : string
}.

(** The module-level constants a conversion function reads. *)
Record Frame : Type := mkFrame {
  CENTER_LAT : Q;
  CENTER_LON : Q;
  LAT_TO_METERS : Q;
  LON_TO_METERS : Q
}.

(** The chained comparison [lo <= v <= hi]. *)
Definition between (lo v hi : Q) : bool := Qle_bool lo v && Qle_bool v hi.

(** The strict chained comparison [lo < v < hi]. *)
Definition strictly_between (lo v hi : Q) : bool :=
  negb (Qle_bool v lo) && negb (Qle_bool hi v).

(** [x < y] as a test. *)
Definition Qlt_bool (x y : Q) : bool := negb (Qle_bool y x).

(** ** The conversion functions *)

Module Projection.
Section WithFrame.
Variable F : Frame.

(** extract_downtown.py, [convert_to_local]: the caller rounds. *)
Definition convert_to_local (lon lat : Q) : Point :=
  let x := (lon - CENTER_LON F) * LON_TO_METERS F in
  let z := - (lat - CENTER_LAT F) * LAT_TO_METERS F in
  (x, z).

(** extract_streets.py [convert_to_local], rebuild_all.py [to_local],
    fetch_landuse.py [to_local]: the same body, rounded on return. *)
Definition to_local (lon lat : Q) : Point :=
  let x := (lon - CENTER_LON F) * LON_TO_METERS F in
  let z := - (lat - CENTER_LAT F) * LAT_TO_METERS F in
  (PyNum.round1 x, PyNum.round1 z).

End WithFrame.
End Projection.

(** scripts/fetch-overture-data.py *)
Module FetchOverture.
Section WithCos.
(** [math.cos(math.radians(d))], outside the rational model. *)
Variable cos_radians : Q -> Q.

Definition CENTER_LAT : Q := 38.5170.
Definition CENTER_LON : Q := -89.9842.

Definition latlon_to_local (lon lat center_lon center_lat : Q) : Point :=
  let x := (lon - center_lon) * 111000 * cos_radians center_lat in
  let z := (lat - center_lat) * 111000 in
  (PyNum.round1 x, PyNum.round1 z).

End WithCos.
End FetchOverture.

(** ** Polygon decimation and height estimate *)

Module Polygon.
Section Generic.
Variable A : Type.
Variable eqb : A -> A -> bool.

(** [range(start, stop, step)] for a positive step; [fuel] bounds the
    number of indices produced. *)
Fixpoint range_from (fuel start stop step : nat) : list nat :=
  match fuel with
  | O => []
  | S fuel' =>
      if (start <? stop)%nat then start :: range_from fuel' (start + step) stop step
      else []
  end.

Definition range_step (stop step : nat) : list nat := range_from stop 0 stop step.

(** [[points[i] for i in range(0, len(points), step)]]; every index is in
    range, so no lookup fails. *)
Definition every_nth (points : list A) (step : nat) : list A :=
  flat_map (fun i => match nth_error points i with
                     | Some p => [p]
                     | None => []
                     end)
           (range_step (length points) step).

(** [step = max(1, len(points) // 20)] *)
Definition step_of (points : list A) : nat := Nat.max 1 (length points / 20).

(** rebuild_all.py, lines 174-175: the inline decimation. *)
Definition decimate (points : list A) : list A :=
  let step := step_of points in
  every_nth points step.

(** extract_downtown.py, [simplify_polygon]. *)
Definition simplify_polygon (points : list A) : list A :=
  if (length points <=? 4)%nat then points
  else
    let step := step_of points in
    let simplified := every_nth points step in
    match simplified with
    | [] => simplified     (* unreachable: index 0 is always kept *)
    | first :: _ =>
        if negb (eqb first (last simplified first))
        then simplified ++ [first]
        else simplified
    end.

End Generic.

(** The height estimate from the footprint area (extract_downtown.py lines
    113-122, rebuild_all.py lines 185-193). *)
Definition estimate_height (area : Q) : Q :=
  if Qlt_bool area 50 then 5 + area / 10
  else if Qlt_bool area 200 then 8 + area / 30
  else if Qlt_bool area 500 then 12 + area / 50
  else 18 + PyNum.min2 (area / 80) 25.

End Polygon.

Arguments Polygon.step_of {A} points.
Arguments Polygon.every_nth {A} points step.
Arguments Polygon.decimate {A} points.
Arguments Polygon.simplify_polygon {A} eqb points.

(** ** Strings, dictionaries and sorting *)

Module PyStr.



(** [needle in hay]: substring test. *)
Fixpoint contains (needle hay : string) : bool :=
  if String.prefix needle hay then true
  else match hay with
       | EmptyString => false
       | String _ r => contains needle r
       end.

(** [str(n)] for integers, as f-strings format them. *)
Definition of_nat (n : nat) : string := NilZero.string_of_uint (Nat.to_uint n).
Definition of_Z (z : Z) : string := NilZero.string_of_int (Z.to_int z).

End PyStr.

Module PyDict.
Section Dict.
Variables K V : Type.
Variable key_eqb : K -> K -> bool.

(** A dict as the list of its insertions, latest first. *)
Definition dict : Type := list (K * V).

Definition set (d : dict) (k : K) (v : V) : dict := (k, v) :: d.

Fixpoint get (d : dict) (k : K) : option V :=
  match d with
  | [] => None
  | (k', v) :: r => if key_eqb k k' then Some v else get r k
  end.

End Dict.
End PyDict.

Arguments PyDict.set {K V} d k v.
Arguments PyDict.get {K V} key_eqb d k.

Module PySort.
Section Sort.
Variable A : Type.
Variable key : A -> Q.

(** [list.sort(key=...)] is stable: an element goes after every element
    already placed whose key is not larger. *)
Fixpoint insert (a : A) (l : list A) : list A :=
  match l with
  | [] => [a]
  | b :: r => if Qlt_bool (key a) (key b) then a :: l else b :: insert a r
  end.

Definition sort (l : list A) : list A :=
  fold_left (fun acc a => insert a acc) l [].

(** [enumerate]. *)
Fixpoint enumerate_from (i : nat) (l : list A) : list (nat * A) :=
  match l with
  | [] => []
  | a :: r => (i, a) :: enumerate_from (S i) r
  end.

End Sort.
End PySort.

Arguments PySort.sort {A} key l.
Arguments PySort.enumerate_from {A} i l.

(** ** Building extraction shared by extract_downtown.py and rebuild_all.py *)

Module Buildings.

Definition colors : list string :=
  ["#74b9ff"; "#a29bfe"; "#fd79a8"; "#ffeaa7"; "#81ecec";
   "#fab1a0"; "#00b894"; "#e17055"; "#6c5ce7"; "#fdcb6e";
   "#55efc4"; "#b2bec3"; "#dfe6e9"; "#636e72"]%string.

(** The sort key [position[0]**2 + position[2]**2]. *)
Definition dist2 (b : Building) : Q :=
  position0 b * position0 b + position2 b * position2 b.

(** The closing loop: colour by rank and renumber. *)
Definition recolor (ib : nat * Building) : Building :=
  let (i, b) := ib in
  mkBuilding (String.append "bldg-" (PyStr.of_nat (i + 1)))
             (b_footprint b) (b_position b) (b_size b)
             (Some (nth (i mod List.length colors) colors EmptyString)).

Definition sort_and_color (buildings : list Building) : list Building :=
  map recolor (PySort.enumerate_from 0 (PySort.sort dist2 buildings)).

End Buildings.

(** ** extract_downtown.py *)

Module ExtractDowntown.
Import PyNum.

Definition MIN_LAT : Q := 38.516.
Definition MAX_LAT : Q := 38.526.
Definition MIN_LON : Q := -89.993.
Definition MAX_LON : Q := -89.975.

Definition frame : Frame := mkFrame 38.5200 (-89.9839) 111000 87000.

Definition convert_to_local : Q -> Q -> Point := Projection.convert_to_local frame.

Definition simplify_polygon : list Point -> list Point :=
  Polygon.simplify_polygon pt_eqb.

Section Main.
(** [transformer_to_wgs84.transform]; it may raise. *)
Variable transform : Q -> Q -> Exc (Q * Q).

(** Lines 89-93: project and round every vertex; a failing transform is
    not caught here. *)
Fixpoint local_points_of (points : list (Q * Q)) : Exc (list Point) :=
  match points with
  | [] => ret []
  | (px, py) :: r =>
      ll <- transform px py ;;
      let (lx, lz) := convert_to_local (fst ll) (snd ll) in
      rest <- local_points_of r ;;
      ret ((round1 lx, round1 lz) :: rest)
  end.

(** Lines 95-131 for one in-bounds shape: [None] when it is skipped. *)
Definition building_of (in_bounds : nat) (points : list (Q * Q)) : Exc (option Building) :=
  local_points <- local_points_of points ;;
  let local_points := simplify_polygon local_points in
  let xs := map fst local_points in
  let zs := map snd local_points in
  min_x <- py_min xs ;;
  max_x <- py_max xs ;;
  min_z <- py_min zs ;;
  max_z <- py_max zs ;;
  let width := max_x - min_x in
  let depth := max_z - min_z in
  let center_x := (min_x + max_x) / 2 in
  let center_z := (min_z + max_z) / 2 in
  if Qlt_bool width 3 || Qlt_bool depth 3 then ret None
  else
    let area := width * depth in
    let height := Polygon.estimate_height area in
    ret (Some (mkBuilding
                 (String.append "bldg-" (PyStr.of_nat in_bounds))
                 local_points
                 (round1 center_x, 0, round1 center_z)
                 (round1 width, round1 height, round1 depth)
                 None)).

(** One iteration of the loop over [sf.shapes()]; the state is
    [(buildings, in_bounds)]. *)
Definition shape_step (st : list Building * nat) (points : list (Q * Q))
  : Exc (list Building * nat) :=
  let (buildings, in_bounds) := st in
  match points with
  | [] => ret st
  | (x, y) :: _ =>
      match transform x y with
      | inl _ => ret st
      | inr (lon, lat) =>
          if negb (between MIN_LAT lat MAX_LAT && between MIN_LON lon MAX_LON)
          then ret st
          else
            let in_bounds := S in_bounds in
            ob <- building_of in_bounds points ;;
            match ob with
            | None => ret (buildings, in_bounds)
            | Some b => ret (buildings ++ [b], in_bounds)
            end
      end
  end.

Fixpoint shapes_loop (st : list Building * nat) (shapes : list (list (Q * Q)))
  : Exc (list Building * nat) :=
  match shapes with
  | [] => ret st
  | points :: r => st' <- shape_step st points ;; shapes_loop st' r
  end.

(** [main]: the list written to src/data/buildings.json, or the exception
    that ends the script before anything is written. *)
Definition main (shapes : list (list (Q * Q))) : Exc (list Building) :=
  st <- shapes_loop ([], O) shapes ;;
  ret (Buildings.sort_and_color (fst st)).

End Main.

(** The records in buildings.json after the run: none when it died. *)
Definition written (run : Exc (list Building)) : list Building :=
  match run with
  | inr buildings => buildings
  | inl _ => []
  end.

End ExtractDowntown.

(** ** extract_streets.py *)

Module ExtractStreets.

Definition frame : Frame := mkFrame 38.5200 (-89.9839) 111000 87000.

Definition convert_to_local : Q -> Q -> Point := Projection.to_local frame.

End ExtractStreets.

(** ** fetch_landuse.py *)

Module FetchLanduse.

Definition frame : Frame := mkFrame 38.521326 (-89.984205) 111000 87000.

Definition to_local : Q -> Q -> Point := Projection.to_local frame.

End FetchLanduse.

(** ** OpenStreetMap elements and the Overpass queries of the scripts *)

Module Osm.

Record Node : Type := mkNode { n_id : Z; n_lon : Q; n_lat : Q }.

Record Way : Type := mkWay {
  w_id : Z;
  w_nodes : option (list Z);          (* the key may be absent *)
  w_tags : list (string * string)     (* absent is the empty dict *)
}.

Inductive Element : Type :=
| ENode (n : Node)
| EWay (w : Way)
| EOther.

(** [tags.get(k)]. *)
Definition tag (w : Way) (k : string) : option string :=
  PyDict.get String.eqb (w_tags w) k.

(** The tag filters the query strings use: [["k"="v"]], [["k"]] and
    [["k"~"a|b|..."]] (a regular-expression search for one of the words). *)
Inductive TagFilter : Type :=
| TagEq (k v : string)
| TagPresent (k : string)
| TagMatches (k : string) (alternatives : list string).

Definition Query : Type := list TagFilter.

Definition satisfies (w : Way) (f : TagFilter) : bool :=
  match f with
  | TagEq k v =>
      match tag w k with Some v' => String.eqb v' v | None => false end
  | TagPresent k =>
      match tag w k with Some _ => true | None => false end
  | TagMatches k alternatives =>
      match tag w k with
      | Some v' => existsb (fun a => PyStr.contains a v') alternatives
      | None => false
      end
  end.

Definition way_matches (q : Query) (w : Way) : bool := forallb (satisfies w) q.

(** [nodes = {el['id']: (el['lon'], el['lat']) for el in ... if node}]. *)
Definition nodes_of (result : list Element) : PyDict.dict Z (Q * Q) :=
  fold_left (fun d el => match el with
                         | ENode n => PyDict.set d (n_id n) (n_lon n, n_lat n)
                         | _ => d
                         end) result [].

(** The coordinates of the node ids that the dict knows. *)
Definition resolve (nodes : PyDict.dict Z (Q * Q)) (nids : list Z) : list (Q * Q) :=
  flat_map (fun nid => match PyDict.get Z.eqb nodes nid with
                       | Some c => [c]
                       | None => []
                       end) nids.

(** A server that answers a query with the matching ways of its database
    followed by the nodes they refer to ([out body; >; out skel qt;]). *)
Definition answer (db : list Element) (q : Query) : list Element :=
  let ways := flat_map (fun el => match el with
                                  | EWay w => if way_matches q w then [w] else []
                                  | _ => []
                                  end) db in
  let wanted := flat_map (fun w => match w_nodes w with
                                   | Some l => l
                                   | None => []
                                   end) ways in
  map EWay ways ++
  filter (fun el => match el with
                    | ENode n => existsb (Z.eqb (n_id n)) wanted
                    | _ => false
                    end) db.

End Osm.

(** ** rebuild_all.py *)

Module RebuildAll.
Import PyNum Osm.

Definition MIN_LAT : Q := 38.516.
Definition MAX_LAT : Q := 38.526.
Definition MIN_LON : Q := -89.993.
Definition MAX_LON : Q := -89.975.

Definition anchor_name : string := "North Illinois Street".

(** [way["name"="North Illinois Street"]["highway"](bbox)] *)
Definition illinois_query : Query := [TagEq "name" anchor_name; TagPresent "highway"].

(** [way["highway"~"primary|secondary|tertiary|residential|service"](bbox)] *)
Definition streets_query : Query :=
  [TagMatches "highway" ["primary"; "secondary"; "tertiary"; "residential"; "service"]]%string.

Definition py_sum (l : list Q) : Q := fold_left Qplus l 0.
Definition len {A} (l : list A) : Q := inject_Z (Z.of_nat (List.length l)).

(** Lines 40-46. *)
Definition illinois_coords (result : list Element) : list (Q * Q) :=
  let nodes := nodes_of result in
  flat_map (fun el => match el with
                      | EWay w => resolve nodes (match w_nodes w with
                                                 | Some l => l
                                                 | None => []
                                                 end)
                      | _ => []
                      end) result.

(** Lines 48-67: the new centre, or [exit(1)]. *)
Definition find_center (result : list Element) : Exc Frame :=
  let coords := illinois_coords result in
  match coords with
  | [] => raise (SystemExit 1)
  | _ :: _ =>
      let avg_lon := py_sum (map fst coords) / len coords in
      let lats := map snd coords in
      lo <- py_min lats ;;
      hi <- py_max lats ;;
      let mid_lat := (lo + hi) / 2 in
      ret (mkFrame mid_lat avg_lon 111000 87000)
  end.

Definition street_types : PyDict.dict string (Z * string) :=
  [("primary", (10%Z, "#3a3a4a")); ("secondary", (8%Z, "#3a3a4a"));
   ("tertiary", (7%Z, "#353545")); ("residential", (6%Z, "#353545"));
   ("service", (4%Z, "#303040"))]%string.

Section WithCenter.
Variable F : Frame.

Definition to_local : Q -> Q -> Point := Projection.to_local F.

(** Lines 103-127 for one way. *)
Definition street_of (nodes : PyDict.dict Z (Q * Q)) (w : Way) : option Street :=
  match w_nodes w with
  | None => None
  | Some nids =>
      let highway_type := match tag w "highway" with
                          | Some t => t
                          | None => "residential"%string
                          end in
      let name := match tag w "name" with Some n => n | None => EmptyString end in
      let points := map (fun c => to_local (fst c) (snd c)) (resolve nodes nids) in
      if (2 <=? List.length points)%nat then
        let type_info := match PyDict.get String.eqb street_types highway_type with
                         | Some ti => ti
                         | None => (6%Z, "#353545"%string)
                         end in
        Some (mkStreet (String.append "street-" (PyStr.of_Z (w_id w)))
                       name highway_type points (fst type_info) (snd type_info))
      else None
  end.

Definition extract_streets (result : list Element) : list Street :=
  let nodes := nodes_of result in
  flat_map (fun el => match el with
                      | EWay w => match street_of nodes w with
                                  | Some s => [s]
                                  | None => []
                                  end
                      | _ => []
                      end) result.

(** Line 132: the area filter, with strict bounds. *)
Definition in_area (s : Street) : bool :=
  existsb (fun p => strictly_between (-900) (fst p) 900
                    && strictly_between (-800) (snd p) 600) (s_points s).

Section Shapes.
Variable transform : Q -> Q -> Exc (Q * Q).

Fixpoint local_points_of (points : list (Q * Q)) : Exc (list Point) :=
  match points with
  | [] => ret []
  | (px, py) :: r =>
      ll <- transform px py ;;
      rest <- local_points_of r ;;
      ret (to_local (fst ll) (snd ll) :: rest)
  end.

(** Lines 166-200 for one in-bounds shape. *)
Definition building_of (count : nat) (points : list (Q * Q)) : Exc (option Building) :=
  local_points <- local_points_of points ;;
  let local_points := Polygon.decimate local_points in
  let xs := map fst local_points in
  let zs := map snd local_points in
  max_x <- py_max xs ;;
  min_x <- py_min xs ;;
  max_z <- py_max zs ;;
  min_z <- py_min zs ;;
  let width := max_x - min_x in
  let depth := max_z - min_z in
  if Qlt_bool width 3 || Qlt_bool depth 3 then ret None
  else
    let area := width * depth in
    let height := Polygon.estimate_height area in
    ret (Some (mkBuilding
                 (String.append "bldg-" (PyStr.of_nat (count + 1)))
                 local_points
                 (round1 ((min_x + max_x) / 2), 0, round1 ((min_z + max_z) / 2))
                 (round1 width, round1 height, round1 depth)
                 None)).

Definition shape_step (buildings : list Building) (points : list (Q * Q))
  : Exc (list Building) :=
  match points with
  | [] => ret buildings
  | (x, y) :: _ =>
      match transform x y with
      | inl _ => ret buildings
      | inr (lon, lat) =>
          if negb (between MIN_LAT lat MAX_LAT && between MIN_LON lon MAX_LON)
          then ret buildings
          else
            ob <- building_of (List.length buildings) points ;;
            match ob with
            | None => ret buildings
            | Some b => ret (buildings ++ [b])
            end
      end
  end.

Fixpoint shapes_loop (buildings : list Building) (shapes : list (list (Q * Q)))
  : Exc (list Building) :=
  match shapes with
  | [] => ret buildings
  | points :: r => bs <- shape_step buildings points ;; shapes_loop bs r
  end.

End Shapes.
End WithCenter.

(** What the script leaves on disk. *)
Inductive FileWrite : Type :=
| WriteStreets (path : string) (streets : list Street)
| WriteBuildings (path : string) (buildings : list Building).

(** The whole script: [fetch] is the Overpass round trip, [shapes] the
    shapefile.  The result is the files written so far and how the run
    ended. *)
Definition rebuild_all (fetch : Query -> Exc (list Element))
                       (transform : Q -> Q -> Exc (Q * Q))
                       (shapes : list (list (Q * Q)))
  : list FileWrite * Exc unit :=
  match (result <- fetch illinois_query ;; find_center result) with
  | inl e => ([], inl e)
  | inr F =>
      match fetch streets_query with
      | inl e => ([], inl e)
      | inr result =>
          let streets := filter in_area (extract_streets F result) in
          let written := [WriteStreets "src/data/streets.json" streets] in
          match shapes_loop F transform [] shapes with
          | inl e => (written, inl e)
          | inr buildings =>
              (written ++ [WriteBuildings "src/data/buildings.json"
                             (Buildings.sort_and_color buildings)],
               inr tt)
          end
      end
  end.

(** The building records the run puts in buildings.json. *)
Definition emitted_buildings (run : list FileWrite * Exc unit) : list Building :=
  flat_map (fun w => match w with
                     | WriteBuildings _ bs => bs
                     | WriteStreets _ _ => []
                     end) (fst run).

End RebuildAll.

(** ** Filtering streets against a bounding region *)

(** The four bounds the filtering scripts compute. *)
Record Region : Type := mkRegion { min_x : Q; max_x : Q; min_z : Q; max_z : Q }.

(** [min_x <= pt[0] <= max_x and min_z <= pt[1] <= max_z]
    (finalize_streets.py line 33, fix_alignment.py line 47,
    align_streets.py line 33). *)
Definition in_bounds (R : Region) (pt : Point) : bool :=
  between (min_x R) (fst pt) (max_x R) && between (min_z R) (snd pt) (max_z R).

(** The bounds of all footprint vertices, widened by [margin]. *)
Definition building_region (margin : Q) (buildings : list Building) : PyNum.Exc Region :=
  let bldg_xs := map fst (flat_map b_footprint buildings) in
  let bldg_zs := map snd (flat_map b_footprint buildings) in
  lo_x <- PyNum.py_min bldg_xs ;;
  hi_x <- PyNum.py_max bldg_xs ;;
  lo_z <- PyNum.py_min bldg_zs ;;
  hi_z <- PyNum.py_max bldg_zs ;;
  PyNum.ret (mkRegion (lo_x - margin) (hi_x + margin) (lo_z - margin) (hi_z + margin)).

Definition set_points (s : Street) (pts : list Point) : Street :=
  mkStreet (s_id s) (s_name s) (s_type s) pts (s_width s) (s_color s).

(** finalize_streets.py *)
Module FinalizeStreets.

(** Lines 28-38: the loop that clips each street to the region. *)
Definition filtered (R : Region) (streets : list Street) : list Street :=
  fold_left (fun acc s =>
               let pts_in_bounds := filter (in_bounds R) (s_points s) in
               if (2 <=? List.length pts_in_bounds)%nat
               then acc ++ [set_points s pts_in_bounds]
               else acc)
            streets [].

Definition finalize_streets (streets : list Street) (buildings : list Building)
  : PyNum.Exc (list Street) :=
  R <- building_region 30 buildings ;;
  PyNum.ret (filtered R streets).

End FinalizeStreets.

(** fix_alignment.py *)
Module FixAlignment.

(** Lines 43-52: keep a street when any of its points is in bounds. *)
Definition filtered_streets (R : Region) (streets : list Street) : list Street :=
  fold_left (fun acc street =>
               if existsb (in_bounds R) (s_points street)
               then acc ++ [street]
               else acc)
            streets [].

Definition shift (offset_x offset_z : Q) (street : Street) : Street :=
  set_points street
    (map (fun pt => (PyNum.round1 (fst pt + offset_x), PyNum.round1 (snd pt + offset_z)))
         (s_points street)).

Definition fix_alignment (streets : list Street) (buildings : list Building)
  : PyNum.Exc (list Street) :=
  let bldg_xs := map fst (flat_map b_footprint buildings) in
  let bldg_zs := map snd (flat_map b_footprint buildings) in
  blo_x <- PyNum.py_min bldg_xs ;;
  bhi_x <- PyNum.py_max bldg_xs ;;
  blo_z <- PyNum.py_min bldg_zs ;;
  bhi_z <- PyNum.py_max bldg_zs ;;
  let street_xs := map fst (flat_map s_points streets) in
  let street_zs := map snd (flat_map s_points streets) in
  slo_x <- PyNum.py_min street_xs ;;
  shi_x <- PyNum.py_max street_xs ;;
  slo_z <- PyNum.py_min street_zs ;;
  shi_z <- PyNum.py_max street_zs ;;
  let offset_x := (blo_x + bhi_x) / 2 - (slo_x + shi_x) / 2 in
  let offset_z := (blo_z + bhi_z) / 2 - (slo_z + shi_z) / 2 in
  let streets := map (shift offset_x offset_z) streets in
  R <- building_region 50 buildings ;;
  let filtered := filtered_streets R streets in
  (* lines 58-63: the bounding box of what is left is printed before the
     file is written; min() of an empty list ends the script there *)
  let new_street_xs := map fst (flat_map s_points filtered) in
  let new_street_zs := map snd (flat_map s_points filtered) in
  _ <- PyNum.py_min new_street_xs ;;
  _ <- PyNum.py_max new_street_xs ;;
  _ <- PyNum.py_min new_street_zs ;;
  _ <- PyNum.py_max new_street_zs ;;
  PyNum.ret filtered.

End FixAlignment.

(** align_streets.py *)
Module AlignStreets.

Definition OFFSET_X : Q := 27.

Definition shift (street : Street) : Street :=
  set_points street
    (map (fun pt => (PyNum.round1 (fst pt + OFFSET_X), PyNum.round1 (snd pt)))
         (s_points street)).

(** Lines 31-35. *)
Definition filtered (R : Region) (streets : list Street) : list Street :=
  fold_left (fun acc s =>
               if existsb (in_bounds R) (s_points s) then acc ++ [s] else acc)
            streets [].

Definition align_streets (streets : list Street) (buildings : list Building)
  : PyNum.Exc (list Street) :=
  let streets := map shift streets in
  R <- building_region 100 buildings ;;
  PyNum.ret (filtered R streets).

End AlignStreets.

(** ** The two recentering scripts *)

Module RecenterData.

Definition FOUNTAIN_LAT : Q := 38.522207.
Definition FOUNTAIN_LON : Q := -89.984903.
Definition OLD_CENTER_LAT : Q := 38.5200.
Definition OLD_CENTER_LON : Q := -89.9839.
Definition LAT_TO_METERS : Q := 111000.
Definition LON_TO_METERS : Q := 87000.

Definition offset_x : Q := (FOUNTAIN_LON - OLD_CENTER_LON) * LON_TO_METERS.
Definition offset_z : Q := - (FOUNTAIN_LAT - OLD_CENTER_LAT) * LAT_TO_METERS.

(** The translation the script applies, before rounding. *)
Definition moved_x (x : Q) : Q := x - offset_x.
Definition moved_z (z : Q) : Q := z - offset_z.

(** Lines 40-43 and 60-63: one footprint or street point. *)
Definition recenter_point (pt : Point) : Point :=
  (PyNum.round1 (moved_x (fst pt)), PyNum.round1 (moved_z (snd pt))).

(** Lines 34-47: one building. *)
Definition recenter_building (b : Building) : Building :=
  mkBuilding (b_id b)
             (map recenter_point (b_footprint b))
             (PyNum.round1 (moved_x (position0 b)), snd (fst (b_position b)),
              PyNum.round1 (moved_z (position2 b)))
             (b_size b) (b_color b).

Definition recenter_street (s : Street) : Street :=
  set_points s (map recenter_point (s_points s)).

End RecenterData.

Module RecenterCorrect.

Definition FOUNTAIN_LAT : Q := 38.522207.
Definition FOUNTAIN_LON : Q := -89.984903.
Definition OLD_CENTER_LAT : Q := 38.5200.
Definition OLD_CENTER_LON : Q := -89.9839.
Definition LAT_TO_METERS : Q := 111000.
Definition LON_TO_METERS : Q := 87000.

Definition shift_x : Q := (OLD_CENTER_LON - FOUNTAIN_LON) * LON_TO_METERS.
Definition shift_z : Q := - (OLD_CENTER_LAT - FOUNTAIN_LAT) * LAT_TO_METERS.

Definition undo_x : Q := -87.3.
Definition undo_z : Q := -245.0.

Definition total_shift_x : Q := undo_x + shift_x.
Definition total_shift_z : Q := undo_z + shift_z.

(** Lines 59-62 and 73-76: one footprint or street point. *)
Definition fix_point (pt : Point) : Point :=
  (PyNum.round1 (fst pt + total_shift_x), PyNum.round1 (snd pt + total_shift_z)).

Definition fix_building (b : Building) : Building :=
  mkBuilding (b_id b)
             (map fix_point (b_footprint b))
             (PyNum.round1 (position0 b + total_shift_x), snd (fst (b_position b)),
              PyNum.round1 (position2 b + total_shift_z))
             (b_size b) (b_color b).

Definition fix_street (s : Street) : Street :=
  set_points s (map fix_point (s_points s)).

End RecenterCorrect.

(** ** extract_streets.py: the street extraction *)

Module ExtractStreetsScript.
Import PyNum Osm.

(** [way["highway"~"primary|...|footway|path"](bbox)] *)
Definition streets_query : Query :=
  [TagMatches "highway" ["primary"; "secondary"; "tertiary"; "residential";
                         "service"; "footway"; "path"]]%string.

Definition street_types : PyDict.dict string (Z * string) :=
  [("primary", (12%Z, "#636e72")); ("secondary", (10%Z, "#636e72"));
   ("tertiary", (8%Z, "#4a5568")); ("residential", (6%Z, "#4a5568"));
   ("service", (4%Z, "#3d4448")); ("footway", (2%Z, "#2d3436"));
   ("path", (2%Z, "#2d3436"))]%string.

(** [street_types.get(highway_type, street_types['residential'])] *)
Definition type_info (highway_type : string) : Z * string :=
  match PyDict.get String.eqb street_types highway_type with
  | Some ti => ti
  | None => (6%Z, "#4a5568"%string)
  end.

(** Lines 77-101 for one way. *)
Definition street_of (nodes : PyDict.dict Z (Q * Q)) (w : Way) : option Street :=
  match w_nodes w with
  | None => None
  | Some nids =>
      let highway_type := match tag w "highway" with
                          | Some t => t
                          | None => "residential"%string
                          end in
      let name := match tag w "name" with Some n => n | None => EmptyString end in
      let points := map (fun c => ExtractStreets.convert_to_local (fst c) (snd c))
                        (resolve nodes nids) in
      if (2 <=? List.length points)%nat then
        Some (mkStreet (String.append "street-" (PyStr.of_Z (w_id w)))
                       name highway_type points
                       (fst (type_info highway_type)) (snd (type_info highway_type)))
      else None
  end.

Definition streets_of (elements : list Element) : list Street :=
  let nodes := nodes_of elements in
  flat_map (fun el => match el with
                      | EWay w => match street_of nodes w with
                                  | Some s => [s]
                                  | None => []
                                  end
                      | _ => []
                      end) elements.

(** [main]: what is written to src/data/streets.json; [None] when the
    request failed, which the script reports and returns from. *)
Definition main (fetch : Query -> Exc (list Element)) : option (list Street) :=
  match fetch streets_query with
  | inl _ => None
  | inr elements => Some (streets_of elements)
  end.

End ExtractStreetsScript.

(** ** fetch_landuse.py: land-use features *)

(** A feature record of landuse.json. *)
Record Feature : Type := mkFeature {
  f_id : string;
  f_type : string;
  f_name : string;
  f_points : list Point;
  f_color : string
}.

Module FetchLanduseScript.
Import PyNum Osm.

(** [tags.get(k) == v] *)
Definition tag_is (w : Way) (k v : string) : bool :=
  match tag w k with
  | Some v' => String.eqb v' v
  | None => false
  end.

(** [tags.get(k)] used as a condition: present and not empty. *)
Definition tag_set (w : Way) (k : string) : bool :=
  match tag w k with
  | Some (String _ _) => true
  | _ => false
  end.

(** Lines 63-96: the feature type and colour, [None] for a way to skip. *)
Definition classify (w : Way) : option (string * string) :=
  if tag_is w "leisure" "park" then Some ("park", "#1a2a1a")%string
  else if tag_is w "landuse" "grass" then Some ("grass", "#1a2a1a")%string
  else if tag_is w "landuse" "residential" then Some ("residential", "#1c1c26")%string
  else if tag_is w "landuse" "commercial" then Some ("commercial", "#1e1e28")%string
  else if tag_is w "landuse" "industrial" then Some ("industrial", "#1a1a22")%string
  else if tag_is w "amenity" "parking" then Some ("parking", "#202028")%string
  else if tag_is w "natural" "water" then Some ("water", "#1a2a3a")%string
  else if tag_set w "waterway" then Some ("waterway", "#1a2a3a")%string
  else if tag_set w "railway" then Some ("railway", "#2a2a2a")%string
  else None.

(** Lines 55-113 for one way. *)
Definition feature_of (nodes : PyDict.dict Z (Q * Q)) (w : Way) : option Feature :=
  match w_tags w with
  | [] => None
  | _ :: _ =>
      match classify w with
      | None => None
      | Some (feature_type, color) =>
          let nids := match w_nodes w with Some l => l | None => [] end in
          let points := map (fun c => FetchLanduse.to_local (fst c) (snd c))
                            (resolve nodes nids) in
          if (3 <=? List.length points)%nat then
            Some (mkFeature
                    (String.append feature_type
                       (String.append "-" (PyStr.of_Z (w_id w))))
                    feature_type
                    (match tag w "name" with Some n => n | None => EmptyString end)
                    points color)
          else None
      end
  end.

Definition features_of (result : list Element) : list Feature :=
  let nodes := nodes_of result in
  flat_map (fun el => match el with
                      | EWay w => match feature_of nodes w with
                                  | Some f => [f]
                                  | None => []
                                  end
                      | _ => []
                      end) result.

(** The seven tag filters of the query, each a query of its own. *)
Definition landuse_queries : list Query :=
  [[TagPresent "landuse"]; [TagEq "leisure" "park"]; [TagEq "amenity" "parking"];
   [TagPresent "natural"]; [TagEq "man_made" "bridge"]; [TagPresent "waterway"];
   [TagPresent "railway"]]%string.

(** The script: what is written to src/data/landuse.json.  [fetch] is the
    round trip for the union query; a failure is not caught. *)
Definition fetch_landuse (fetch : list Query -> Exc (list Element)) : Exc (list Feature) :=
  result <- fetch landuse_queries ;;
  ret (features_of result).

End FetchLanduseScript.

(** ** scripts/fetch-overture-data.py: rows to records *)

Module FetchOvertureScript.
Import PyNum.

(** A parsed GeoJSON geometry; a polygon is its outer ring and its holes. *)
Inductive Geometry : Type :=
| LineString (coords : list (Q * Q))
| Polygon (outer : list (Q * Q)) (holes : list (list (Q * Q)))
| MultiPolygon (polys : list (list (Q * Q) * list (list (Q * Q))))
| OtherGeometry.

Record RoadRow : Type := mkRoadRow {
  rr_id : string;
  rr_name : option string;
  rr_class : option string;
  rr_geom : Geometry
}.

Record Road : Type := mkRoad {
  rd_id : string;
  rd_name : string;
  rd_type : string;
  rd_points : list Point
}.

Record BuildingRow : Type := mkBuildingRow {
  br_id : string;
  br_name : option string;
  br_height : option Q;
  br_num_floors : option Z;
  br_geom : Geometry
}.

Record OvertureBuilding : Type := mkOvertureBuilding {
  ob_id : string;
  ob_name : string;
  ob_footprint : list Point;
  ob_position : Q * Q * Q;
  ob_size : Q * Q * Q;
  ob_color : string
}.

Definition road_type_map : PyDict.dict string string :=
  [("motorway", "primary"); ("trunk", "primary"); ("primary", "primary");
   ("secondary", "secondary"); ("tertiary", "tertiary");
   ("residential", "residential"); ("service", "service");
   ("unclassified", "residential"); ("living_street", "residential")]%string.

(** [type_map.get(road_class, 'residential')]; a null class is no key. *)
Definition street_type (road_class : option string) : string :=
  match road_class with
  | None => "residential"%string
  | Some c => match PyDict.get String.eqb road_type_map c with
              | Some t => t
              | None => "residential"%string
              end
  end.

(** [name or ''] *)
Definition name_or_empty (name : option string) : string :=
  match name with Some n => n | None => EmptyString end.

Definition color_palette : list string :=
  ["#8b7355"; "#7a8b8b"; "#6b6b7a"; "#8b8378"; "#7d8b8b";
   "#74b9ff"; "#a29bfe"; "#fd79a8"; "#ffeaa7"; "#81ecec";
   "#dfe6e9"; "#b2bec3"; "#636e72"; "#fab1a0"; "#e17055";
   "#00b894"; "#00cec9"; "#0984e3"; "#6c5ce7"; "#fdcb6e";
   "#e84393"; "#55a3ff"; "#ff7675"; "#a0c4ff"; "#bdb2ff"]%string.

(** A building with a real footprint, a box that is not inverted and a
    palette colour. *)
Definition overture_ok (b : OvertureBuilding) : Prop :=
  (3 <= List.length (ob_footprint b))%nat /\
  0 <= fst (fst (ob_size b)) /\ 0 <= snd (ob_size b) /\
  In (ob_color b) color_palette.

Section WithEnvironment.
Variable cos_radians : Q -> Q.
(** The builtin [hash] on strings. *)
Variable hash : string -> Z.

Definition to_local (c : Q * Q) : Point :=
  FetchOverture.latlon_to_local cos_radians (fst c) (snd c)
    FetchOverture.CENTER_LON FetchOverture.CENTER_LAT.

(** [fetch_roads], lines 99-131: one record per LineString row. *)
Definition road_of (row : RoadRow) : option Road :=
  match rr_geom row with
  | LineString coords =>
      Some (mkRoad (String.append "street-" (rr_id row))
                   (name_or_empty (rr_name row))
                   (street_type (rr_class row))
                   (map to_local coords))
  | _ => None
  end.

Definition fetch_roads (rows : list RoadRow) : list Road :=
  flat_map (fun row => match road_of row with
                       | Some r => [r]
                       | None => []
                       end) rows.

(** Lines 186-192: the height of a building. *)
Definition building_height (id_ : string) (height : option Q) (num_floors : option Z) : Q :=
  match height with
  | Some h =>
      if negb (Qeq_bool h 0) then h
      else match num_floors with
           | Some n => if negb (n =? 0)%Z then inject_Z n * 3.5
                       else 8 + inject_Z (hash id_ mod 25)
           | None => 8 + inject_Z (hash id_ mod 25)
           end
  | None =>
      match num_floors with
      | Some n => if negb (n =? 0)%Z then inject_Z n * 3.5
                  else 8 + inject_Z (hash id_ mod 25)
      | None => 8 + inject_Z (hash id_ mod 25)
      end
  end.

Definition py_sum (l : list Q) : Q := fold_left Qplus l 0.
Definition len {A} (l : list A) : Q := inject_Z (Z.of_nat (List.length l)).

(** Lines 174-220 for one ring: [None] when the ring is skipped. *)
Definition building_of_ring (row : BuildingRow) (ring_idx : nat) (ring : list (Q * Q))
  : Exc (option OvertureBuilding) :=
  let footprint := map to_local (removelast ring) in
  if (List.length footprint <? 3)%nat then ret None
  else
    let cx := py_sum (map fst footprint) / len footprint in
    let cz := py_sum (map snd footprint) / len footprint in
    let bldg_height := building_height (br_id row) (br_height row) (br_num_floors row) in
    let xs := map fst footprint in
    let zs := map snd footprint in
    max_x <- py_max xs ;;
    min_x <- py_min xs ;;
    max_z <- py_max zs ;;
    min_z <- py_min zs ;;
    let width := max_x - min_x in
    let depth := max_z - min_z in
    let color_idx := Z.to_nat (hash (br_id row) mod 25) in
    let color := nth color_idx color_palette EmptyString in
    ret (Some (mkOvertureBuilding
                 (if (0 <? ring_idx)%nat
                  then String.append "bldg-"
                         (String.append (br_id row)
                            (String.append "-" (PyStr.of_nat ring_idx)))
                  else String.append "bldg-" (br_id row))
                 (name_or_empty (br_name row))
                 footprint
                 (cx, 0, cz)
                 (width, bldg_height, depth)
                 color)).

(** Lines 166-172: the outer rings of a geometry. *)
Definition rings_of (g : Geometry) : option (list (list (Q * Q))) :=
  match g with
  | Polygon outer _ => Some [outer]
  | MultiPolygon polys => Some (map fst polys)
  | _ => None
  end.

Fixpoint rings_loop (row : BuildingRow) (buildings : list OvertureBuilding)
                    (rings : list (nat * list (Q * Q)))
  : Exc (list OvertureBuilding) :=
  match rings with
  | [] => ret buildings
  | (ring_idx, ring) :: r =>
      ob <- building_of_ring row ring_idx ring ;;
      rings_loop row (match ob with
                      | Some b => buildings ++ [b]
                      | None => buildings
                      end) r
  end.

Fixpoint rows_loop (buildings : list OvertureBuilding) (rows : list BuildingRow)
  : Exc (list OvertureBuilding) :=
  match rows with
  | [] => ret buildings
  | row :: r =>
      match rings_of (br_geom row) with
      | None => rows_loop buildings r
      | Some rings =>
          bs <- rings_loop row buildings (PySort.enumerate_from 0 rings) ;;
          rows_loop bs r
      end
  end.

(** [fetch_buildings] after the query. *)
Definition fetch_buildings (rows : list BuildingRow) : Exc (list OvertureBuilding) :=
  rows_loop [] rows.

End WithEnvironment.
End FetchOvertureScript.

(** A number with one decimal, as [round(x, 1)] returns it. *)
Definition on_grid (q : Q) : Prop := exists n : Z, q = inject_Z n / 10.

Definition pt_on_grid (p : Point) : Prop := on_grid (fst p) /\ on_grid (snd p).

(** The order a sort by [key] produces. *)
Definition key_le {A : Type} (key : A -> Q) (a b : A) : Prop := key a <= key b.

(** [Subsequence l1 l2]: [l1] is [l2] with some elements left out, the
    others in their order. *)
Inductive Subsequence {A : Type} : list A -> list A -> Prop :=
| Subsequence_nil : Subsequence [] []
| Subsequence_skip a l1 l2 : Subsequence l1 l2 -> Subsequence l1 (a :: l2)
| Subsequence_keep a l1 l2 : Subsequence l1 l2 -> Subsequence (a :: l1) (a :: l2).

(** Case analysis on a chain of binds that is known to succeed. *)
Ltac exc_cases H :=
  unfold PyNum.bind in H;
  repeat match type of H with
         | context [match ?m with inl _ => _ | inr _ => _ end] =>
             destruct m eqn:?; try discriminate H
         end.

(** * Properties *)

(** ** Rounding *)

Section Rounding.
Import PyNum.

Lemma round_half_even_cases (q : Q) :
  let z := round_half_even q in
  (Qabs (q - inject_Z z) < 1 # 2) \/
  (Qabs (q - inject_Z z) == 1 # 2 /\ Z.even z = true).
Proof.
  cbv zeta. unfold round_half_even.
  pose proof (Qfloor_le q) as Hlo.
  pose proof (Qlt_floor q) as Hhi.
  set (f := Qfloor q) in *.
  rewrite inject_Z_plus in Hhi. change (inject_Z 1) with 1 in Hhi.
  destruct (Qcompare_spec (q - inject_Z f) (1 # 2)) as [He | Hlt | Hgt].
  - destruct (Z.even f) eqn:Ev.
    + right. split; [| exact Ev].
      rewrite Qabs_pos by lra. exact He.
    + right. split.
      * rewrite inject_Z_plus. change (inject_Z 1) with 1.
        rewrite Qabs_neg by lra. lra.
      * rewrite Z.even_add, Ev. reflexivity.
  - left. rewrite Qabs_pos by lra. exact Hlt.
  - left. rewrite inject_Z_plus. change (inject_Z 1) with 1.
    rewrite Qabs_neg by lra. lra.
Qed.

Lemma round_half_even_close (q : Q) :
  - (1 # 2) <= q - inject_Z (round_half_even q) <= 1 # 2.
Proof.
  apply Qabs_Qle_condition.
  destruct (round_half_even_cases q) as [H | [H _]].
  - apply Qlt_le_weak. exact H.
  - rewrite H. apply Qle_refl.
Qed.

(** An integer strictly within one half of [q] is its rounding. *)
Lemma round_half_even_unique (q : Q) (z : Z) :
  Qabs (q - inject_Z z) < 1 # 2 -> round_half_even q = z.
Proof.
  intros H. apply Qabs_Qlt_condition in H.
  pose proof (round_half_even_close q) as C.
  set (r := round_half_even q) in *.
  assert (Hlt : inject_Z r < inject_Z (z + 1)).
  { rewrite inject_Z_plus. change (inject_Z 1) with 1. lra. }
  assert (Hgt : inject_Z z < inject_Z (r + 1)).
  { rewrite inject_Z_plus. change (inject_Z 1) with 1. lra. }
  rewrite <- Zlt_Qlt in Hlt, Hgt. lia.
Qed.

Lemma round_half_even_inject (n : Z) : round_half_even (inject_Z n) = n.
Proof.
  apply round_half_even_unique.
  setoid_replace (inject_Z n - inject_Z n) with 0 by ring.
  reflexivity.
Qed.

Lemma round_half_even_mono (x y : Q) :
  x <= y -> (round_half_even x <= round_half_even y)%Z.
Proof.
  intros Hxy.
  destruct (Z_le_gt_dec (round_half_even x) (round_half_even y)) as [H | H]; [exact H | exfalso].
  pose proof (round_half_even_cases x) as Cx.
  pose proof (round_half_even_cases y) as Cy.
  cbv zeta in Cx, Cy.
  set (a := round_half_even x) in *. set (b := round_half_even y) in *.
  assert (Hab : inject_Z b + 1 <= inject_Z a).
  { change 1 with (inject_Z 1). rewrite <- inject_Z_plus, <- Zle_Qle. lia. }
  destruct Cx as [Cx | [Cx Ea]].
  - apply Qabs_Qlt_condition in Cx.
    assert (Cy' : - (1 # 2) <= y - inject_Z b <= 1 # 2)
      by (subst b; apply round_half_even_close).
    lra.
  - destruct Cy as [Cy | [Cy Eb]].
    + apply Qabs_Qlt_condition in Cy.
      assert (Cx' : - (1 # 2) <= x - inject_Z a <= 1 # 2)
        by (subst a; apply round_half_even_close).
      lra.
    + assert (Cx' : - (1 # 2) <= x - inject_Z a <= 1 # 2)
        by (subst a; apply round_half_even_close).
      assert (Cy' : - (1 # 2) <= y - inject_Z b <= 1 # 2)
        by (subst b; apply round_half_even_close).
      assert (Hle : inject_Z a <= inject_Z (b + 1)).
      { rewrite inject_Z_plus. change (inject_Z 1) with 1. lra. }
      rewrite <- Zle_Qle in Hle.
      assert (a = b + 1)%Z by lia. subst a.
      rewrite H0 in Ea. rewrite Z.even_add, Eb in Ea. discriminate.
Qed.

#[global] Instance round_half_even_proper : Proper (Qeq ==> eq) round_half_even.
Proof.
  intros x y E.
  apply Z.le_antisymm; apply round_half_even_mono; rewrite E; apply Qle_refl.
Qed.

#[global] Instance round1_proper : Proper (Qeq ==> Qeq) round1.
Proof.
  intros x y E. unfold round1. rewrite E. reflexivity.
Qed.

Lemma round1_mono (x y : Q) : x <= y -> round1 x <= round1 y.
Proof.
  intros H. unfold round1.
  assert (Hz : (round_half_even (x * 10) <= round_half_even (y * 10))%Z)
    by (apply round_half_even_mono; lra).
  rewrite Zle_Qle in Hz.
  apply Qmult_le_r with (z := 10); [reflexivity |].
  field_simplify. lra.
Qed.

(** A value on the tenth-of-a-metre grid, moved by less than 0.05, rounds
    back to itself. *)
Lemma round1_grid (n : Z) (e : Q) :
  - (5 # 100) < e < 5 # 100 -> round1 (inject_Z n / 10 + e) == inject_Z n / 10.
Proof.
  intros He. unfold round1.
  rewrite (round_half_even_unique _ n); [reflexivity |].
  apply Qabs_Qlt_condition.
  split; field_simplify; lra.
Qed.

Lemma round1_inject (n : Z) : round1 (inject_Z n) == inject_Z n.
Proof.
  unfold round1.
  assert (E : inject_Z n * 10 == inject_Z (n * 10)).
  { rewrite inject_Z_mult. reflexivity. }
  rewrite E, round_half_even_inject, inject_Z_mult.
  change (inject_Z 10) with 10. field.
Qed.

Lemma round1_zero (x : Q) : x == 0 -> round1 x == 0.
Proof.
  intros E. rewrite E. apply (round1_inject 0).
Qed.


End Rounding.

(** ** Projection *)

Section ProjectionFacts.
Variable F : Frame.

Lemma convert_to_local_formula (lon lat : Q) :
  pt_eq (Projection.convert_to_local F lon lat)
        ((lon - CENTER_LON F) * LON_TO_METERS F,
         - (lat - CENTER_LAT F) * LAT_TO_METERS F).
Proof. split; reflexivity. Qed.

Lemma to_local_formula (lon lat : Q) :
  pt_eq (Projection.to_local F lon lat)
        (PyNum.round1 ((lon - CENTER_LON F) * LON_TO_METERS F),
         PyNum.round1 (- (lat - CENTER_LAT F) * LAT_TO_METERS F)).
Proof. split; reflexivity. Qed.

(** With a positive scale, going north never increases z. *)
Lemma convert_to_local_north (lon lat1 lat2 : Q) :
  0 <= LAT_TO_METERS F -> lat1 <= lat2 ->
  snd (Projection.convert_to_local F lon lat2) <= snd (Projection.convert_to_local F lon lat1).
Proof.
  intros Hk Hl. simpl.
  assert (H : 0 <= (lat2 - lat1) * LAT_TO_METERS F)
    by (apply Qmult_le_0_compat; lra).
  lra.
Qed.

Lemma to_local_north (lon lat1 lat2 : Q) :
  0 <= LAT_TO_METERS F -> lat1 <= lat2 ->
  snd (Projection.to_local F lon lat2) <= snd (Projection.to_local F lon lat1).
Proof.
  intros Hk Hl. simpl. apply round1_mono.
  apply (convert_to_local_north lon lat1 lat2 Hk Hl).
Qed.

End ProjectionFacts.

(** C1 (defect in scripts/fetch-overture-data.py).  [latlon_to_local] does
    not negate the latitude difference: one thousandth of a degree north of
    its centre it returns z = +111.0, where the stated formula
    z = -(latitude - center_latitude) * lat_to_meters, which the other
    conversion functions compute, gives -111.0. *)
Theorem C1_latlon_to_local_z_points_north :
  forall cos_radians : Q -> Q,
    let F := mkFrame FetchOverture.CENTER_LAT FetchOverture.CENTER_LON 111000
                     (111000 * cos_radians FetchOverture.CENTER_LAT) in
    (forall lon lat center_lon center_lat,
        snd (FetchOverture.latlon_to_local cos_radians lon lat center_lon center_lat)
        == PyNum.round1 ((lat - center_lat) * 111000)) /\
    snd (FetchOverture.latlon_to_local cos_radians (-89.9842) 38.5180
           FetchOverture.CENTER_LON FetchOverture.CENTER_LAT) == 111 /\
    - (38.5180 - CENTER_LAT F) * LAT_TO_METERS F == - (111) /\
    snd (Projection.to_local F (-89.9842) 38.5180) == - (111).
Proof.
  intros c. cbv zeta.
  split; [intros lon lat clon clat; reflexivity |].
  repeat split; vm_compute; reflexivity.
Qed.

(** C5.  For every frame the centre projects to (0, 0), with or without the
    rounding.  With the centre (38.5200, -89.9839) and the factors 111000
    and 87000, at the one-decimal resolution of the output, that is as
    extract_streets.py's [convert_to_local] returns and as
    extract_downtown.py rounds what its [convert_to_local] returns
    (line 93): (-89.9839, 38.5200) goes to (0, 0), (-89.9829, 38.5200) to
    (87, 0) and (-89.9839, 38.5210) to (0, -111).  A point off the grid,
    (-89.98294, 38.52004), whose exact image is (83.52, -4.44), goes to
    (83.5, -4.4). *)
Theorem C5_center_projects_to_origin :
  (forall F : Frame,
      pt_eq (Projection.convert_to_local F (CENTER_LON F) (CENTER_LAT F)) (0, 0) /\
      pt_eq (Projection.to_local F (CENTER_LON F) (CENTER_LAT F)) (0, 0)) /\
  pt_eq (ExtractStreets.convert_to_local (-89.9839) 38.5200) (0, 0) /\
  pt_eq (ExtractStreets.convert_to_local (-89.9829) 38.5200) (87, 0) /\
  pt_eq (ExtractStreets.convert_to_local (-89.9839) 38.5210) (0, -111) /\
  pt_eq (ExtractStreets.convert_to_local (-89.98294) 38.52004) (83.5, -4.4) /\
  pt_eq (ExtractDowntown.convert_to_local (-89.9839) 38.5200) (0, 0) /\
  (let rounded := fun p : Point => (PyNum.round1 (fst p), PyNum.round1 (snd p)) in
   pt_eq (rounded (ExtractDowntown.convert_to_local (-89.9839) 38.5200)) (0, 0) /\
   pt_eq (rounded (ExtractDowntown.convert_to_local (-89.9829) 38.5200)) (87, 0) /\
   pt_eq (rounded (ExtractDowntown.convert_to_local (-89.9839) 38.5210)) (0, -111) /\
   pt_eq (rounded (ExtractDowntown.convert_to_local (-89.98294) 38.52004))
         (83.5, -4.4)).
Proof.
  split.
  - intros F. split; split; simpl.
    + ring.
    + ring.
    + apply round1_zero. ring.
    + apply round1_zero. ring.
  - cbv zeta. repeat split; vm_compute; reflexivity.
Qed.

(** ** The bounding check *)

Lemma between_iff (lo v hi : Q) : between lo v hi = true <-> lo <= v <= hi.
Proof.
  unfold between. rewrite andb_true_iff, !Qle_bool_iff. reflexivity.
Qed.

Lemma in_bounds_iff (R : Region) (pt : Point) :
  in_bounds R pt = true <->
  (min_x R <= fst pt <= max_x R) /\ (min_z R <= snd pt <= max_z R).
Proof.
  unfold in_bounds. rewrite andb_true_iff, !between_iff. reflexivity.
Qed.

(** C8.  The bounding check holds exactly when
    min_x <= x <= max_x and min_z <= z <= max_z; a point on any of the four
    boundaries, its other coordinate in range, is inside. *)
Theorem C8_in_bounds_inclusive (R : Region) (x z : Q) :
  (in_bounds R (x, z) = true <->
   (min_x R <= x <= max_x R) /\ (min_z R <= z <= max_z R)) /\
  (min_x R <= max_x R -> min_z R <= z <= max_z R ->
   in_bounds R (min_x R, z) = true /\ in_bounds R (max_x R, z) = true) /\
  (min_z R <= max_z R -> min_x R <= x <= max_x R ->
   in_bounds R (x, min_z R) = true /\ in_bounds R (x, max_z R) = true).
Proof.
  split; [apply in_bounds_iff |].
  split; intros Hm Ho; split; apply in_bounds_iff; simpl; lra.
Qed.

Lemma C8_in_bounds_inclusive_witness :
  let R := mkRegion (-100) 100 (-100) 100 in
  (in_bounds R (-100, 0) = true /\ in_bounds R (100, 0) = true) /\
  (in_bounds R (0, -100) = true /\ in_bounds R (0, 100) = true).
Proof.
  cbv zeta.
  destruct (C8_in_bounds_inclusive (mkRegion (-100) 100 (-100) 100) 0 0)
    as [_ [Hx Hz]].
  split; [apply Hx | apply Hz]; simpl; lra.
Defined.

(** ** The recentering scripts *)

(** C9.  The translation recenter_data.py applies (subtract [offset_x],
    [offset_z]) is the one recenter_correct.py calls the correct shift (add
    [shift_x], [shift_z]); the total shift of recenter_correct.py is below
    0.05 m in each axis, and on coordinates of the 0.1 m grid, which is what
    the earlier scripts write, its rounded update changes nothing. *)
Theorem C9_recenter_correct_is_near_noop :
  (forall x, RecenterData.moved_x x == x + RecenterCorrect.shift_x) /\
  (forall z, RecenterData.moved_z z == z + RecenterCorrect.shift_z) /\
  (forall pt, pt_eq (RecenterData.recenter_point pt)
                    (PyNum.round1 (fst pt + RecenterCorrect.shift_x),
                     PyNum.round1 (snd pt + RecenterCorrect.shift_z))) /\
  (forall x, Qabs ((x + RecenterCorrect.total_shift_x) - x) < 0.05) /\
  (forall z, Qabs ((z + RecenterCorrect.total_shift_z) - z) < 0.05) /\
  (forall n m : Z,
      pt_eq (RecenterCorrect.fix_point (inject_Z n / 10, inject_Z m / 10))
            (inject_Z n / 10, inject_Z m / 10)).
Proof.
  assert (Ex : RecenterCorrect.total_shift_x == - (39 # 1000))
    by (vm_compute; reflexivity).
  assert (Ez : RecenterCorrect.total_shift_z == - (23 # 1000))
    by (vm_compute; reflexivity).
  assert (Hx : forall x, RecenterData.moved_x x == x + RecenterCorrect.shift_x).
  { intros x. unfold RecenterData.moved_x.
    assert (E : RecenterData.offset_x == - RecenterCorrect.shift_x)
      by (vm_compute; reflexivity).
    lra. }
  assert (Hz : forall z, RecenterData.moved_z z == z + RecenterCorrect.shift_z).
  { intros z. unfold RecenterData.moved_z.
    assert (E : RecenterData.offset_z == - RecenterCorrect.shift_z)
      by (vm_compute; reflexivity).
    lra. }
  split; [exact Hx |]. split; [exact Hz |].
  split; [intros pt; split; simpl; apply round1_proper; [apply Hx | apply Hz] |].
  split; [| split; [| intros n m; split]].
  - intros x. apply Qabs_Qlt_condition. rewrite Ex. lra.
  - intros z. apply Qabs_Qlt_condition. rewrite Ez. lra.
  - simpl. apply round1_grid. rewrite Ex. lra.
  - simpl. apply round1_grid. rewrite Ez. lra.
Qed.

(** ** The height estimate *)

Lemma Qlt_bool_iff (x y : Q) : Qlt_bool x y = true <-> x < y.
Proof.
  unfold Qlt_bool. rewrite negb_true_iff.
  split; intros H.
  - apply Qnot_le_lt. intros C. apply Qle_bool_iff in C. congruence.
  - destruct (Qle_bool y x) eqn:E; [| reflexivity].
    apply Qle_bool_iff in E. lra.
Qed.

Lemma Qlt_bool_false_iff (x y : Q) : Qlt_bool x y = false <-> y <= x.
Proof.
  unfold Qlt_bool. rewrite negb_false_iff. apply Qle_bool_iff.
Qed.

Lemma min2_spec (a b : Q) :
  (a <= b /\ PyNum.min2 a b = a) \/ (b < a /\ PyNum.min2 a b = b).
Proof.
  unfold PyNum.min2. destruct (Qle_bool a b) eqn:E.
  - left. split; [apply Qle_bool_iff; exact E | reflexivity].
  - right. split; [| reflexivity].
    apply Qnot_le_lt. intros C. apply Qle_bool_iff in C. congruence.
Qed.

(** The estimate piece by piece. *)
Lemma estimate_height_pieces (a : Q) :
  (a < 50 /\ Polygon.estimate_height a == 5 + a / 10) \/
  (50 <= a < 200 /\ Polygon.estimate_height a == 8 + a / 30) \/
  (200 <= a < 500 /\ Polygon.estimate_height a == 12 + a / 50) \/
  (500 <= a <= 2000 /\ Polygon.estimate_height a == 18 + a / 80) \/
  (2000 < a /\ Polygon.estimate_height a == 43).
Proof.
  unfold Polygon.estimate_height.
  destruct (Qlt_bool a 50) eqn:E1.
  { apply Qlt_bool_iff in E1. left. split; [exact E1 | reflexivity]. }
  apply Qlt_bool_false_iff in E1. right.
  destruct (Qlt_bool a 200) eqn:E2.
  { apply Qlt_bool_iff in E2. left. split; [lra | reflexivity]. }
  apply Qlt_bool_false_iff in E2. right.
  destruct (Qlt_bool a 500) eqn:E3.
  { apply Qlt_bool_iff in E3. left. split; [lra | reflexivity]. }
  apply Qlt_bool_false_iff in E3. right.
  destruct (min2_spec (a / 80) 25) as [[H E] | [H E]]; rewrite E;
    unfold Qdiv in H; change (/ 80) with (1 # 80) in H.
  - left. split; [| reflexivity]. lra.
  - right. split; [lra | ring].
Qed.

(** C2, as the code has it.  For non-negative areas a <= b the estimate
    at a is at most the estimate at b exactly when the pair does not
    straddle the breakpoint 50 with 3 + b/30 < a/10 (which needs
    140/3 < a < 50 <= b < 60); there it drops.  At 40, 300 and 600 it is 9,
    18 and 25.5; at 100 it is 34/3, which is 11.3 at one decimal. *)
Theorem C2_estimate_height_monotone_apart_from_50 :
  (forall a b : Q,
      0 <= a -> a <= b ->
      (Polygon.estimate_height a <= Polygon.estimate_height b <->
       ~ (a < 50 /\ 50 <= b /\ 3 + b / 30 < a / 10))) /\
  Polygon.estimate_height 40 == 9 /\
  Polygon.estimate_height 100 == 34 # 3 /\
  PyNum.round1 (Polygon.estimate_height 100) == 11.3 /\
  Polygon.estimate_height 300 == 18 /\
  Polygon.estimate_height 600 == 25.5.
Proof.
  split; [| repeat split; vm_compute; reflexivity].
  intros a b Ha Hab.
  destruct (estimate_height_pieces a) as [[Ca Ea] | [[Ca Ea] | [[Ca Ea] | [[Ca Ea] | [Ca Ea]]]]];
  destruct (estimate_height_pieces b) as [[Cb Eb] | [[Cb Eb] | [[Cb Eb] | [[Cb Eb] | [Cb Eb]]]]];
  rewrite Ea, Eb; unfold Qdiv;
  change (/ 10) with (1 # 10); change (/ 30) with (1 # 30);
  change (/ 50) with (1 # 50); change (/ 80) with (1 # 80);
  (split;
   [ intros Hle [H1 [H2 H3]]; lra
   | intros Hnot;
     destruct (Qlt_le_dec (3 + b * (1 # 30)) (a * (1 # 10))) as [Hlt | Hge];
     [ try lra; exfalso; apply Hnot; repeat split; lra | lra ] ]).
Qed.

Lemma C2_estimate_height_monotone_apart_from_50_witness :
  Polygon.estimate_height 49 <= Polygon.estimate_height 100.
Proof.
  apply (proj1 C2_estimate_height_monotone_apart_from_50 49 100); [lra | lra |].
  intros [_ [_ H]]. revert H. unfold Qdiv.
  change (/ 30) with (1 # 30). change (/ 10) with (1 # 10). lra.
Defined.

(** C2 as stated fails: 49 <= 50, yet the estimate at 49 (9.9) exceeds the
    estimate at 50 (29/3). *)
Lemma C2_estimate_height_not_monotone :
  ~ (forall a b : Q, 0 <= a -> a <= b ->
       Polygon.estimate_height a <= Polygon.estimate_height b).
Proof.
  intros H. specialize (H 49 50).
  assert (C : Polygon.estimate_height 49 <= Polygon.estimate_height 50)
    by (apply H; lra).
  vm_compute in C. apply C. reflexivity.
Qed.

(** ** Polygon decimation *)

Section Decimation.
Variable A : Type.
Implicit Types (points : list A) (k step : nat).

Lemma range_from_lt fuel start stop step i :
  In i (Polygon.range_from fuel start stop step) -> (i < stop)%nat.
Proof.
  revert start. induction fuel as [| fuel IH]; intros start; simpl.
  - intros [].
  - destruct (start <? stop)%nat eqn:E.
    + apply Nat.ltb_lt in E. intros [<- | H]; [exact E | exact (IH _ H)].
    + intros [].
Qed.

Lemma range_from_nth fuel start stop step k :
  (1 <= step)%nat -> (stop <= start + fuel)%nat ->
  nth_error (Polygon.range_from fuel start stop step) k =
  if (start + k * step <? stop)%nat then Some (start + k * step)%nat else None.
Proof.
  intros Hstep. revert start k.
  induction fuel as [| fuel IH]; intros start k Hfuel; simpl.
  - replace (start + k * step <? stop)%nat with false
      by (symmetry; apply Nat.ltb_ge; lia).
    destruct k; reflexivity.
  - destruct (start <? stop)%nat eqn:E.
    + destruct k as [| k]; simpl.
      * rewrite Nat.add_0_r, E. reflexivity.
      * rewrite IH by lia.
        replace (start + step + k * step)%nat with (start + (step + k * step))%nat by lia.
        reflexivity.
    + apply Nat.ltb_ge in E.
      replace (start + k * step <? stop)%nat with false
        by (symmetry; apply Nat.ltb_ge; lia).
      destruct k; reflexivity.
Qed.

(** Picking the elements at valid indices. *)
Lemma pick_nth points (l : list nat) k :
  Forall (fun i => (i < length points)%nat) l ->
  nth_error (flat_map (fun i => match nth_error points i with
                                | Some p => [p]
                                | None => []
                                end) l) k =
  match nth_error l k with
  | Some i => nth_error points i
  | None => None
  end.
Proof.
  intros H. revert k. induction H as [| i l Hi Hl IH]; intros k; simpl.
  - destruct k; reflexivity.
  - destruct (nth_error points i) as [p |] eqn:E.
    + destruct k as [| k]; simpl; [symmetry; exact E | apply IH].
    + apply nth_error_None in E. lia.
Qed.

(** The decimation keeps exactly the points at the multiples of [step]. *)
Lemma every_nth_nth points step k :
  (1 <= step)%nat ->
  nth_error (Polygon.every_nth points step) k =
  if (k * step <? length points)%nat then nth_error points (k * step) else None.
Proof.
  intros Hstep. unfold Polygon.every_nth, Polygon.range_step.
  rewrite pick_nth.
  - rewrite range_from_nth by lia. simpl.
    destruct (k * step <? length points)%nat; reflexivity.
  - apply Forall_forall. intros i Hi. exact (range_from_lt _ _ _ _ _ Hi).
Qed.

Lemma step_of_pos points : (1 <= Polygon.step_of points)%nat.
Proof. unfold Polygon.step_of. lia. Qed.

Lemma last_snoc (l : list A) (a d : A) : last (l ++ [a]) d = a.
Proof. apply last_last. Qed.

End Decimation.

(** The inline decimation of rebuild_all.py keeps the points as they are
    when there are fewer than 40 of them, and does not close the ring. *)
Lemma decimate_five_points :
  Polygon.decimate [(0, 0); (4, 0); (4, 4); (2, 6); (0, 4)]
  = [(0, 0); (4, 0); (4, 4); (2, 6); (0, 4)].
Proof. reflexivity. Qed.

Lemma pt_eqb_refl (p : Point) : pt_eqb p p = true.
Proof.
  unfold pt_eqb. rewrite !Qeq_bool_refl. reflexivity.
Qed.

Lemma pt_eqb_iff (p q : Point) : pt_eqb p q = true <-> pt_eq p q.
Proof.
  unfold pt_eqb, pt_eq. rewrite andb_true_iff, !Qeq_bool_iff. reflexivity.
Qed.

(** [simplify_polygon] on more than 4 points, with the step and the
    equality of points written out. *)
Lemma simplify_polygon_long (points : list Point) :
  (4 < length points)%nat ->
  exists (first : Point) (kept init : list Point) (final : Point),
    nth_error points 0 = Some first /\
    (forall k, nth_error kept k =
               if (k * Nat.max 1 (length points / 20) <? length points)%nat
               then nth_error points (k * Nat.max 1 (length points / 20))
               else None) /\
    (pt_eq first (last kept first) ->
     ExtractDowntown.simplify_polygon points = kept) /\
    (~ pt_eq first (last kept first) ->
     ExtractDowntown.simplify_polygon points = kept ++ [first]) /\
    hd_error (ExtractDowntown.simplify_polygon points) = Some first /\
    ExtractDowntown.simplify_polygon points = init ++ [final] /\
    pt_eq first final.
Proof.
  intros Hlen.
  unfold ExtractDowntown.simplify_polygon, Polygon.simplify_polygon.
  replace (length points <=? 4)%nat with false
    by (symmetry; apply Nat.leb_gt; exact Hlen).
  cbv zeta.
  assert (Hchar : forall k,
             nth_error (Polygon.every_nth points (Polygon.step_of points)) k =
             if (k * Nat.max 1 (length points / 20) <? length points)%nat
             then nth_error points (k * Nat.max 1 (length points / 20))
             else None)
    by (intros k; apply (every_nth_nth _ points (Polygon.step_of points)), step_of_pos).
  remember (Polygon.every_nth points (Polygon.step_of points)) as kept eqn:Ek.
  pose proof (Hchar 0%nat) as H0. simpl in H0.
  replace (0 <? length points)%nat with true in H0
    by (symmetry; apply Nat.ltb_lt; lia).
  destruct points as [| p0 rest]; [simpl in Hlen; lia |].
  simpl (nth_error (p0 :: rest) 0) in H0.
  destruct kept as [| f more]; [discriminate H0 |].
  simpl in H0. injection H0 as ->.
  destruct (pt_eqb p0 (last (p0 :: more) p0)) eqn:Eq; simpl negb; cbv iota.
  - exists p0, (p0 :: more), (removelast (p0 :: more)), (last (p0 :: more) p0).
    split; [reflexivity |]. split; [exact Hchar |].
    split; [reflexivity |].
    split; [intros Hn; exfalso; apply Hn, pt_eqb_iff, Eq |].
    split; [reflexivity |].
    split; [apply app_removelast_last; discriminate | apply pt_eqb_iff, Eq].
  - exists p0, (p0 :: more), (p0 :: more), p0.
    split; [reflexivity |]. split; [exact Hchar |].
    split; [intros Hy; apply pt_eqb_iff in Hy; congruence |].
    split; [reflexivity |].
    split; [reflexivity |].
    split; [reflexivity | split; reflexivity].
Qed.

(** C3 (defect in rebuild_all.py).  [simplify_polygon] of
    extract_downtown.py does what is claimed: at most 4 points come back
    unchanged; more are cut down to the points at the multiples of
    step = max(1, len(points) // 20), the first of them is appended exactly
    when the last one differs from it, and the result starts and ends with
    equal points.  The inline decimation of rebuild_all.py (lines 174-175)
    keeps the same points but never closes the ring: a closed ring of 40
    vertices comes out as 20 points ending at vertex 38, which differs from
    vertex 0, where [simplify_polygon] returns the same 20 points and
    vertex 0 again. *)
Theorem C3_ring_closed_by_simplify_polygon_only :
  (forall points : list Point,
      ((length points <= 4)%nat ->
       ExtractDowntown.simplify_polygon points = points) /\
      ((4 < length points)%nat ->
       exists (first : Point) (kept init : list Point) (final : Point),
         nth_error points 0 = Some first /\
         (forall k, nth_error kept k =
                    if (k * Nat.max 1 (length points / 20) <? length points)%nat
                    then nth_error points (k * Nat.max 1 (length points / 20))
                    else None) /\
         (pt_eq first (last kept first) ->
          ExtractDowntown.simplify_polygon points = kept) /\
         (~ pt_eq first (last kept first) ->
          ExtractDowntown.simplify_polygon points = kept ++ [first]) /\
         hd_error (ExtractDowntown.simplify_polygon points) = Some first /\
         ExtractDowntown.simplify_polygon points = init ++ [final] /\
         pt_eq first final) /\
      (forall k, nth_error (Polygon.decimate points) k =
                 if (k * Nat.max 1 (length points / 20) <? length points)%nat
                 then nth_error points (k * Nat.max 1 (length points / 20))
                 else None)) /\
  (let ring := map (fun i => (inject_Z (Z.of_nat i), 0)) (seq 0 39) ++ [(0, 0)] in
   let thinned := map (fun i => (inject_Z (Z.of_nat (2 * i)), 0)) (seq 0 20) in
   length ring = 40%nat /\
   hd_error ring = Some (0, 0) /\
   last ring (1, 1) = (0, 0) /\
   Polygon.decimate ring = thinned /\
   hd_error (Polygon.decimate ring) = Some (0, 0) /\
   last (Polygon.decimate ring) (0, 0) = (38, 0) /\
   ~ pt_eq (0, 0) (38, 0) /\
   ExtractDowntown.simplify_polygon ring = thinned ++ [(0, 0)]).
Proof.
  split.
  - intros points. split; [| split].
    + intros Hlen. unfold ExtractDowntown.simplify_polygon, Polygon.simplify_polygon.
      apply Nat.leb_le in Hlen. rewrite Hlen. reflexivity.
    + apply simplify_polygon_long.
    + intros k. unfold Polygon.decimate.
      apply (every_nth_nth _ points (Polygon.step_of points)), step_of_pos.
  - cbv zeta. repeat split; try (vm_compute; reflexivity).
    intros [H _]. vm_compute in H. discriminate H.
Qed.

Lemma C3_ring_closed_by_simplify_polygon_only_witness :
  let three := [(0, 0); (1, 0); (1, 1)] in
  let five := [(0, 0); (4, 0); (4, 4); (2, 6); (0, 4)] in
  ExtractDowntown.simplify_polygon three = three /\
  exists (first : Point) (kept init : list Point) (final : Point),
    nth_error five 0 = Some first /\
    (forall k, nth_error kept k =
               if (k * Nat.max 1 (length five / 20) <? length five)%nat
               then nth_error five (k * Nat.max 1 (length five / 20))
               else None) /\
    (pt_eq first (last kept first) ->
     ExtractDowntown.simplify_polygon five = kept) /\
    (~ pt_eq first (last kept first) ->
     ExtractDowntown.simplify_polygon five = kept ++ [first]) /\
    hd_error (ExtractDowntown.simplify_polygon five) = Some first /\
    ExtractDowntown.simplify_polygon five = init ++ [final] /\
    pt_eq first final.
Proof.
  cbv zeta. split.
  - apply (proj1 (proj1 C3_ring_closed_by_simplify_polygon_only
                    [(0, 0); (1, 0); (1, 1)])).
    simpl. lia.
  - apply (proj1 (proj2 (proj1 C3_ring_closed_by_simplify_polygon_only
                           [(0, 0); (4, 0); (4, 4); (2, 6); (0, 4)]))).
    simpl. lia.
Defined.

(** ** Filtering streets *)

Section Loops.
Variables A B : Type.

(** A loop that appends [g s] for the elements that pass [c] builds the
    image of the filtered list. *)
Lemma append_loop (c : A -> bool) (g : A -> B) (l : list A) (acc : list B) :
  fold_left (fun acc s => if c s then acc ++ [g s] else acc) l acc =
  acc ++ map g (filter c l).
Proof.
  revert acc. induction l as [| s l IH]; intros acc; simpl.
  - rewrite app_nil_r. reflexivity.
  - rewrite IH. destruct (c s); simpl.
    + rewrite <- app_assoc. reflexivity.
    + reflexivity.
Qed.

Lemma filter_subsequence (c : A -> bool) (l : list A) : Subsequence (filter c l) l.
Proof.
  induction l as [| a l IH]; simpl.
  - constructor.
  - destruct (c a); constructor; exact IH.
Qed.

End Loops.

Lemma finalize_filtered_eq (R : Region) (streets : list Street) :
  FinalizeStreets.filtered R streets =
  map (fun s => set_points s (filter (in_bounds R) (s_points s)))
      (filter (fun s => (2 <=? length (filter (in_bounds R) (s_points s)))%nat) streets).
Proof.
  unfold FinalizeStreets.filtered.
  rewrite (append_loop _ _
             (fun s => (2 <=? length (filter (in_bounds R) (s_points s)))%nat)
             (fun s => set_points s (filter (in_bounds R) (s_points s)))).
  reflexivity.
Qed.

(** C4.  The clipping loop of finalize_streets.py returns, in order, the
    streets whose in-region points number at least 2, each reduced to those
    points; so every street it returns has at least 2 points, all in the
    region, and a street with fewer in-region points is absent.  With the
    region (-100, 100, -100, 100) the polyline (-150,0), (0,0), (150,0)
    clips to the single point (0,0) and is dropped.  The loop is applied to
    street polylines only. *)
Theorem C4_clip_drops_short_polylines (R : Region) (streets : list Street) :
  FinalizeStreets.filtered R streets =
    map (fun s => set_points s (filter (in_bounds R) (s_points s)))
        (filter (fun s => (2 <=? length (filter (in_bounds R) (s_points s)))%nat)
                streets) /\
  (forall s, In s (FinalizeStreets.filtered R streets) ->
             (2 <= length (s_points s))%nat /\
             (forall pt, In pt (s_points s) -> in_bounds R pt = true)) /\
  filter (in_bounds (mkRegion (-100) 100 (-100) 100)) [(-150, 0); (0, 0); (150, 0)]
    = [(0, 0)] /\
  (forall id name type width color,
      FinalizeStreets.filtered (mkRegion (-100) 100 (-100) 100)
        [mkStreet id name type [(-150, 0); (0, 0); (150, 0)] width color] = []).
Proof.
  split; [apply finalize_filtered_eq |].
  split; [| split; [reflexivity | intros; reflexivity]].
  intros s Hs. rewrite finalize_filtered_eq in Hs.
  apply in_map_iff in Hs. destruct Hs as [s0 [<- Hs0]].
  apply filter_In in Hs0. destruct Hs0 as [_ Hlen].
  apply Nat.leb_le in Hlen. simpl. split; [exact Hlen |].
  intros pt Hpt. apply filter_In in Hpt. tauto.
Qed.

Lemma C4_clip_drops_short_polylines_witness :
  Nat.le 2 (length [(-50, 0); (0, 0)]) /\
  (forall pt, In pt [(-50, 0); (0, 0)] ->
              in_bounds (mkRegion (-100) 100 (-100) 100) pt = true).
Proof.
  apply (proj1 (proj2 (C4_clip_drops_short_polylines
                         (mkRegion (-100) 100 (-100) 100)
                         [mkStreet "street-1" "Main Street" "primary"
                                   [(-150, 0); (-50, 0); (0, 0)] 10 "#3a3a4a"]))
               (mkStreet "street-1" "Main Street" "primary"
                         [(-50, 0); (0, 0)] 10 "#3a3a4a")).
  simpl. left. reflexivity.
Defined.

Lemma keep_any_In (R : Region) (streets : list Street) (s : Street) :
  In s (filter (fun s => existsb (in_bounds R) (s_points s)) streets) <->
  In s streets /\ exists pt, In pt (s_points s) /\ in_bounds R pt = true.
Proof.
  rewrite filter_In, existsb_exists. reflexivity.
Qed.

Lemma fix_alignment_filtered_eq (R : Region) (streets : list Street) :
  FixAlignment.filtered_streets R streets =
  filter (fun s => existsb (in_bounds R) (s_points s)) streets.
Proof.
  unfold FixAlignment.filtered_streets.
  rewrite (append_loop _ _ (fun s => existsb (in_bounds R) (s_points s)) (fun s => s)).
  simpl. apply map_id.
Qed.

Lemma align_streets_filtered_eq (R : Region) (streets : list Street) :
  AlignStreets.filtered R streets =
  filter (fun s => existsb (in_bounds R) (s_points s)) streets.
Proof.
  unfold AlignStreets.filtered.
  rewrite (append_loop _ _ (fun s => existsb (in_bounds R) (s_points s)) (fun s => s)).
  simpl. apply map_id.
Qed.

(** C6.  The keep-if-any-point loops of fix_alignment.py and
    align_streets.py return exactly the streets that have a point in the
    region, each as it came in (same record, same points), in the order of
    the input. *)
Theorem C6_keep_whole_street_if_any_point_in_region (R : Region) (streets : list Street) :
  (FixAlignment.filtered_streets R streets =
     filter (fun s => existsb (in_bounds R) (s_points s)) streets /\
   AlignStreets.filtered R streets =
     filter (fun s => existsb (in_bounds R) (s_points s)) streets) /\
  (forall s,
      (In s (FixAlignment.filtered_streets R streets) <->
       In s streets /\ exists pt, In pt (s_points s) /\ in_bounds R pt = true) /\
      (In s (AlignStreets.filtered R streets) <->
       In s streets /\ exists pt, In pt (s_points s) /\ in_bounds R pt = true)) /\
  Subsequence (FixAlignment.filtered_streets R streets) streets /\
  Subsequence (AlignStreets.filtered R streets) streets.
Proof.
  rewrite fix_alignment_filtered_eq, align_streets_filtered_eq.
  split; [split; reflexivity |].
  split; [intros s; split; apply keep_any_In |].
  split; apply filter_subsequence.
Qed.

Lemma C6_keep_whole_street_if_any_point_in_region_witness :
  let R := mkRegion (-100) 100 (-100) 100 in
  let s := mkStreet "street-1" "Main Street" "primary"
                    [(-150, 0); (0, 0); (150, 0)] 10 "#3a3a4a" in
  let t := mkStreet "street-2" "Far Street" "service"
                    [(-150, 0); (-160, 0)] 4 "#303040" in
  In s (FixAlignment.filtered_streets R [t; s]) /\
  In s (AlignStreets.filtered R [t; s]).
Proof.
  cbv zeta.
  pose proof (proj1 (proj2 (C6_keep_whole_street_if_any_point_in_region
    (mkRegion (-100) 100 (-100) 100)
    [mkStreet "street-2" "Far Street" "service" [(-150, 0); (-160, 0)] 4 "#303040";
     mkStreet "street-1" "Main Street" "primary" [(-150, 0); (0, 0); (150, 0)] 10 "#3a3a4a"]))
    (mkStreet "street-1" "Main Street" "primary" [(-150, 0); (0, 0); (150, 0)] 10 "#3a3a4a"))
    as [Hfix Halign].
  assert (Hin : In (mkStreet "street-1" "Main Street" "primary"
                      [(-150, 0); (0, 0); (150, 0)] 10 "#3a3a4a")
                   [mkStreet "street-2" "Far Street" "service"
                      [(-150, 0); (-160, 0)] 4 "#303040";
                    mkStreet "street-1" "Main Street" "primary"
                      [(-150, 0); (0, 0); (150, 0)] 10 "#3a3a4a"] /\
                exists pt, In pt [(-150, 0); (0, 0); (150, 0)] /\
                           in_bounds (mkRegion (-100) 100 (-100) 100) pt = true).
  { split; [right; left; reflexivity |].
    exists (0, 0). split; [right; left; reflexivity | reflexivity]. }
  split; [apply Hfix | apply Halign]; exact Hin.
Defined.

(** ** The anchor street of rebuild_all.py *)

Section Anchor.
Import Osm RebuildAll PyNum.




End Anchor.



(** ** The minimum footprint of emitted buildings *)

Section Sorting.
Variable A : Type.
Variable key : A -> Q.

Lemma insert_In (a x : A) (l : list A) :
  In x (PySort.insert A key a l) <-> x = a \/ In x l.
Proof.
  induction l as [| b l IH]; simpl.
  - intuition congruence.
  - destruct (Qlt_bool (key a) (key b)); simpl; rewrite ?IH; intuition congruence.
Qed.

Lemma sort_loop_In (x : A) (l acc : list A) :
  In x (fold_left (fun acc a => PySort.insert A key a acc) l acc) <->
  In x l \/ In x acc.
Proof.
  revert acc. induction l as [| a l IH]; intros acc; simpl.
  - tauto.
  - rewrite IH, insert_In. intuition congruence.
Qed.

Lemma sort_In (x : A) (l : list A) : In x (PySort.sort key l) <-> In x l.
Proof.
  unfold PySort.sort. rewrite sort_loop_In. simpl. tauto.
Qed.

End Sorting.

Lemma enumerate_In (A : Type) (i k : nat) (x : A) (l : list A) :
  In (i, x) (PySort.enumerate_from k l) -> In x l.
Proof.
  revert k. induction l as [| a l IH]; intros k; simpl; [tauto |].
  intros [E | H]; [injection E as _ <-; left; reflexivity | right; exact (IH _ H)].
Qed.


Lemma not_tiny (width depth : Q) :
  Qlt_bool width 3 || Qlt_bool depth 3 = false -> 3 <= width /\ 3 <= depth.
Proof.
  intros H. apply orb_false_iff in H. destruct H as [Hw Hd].
  apply Qlt_bool_false_iff in Hw, Hd. split; assumption.
Qed.

Section DowntownBuildings.
Variable transform : Q -> Q -> PyNum.Exc (Q * Q).





End DowntownBuildings.

Section RebuildBuildings.
Variable F : Frame.
Variable transform : Q -> Q -> PyNum.Exc (Q * Q).




End RebuildBuildings.




(** * Further properties of the scripts *)

(** ** Size of a decimated ring *)

Section DecimationSize.
Variable A : Type.
Implicit Types (points : list A).

Lemma step_of_small points :
  (length points < 40)%nat -> Polygon.step_of points = 1%nat.
Proof.
  intros H. unfold Polygon.step_of.
  assert (length points / 20 <= 1)%nat.
  { apply Nat.lt_succ_r. apply Nat.Div0.div_lt_upper_bound. lia. }
  lia.
Qed.

Lemma step_of_bound points :
  (length points <= 39 * Polygon.step_of points)%nat.
Proof.
  unfold Polygon.step_of.
  pose proof (Nat.div_mod_eq (length points) 20) as E.
  pose proof (Nat.mod_upper_bound (length points) 20 ltac:(lia)) as M.
  destruct (Nat.le_gt_cases 2 (length points / 20)); lia.
Qed.

Lemma every_nth_one points : Polygon.every_nth points 1 = points.
Proof.
  apply nth_error_ext. intros k.
  rewrite every_nth_nth by lia. rewrite Nat.mul_1_r.
  destruct (k <? length points)%nat eqn:E; [reflexivity |].
  apply Nat.ltb_ge in E. symmetry. apply nth_error_None. exact E.
Qed.

Lemma every_nth_length points step k :
  (1 <= step)%nat -> (length points <= k * step)%nat ->
  (length (Polygon.every_nth points step) <= k)%nat.
Proof.
  intros Hs Hk. apply nth_error_None. rewrite every_nth_nth by exact Hs.
  replace (k * step <? length points)%nat with false
    by (symmetry; apply Nat.ltb_ge; exact Hk).
  reflexivity.
Qed.

Lemma decimate_length points :
  (length (Polygon.decimate points) <= 39)%nat /\
  (length (Polygon.decimate points) <= length points)%nat.
Proof.
  unfold Polygon.decimate. pose proof (step_of_pos _ points) as Hs. split.
  - apply every_nth_length; [exact Hs | apply step_of_bound].
  - apply every_nth_length; [exact Hs | nia].
Qed.

End DecimationSize.

(** X1.  However many vertices a shape has, the inline decimation of
    rebuild_all.py leaves at most 39 of them and [simplify_polygon] returns
    at most 40; neither returns more than it was given, apart from the one
    closing point. *)
Theorem X1_decimated_ring_size (points : list Point) :
  (length (Polygon.decimate points) <= 39)%nat /\
  (length (Polygon.decimate points) <= length points)%nat /\
  (length (ExtractDowntown.simplify_polygon points) <= 40)%nat /\
  (length (ExtractDowntown.simplify_polygon points) <= length points + 1)%nat.
Proof.
  destruct (decimate_length _ points) as [H39 Hle].
  split; [exact H39 |]. split; [exact Hle |].
  unfold ExtractDowntown.simplify_polygon, Polygon.simplify_polygon.
  fold (Polygon.decimate points).
  destruct (length points <=? 4)%nat eqn:E.
  - apply Nat.leb_le in E. lia.
  - unfold Polygon.decimate in *. cbv zeta in *.
    destruct (Polygon.every_nth points (Polygon.step_of points)) as [| f more] eqn:Ek.
    + simpl. lia.
    + destruct (negb _).
      * rewrite length_app. simpl in *. lia.
      * simpl in *. lia.
Qed.

(** X2.  A ring of fewer than 40 vertices is not thinned: the inline
    decimation returns it as it is, and [simplify_polygon] returns it as it
    is or with its first point appended. *)
Theorem X2_short_ring_not_thinned (first : Point) (rest : list Point) :
  (length (first :: rest) < 40)%nat ->
  Polygon.decimate (first :: rest) = first :: rest /\
  ((4 < length (first :: rest))%nat ->
   ExtractDowntown.simplify_polygon (first :: rest) =
     if pt_eqb first (last (first :: rest) first)
     then first :: rest
     else (first :: rest) ++ [first]).
Proof.
  intros Hlen.
  assert (Hd : Polygon.decimate (first :: rest) = first :: rest).
  { unfold Polygon.decimate. rewrite step_of_small by exact Hlen.
    apply every_nth_one. }
  split; [exact Hd |].
  intros H4. unfold ExtractDowntown.simplify_polygon, Polygon.simplify_polygon.
  replace (length (first :: rest) <=? 4)%nat with false
    by (symmetry; apply Nat.leb_gt; exact H4).
  unfold Polygon.decimate in Hd. cbv zeta in *. rewrite Hd.
  destruct (pt_eqb first (last (first :: rest) first)); reflexivity.
Qed.

Lemma X2_short_ring_not_thinned_witness :
  Polygon.decimate [(0, 0); (4, 0); (4, 4); (2, 6); (0, 4)]
    = [(0, 0); (4, 0); (4, 4); (2, 6); (0, 4)] /\
  ExtractDowntown.simplify_polygon [(0, 0); (4, 0); (4, 4); (2, 6); (0, 4)]
    = [(0, 0); (4, 0); (4, 4); (2, 6); (0, 4); (0, 0)].
Proof.
  destruct (X2_short_ring_not_thinned (0, 0) [(4, 0); (4, 4); (2, 6); (0, 4)])
    as [Hd Hs]; [simpl; lia |].
  split; [exact Hd |].
  etransitivity; [apply Hs; simpl; lia | reflexivity].
Defined.

(** ** Range of the height estimate *)

(** X3.  For a non-negative area the estimated height lies between 5 and
    43 metres, and from 2000 square metres on it is exactly 43. *)
Theorem X3_estimate_height_range (area : Q) :
  0 <= area ->
  5 <= Polygon.estimate_height area <= 43 /\
  (2000 <= area -> Polygon.estimate_height area == 43).
Proof.
  intros Ha.
  destruct (estimate_height_pieces area)
    as [[C E] | [[C E] | [[C E] | [[C E] | [C E]]]]];
    rewrite E; unfold Qdiv;
    change (/ 10) with (1 # 10); change (/ 30) with (1 # 30);
    change (/ 50) with (1 # 50); change (/ 80) with (1 # 80);
    (split; [lra | intros H; lra]).
Qed.

Lemma X3_estimate_height_range_witness :
  5 <= Polygon.estimate_height 2500 <= 43 /\ Polygon.estimate_height 2500 == 43.
Proof.
  destruct (X3_estimate_height_range 2500) as [Hr Hc]; [lra |].
  split; [exact Hr | apply Hc; lra].
Defined.

(** ** Minimum and maximum of a list *)

Section MinMax.
Import PyNum.

Lemma min_from_spec (xs : list Q) (m : Q) :
  (min_from m xs = m \/ In (min_from m xs) xs) /\
  min_from m xs <= m /\
  (forall x, In x xs -> min_from m xs <= x).
Proof.
  revert m. induction xs as [| y xs IH]; intros m; simpl.
  - split; [left; reflexivity |]. split; [apply Qle_refl | intros x []].
  - destruct (Qlt_le_dec y m) as [Hlt | Hle].
    + destruct (IH y) as [Hin [Hm Hall]]. split; [| split].
      * right. destruct Hin as [-> | Hin]; [left; reflexivity | right; exact Hin].
      * lra.
      * intros x [<- | Hx]; [exact Hm | exact (Hall x Hx)].
    + destruct (IH m) as [Hin [Hm Hall]]. split; [| split].
      * destruct Hin as [E | Hin]; [left; exact E | right; right; exact Hin].
      * exact Hm.
      * intros x [<- | Hx]; [lra | exact (Hall x Hx)].
Qed.

Lemma max_from_spec (xs : list Q) (m : Q) :
  (max_from m xs = m \/ In (max_from m xs) xs) /\
  m <= max_from m xs /\
  (forall x, In x xs -> x <= max_from m xs).
Proof.
  revert m. induction xs as [| y xs IH]; intros m; simpl.
  - split; [left; reflexivity |]. split; [apply Qle_refl | intros x []].
  - destruct (Qlt_le_dec m y) as [Hlt | Hle].
    + destruct (IH y) as [Hin [Hm Hall]]. split; [| split].
      * right. destruct Hin as [-> | Hin]; [left; reflexivity | right; exact Hin].
      * lra.
      * intros x [<- | Hx]; [exact Hm | exact (Hall x Hx)].
    + destruct (IH m) as [Hin [Hm Hall]]. split; [| split].
      * destruct Hin as [E | Hin]; [left; exact E | right; right; exact Hin].
      * exact Hm.
      * intros x [<- | Hx]; [lra | exact (Hall x Hx)].
Qed.

Lemma py_min_spec (xs : list Q) (m : Q) :
  py_min xs = inr m -> In m xs /\ forall x, In x xs -> m <= x.
Proof.
  destruct xs as [| y xs]; simpl; [discriminate |].
  intros E. injection E as <-.
  destruct (min_from_spec xs y) as [Hin [Hm Hall]]. split.
  - destruct Hin as [-> | Hin]; [left; reflexivity | right; exact Hin].
  - intros x [<- | Hx]; [exact Hm | exact (Hall x Hx)].
Qed.

Lemma py_max_spec (xs : list Q) (m : Q) :
  py_max xs = inr m -> In m xs /\ forall x, In x xs -> x <= m.
Proof.
  destruct xs as [| y xs]; simpl; [discriminate |].
  intros E. injection E as <-.
  destruct (max_from_spec xs y) as [Hin [Hm Hall]]. split.
  - destruct Hin as [-> | Hin]; [left; reflexivity | right; exact Hin].
  - intros x [<- | Hx]; [exact Hm | exact (Hall x Hx)].
Qed.

Lemma py_min_some (xs : list Q) : xs <> [] -> exists m, py_min xs = inr m.
Proof.
  destruct xs as [| y xs]; [congruence | intros _; eexists; reflexivity].
Qed.

Lemma py_max_some (xs : list Q) : xs <> [] -> exists m, py_max xs = inr m.
Proof.
  destruct xs as [| y xs]; [congruence | intros _; eexists; reflexivity].
Qed.

End MinMax.

(** ** The region around the buildings *)

(** X4.  The region the filtering scripts derive from the buildings
    contains every footprint vertex when the margin is not negative; when
    no building has a vertex the derivation dies with ValueError, and so
    does finalize_streets.py. *)
Theorem X4_building_region_contains_footprints (margin : Q) (buildings : list Building) :
  0 <= margin ->
  (flat_map b_footprint buildings = [] ->
   building_region margin buildings = inl PyNum.ValueError /\
   forall streets,
     FinalizeStreets.finalize_streets streets buildings = inl PyNum.ValueError) /\
  (forall R, building_region margin buildings = inr R ->
             forall b pt, In b buildings -> In pt (b_footprint b) ->
                          in_bounds R pt = true).
Proof.
  intros Hm. split.
  - intros E. unfold FinalizeStreets.finalize_streets, building_region.
    rewrite E. split; [| intros streets]; reflexivity.
  - intros R HR b pt Hb Hpt.
    assert (Hin : In pt (flat_map b_footprint buildings))
      by (apply in_flat_map; exists b; split; assumption).
    unfold building_region in HR. exc_cases HR. injection HR as <-.
    repeat match goal with
           | H : PyNum.py_min _ = inr _ |- _ => apply py_min_spec in H; destruct H as [_ H]
           | H : PyNum.py_max _ = inr _ |- _ => apply py_max_spec in H; destruct H as [_ H]
           end.
    apply in_bounds_iff. simpl.
    pose proof (in_map fst _ _ Hin) as Hx. pose proof (in_map snd _ _ Hin) as Hz.
    repeat match goal with
           | H : forall x, In x (map fst _) -> _ |- _ => specialize (H _ Hx)
           | H : forall x, In x (map snd _) -> _ |- _ => specialize (H _ Hz)
           end.
    lra.
Qed.

Lemma X4_building_region_contains_footprints_witness :
  in_bounds (mkRegion (-30) 40 (-30) 50) (10, 20) = true.
Proof.
  destruct (X4_building_region_contains_footprints 30
              [mkBuilding "bldg-1" [(0, 0); (10, 0); (10, 20); (0, 20)]
                          (5, 0, 10) (10, 9, 20) None]) as [_ H]; [lra |].
  apply (H (mkRegion (-30) 40 (-30) 50) eq_refl
           (mkBuilding "bldg-1" [(0, 0); (10, 0); (10, 20); (0, 20)]
                       (5, 0, 10) (10, 9, 20) None) (10, 20)).
  - left. reflexivity.
  - simpl. tauto.
Defined.

(** ** Clipping twice, and clipping against keeping *)

Lemma filter_twice (A : Type) (f : A -> bool) (l : list A) :
  filter f (filter f l) = filter f l.
Proof.
  induction l as [| a l IH]; simpl; [reflexivity |].
  destruct (f a) eqn:E; simpl; rewrite ?E, IH; reflexivity.
Qed.

(** X5.  Clipping is idempotent: running the loop of finalize_streets.py
    on its own output with the same region changes nothing. *)
Theorem X5_clip_idempotent (R : Region) (streets : list Street) :
  FinalizeStreets.filtered R (FinalizeStreets.filtered R streets)
  = FinalizeStreets.filtered R streets.
Proof.
  rewrite (finalize_filtered_eq R (FinalizeStreets.filtered R streets)).
  rewrite (finalize_filtered_eq R streets).
  set (g := fun s => set_points s (filter (in_bounds R) (s_points s))).
  set (c := fun s => (2 <=? length (filter (in_bounds R) (s_points s)))%nat).
  assert (Hc : forall s, c (g s) = c s).
  { intros s. unfold c, g. simpl. rewrite filter_twice. reflexivity. }
  assert (Hg : forall s, g (g s) = g s).
  { intros s. unfold g, set_points. simpl. rewrite filter_twice. reflexivity. }
  induction streets as [| s streets IH]; [reflexivity |].
  cbn [filter]. destruct (c s) eqn:E.
  - cbn [map filter]. rewrite Hc, E. cbn [map]. rewrite Hg, IH. reflexivity.
  - exact IH.
Qed.

(** X6.  Clipping is the stricter filter: the streets that survive the
    clip of finalize_streets.py are, by id and in order, among those the
    keep-if-any-point loops of fix_alignment.py and align_streets.py keep
    for the same region. *)
Theorem X6_clip_survivors_among_kept (R : Region) (streets : list Street) :
  Subsequence (map s_id (FinalizeStreets.filtered R streets))
              (map s_id (FixAlignment.filtered_streets R streets)) /\
  Subsequence (map s_id (FinalizeStreets.filtered R streets))
              (map s_id (AlignStreets.filtered R streets)).
Proof.
  rewrite finalize_filtered_eq, fix_alignment_filtered_eq, align_streets_filtered_eq.
  set (g := fun s => set_points s (filter (in_bounds R) (s_points s))).
  set (c := fun s => (2 <=? length (filter (in_bounds R) (s_points s)))%nat).
  set (k := fun s => existsb (in_bounds R) (s_points s)).
  assert (Hck : forall s, c s = true -> k s = true).
  { intros s E. unfold c in E. unfold k. apply Nat.leb_le in E.
    destruct (filter (in_bounds R) (s_points s)) as [| p ps] eqn:F;
      [simpl in E; lia |].
    apply existsb_exists. exists p.
    assert (Hp : In p (filter (in_bounds R) (s_points s)))
      by (rewrite F; left; reflexivity).
    apply filter_In in Hp. exact Hp. }
  assert (H : Subsequence (map s_id (map g (filter c streets)))
                          (map s_id (filter k streets))).
  { induction streets as [| s streets IH]; [constructor |].
    cbn [filter]. destruct (c s) eqn:E.
    - rewrite (Hck s E). cbn [map]. change (s_id (g s)) with (s_id s).
      apply Subsequence_keep. exact IH.
    - destruct (k s); cbn [map]; [apply Subsequence_skip; exact IH | exact IH]. }
  split; exact H.
Qed.

(** ** Invariants of the shape loops *)

Section DowntownInvariant.
Variable transform : Q -> Q -> PyNum.Exc (Q * Q).
Variable P : Building -> Prop.
Hypothesis HP : forall n points b,
    ExtractDowntown.building_of transform n points = inr (Some b) -> P b.

Lemma downtown_step_Forall st points st' :
  Forall P (fst st) ->
  ExtractDowntown.shape_step transform st points = inr st' ->
  Forall P (fst st').
Proof.
  unfold ExtractDowntown.shape_step. destruct st as [buildings in_bounds].
  intros Hinv H. simpl in Hinv.
  destruct points as [| [x y] rest]; [injection H as <-; exact Hinv |].
  destruct (transform x y) as [e | [lon lat]]; [injection H as <-; exact Hinv |].
  destruct (negb _); [injection H as <-; exact Hinv |].
  unfold PyNum.bind in H.
  destruct (ExtractDowntown.building_of transform (S in_bounds) ((x, y) :: rest))
    as [e | [b |]] eqn:Hb; [discriminate H | |]; injection H as <-; simpl.
  - apply Forall_app. split; [exact Hinv |].
    constructor; [exact (HP _ _ _ Hb) | constructor].
  - exact Hinv.
Qed.

Lemma downtown_loop_Forall shapes st st' :
  Forall P (fst st) ->
  ExtractDowntown.shapes_loop transform st shapes = inr st' ->
  Forall P (fst st').
Proof.
  revert st. induction shapes as [| points shapes IH]; intros st Hinv H; simpl in H.
  - injection H as <-. exact Hinv.
  - unfold PyNum.bind in H.
    destruct (ExtractDowntown.shape_step transform st points) as [e | st1] eqn:Hs;
      [discriminate H |].
    exact (IH _ (downtown_step_Forall _ _ _ Hinv Hs) H).
Qed.

End DowntownInvariant.

Section RebuildInvariant.
Variable F : Frame.
Variable transform : Q -> Q -> PyNum.Exc (Q * Q).
Variable P : Building -> Prop.
Hypothesis HP : forall n points b,
    RebuildAll.building_of F transform n points = inr (Some b) -> P b.

Lemma rebuild_step_Forall buildings points buildings' :
  Forall P buildings ->
  RebuildAll.shape_step F transform buildings points = inr buildings' ->
  Forall P buildings'.
Proof.
  unfold RebuildAll.shape_step. intros Hinv H.
  destruct points as [| [x y] rest]; [injection H as <-; exact Hinv |].
  destruct (transform x y) as [e | [lon lat]]; [injection H as <-; exact Hinv |].
  destruct (negb _); [injection H as <-; exact Hinv |].
  unfold PyNum.bind in H.
  destruct (RebuildAll.building_of F transform (length buildings) ((x, y) :: rest))
    as [e | [b |]] eqn:Hb; [discriminate H | |]; injection H as <-.
  - apply Forall_app. split; [exact Hinv |].
    constructor; [exact (HP _ _ _ Hb) | constructor].
  - exact Hinv.
Qed.

Lemma rebuild_loop_Forall shapes buildings buildings' :
  Forall P buildings ->
  RebuildAll.shapes_loop F transform buildings shapes = inr buildings' ->
  Forall P buildings'.
Proof.
  revert buildings. induction shapes as [| points shapes IH]; intros bs Hinv H; simpl in H.
  - injection H as <-. exact Hinv.
  - unfold PyNum.bind in H.
    destruct (RebuildAll.shape_step F transform bs points) as [e | bs1] eqn:Hs;
      [discriminate H |].
    exact (IH _ (rebuild_step_Forall _ _ _ Hinv Hs) H).
Qed.

End RebuildInvariant.

(** What the closing loop keeps of a building. *)
Lemma sort_and_color_In (bs : list Building) (b : Building) :
  In b (Buildings.sort_and_color bs) ->
  exists b0, In b0 bs /\ b_footprint b = b_footprint b0 /\
             b_position b = b_position b0 /\ b_size b = b_size b0.
Proof.
  unfold Buildings.sort_and_color. intros H.
  apply in_map_iff in H. destruct H as [[i b0] [<- H]].
  apply enumerate_In in H. apply sort_In in H.
  exists b0. repeat split. exact H.
Qed.

(** A property of the accepted buildings that only reads footprint,
    position and size holds of every building either script writes. *)
Lemma emitted_buildings_Forall (P : Building -> Prop)
      (fetch : Osm.Query -> PyNum.Exc (list Osm.Element))
      (transform : Q -> Q -> PyNum.Exc (Q * Q)) (shapes : list (list (Q * Q))) :
  (forall b b0, b_footprint b = b_footprint b0 -> b_position b = b_position b0 ->
                b_size b = b_size b0 -> P b0 -> P b) ->
  (forall n points b,
      ExtractDowntown.building_of transform n points = inr (Some b) -> P b) ->
  (forall F n points b,
      RebuildAll.building_of F transform n points = inr (Some b) -> P b) ->
  forall b,
    In b (ExtractDowntown.written (ExtractDowntown.main transform shapes)) \/
    In b (RebuildAll.emitted_buildings (RebuildAll.rebuild_all fetch transform shapes)) ->
    P b.
Proof.
  intros Hext Hd Hr b [H | H].
  - unfold ExtractDowntown.main, ExtractDowntown.written, PyNum.bind in H.
    destruct (ExtractDowntown.shapes_loop transform ([], 0%nat) shapes)
      as [e | st] eqn:E; simpl in H; [tauto |].
    apply sort_and_color_In in H. destruct H as [b0 [Hb0 [Ef [Ep Es]]]].
    pose proof (downtown_loop_Forall transform P Hd shapes ([], 0%nat) st
                  (Forall_nil _) E) as Hall.
    rewrite Forall_forall in Hall. exact (Hext _ _ Ef Ep Es (Hall _ Hb0)).
  - unfold RebuildAll.rebuild_all, RebuildAll.emitted_buildings in H.
    destruct (PyNum.bind _ _) as [e | F]; [simpl in H; tauto |].
    destruct (fetch RebuildAll.streets_query) as [e | result]; [simpl in H; tauto |].
    destruct (RebuildAll.shapes_loop F transform [] shapes) as [e | bs] eqn:E;
      [simpl in H; tauto |].
    simpl in H. rewrite app_nil_r in H.
    apply sort_and_color_In in H. destruct H as [b0 [Hb0 [Ef [Ep Es]]]].
    pose proof (rebuild_loop_Forall F transform P (Hr F) shapes [] bs
                  (Forall_nil _) E) as Hall.
    rewrite Forall_forall in Hall. exact (Hext _ _ Ef Ep Es (Hall _ Hb0)).
Qed.

Lemma estimate_height_from_9 (area : Q) :
  9 <= area -> 5.9 <= Polygon.estimate_height area <= 43.
Proof.
  intros Ha.
  destruct (estimate_height_pieces area)
    as [[C E] | [[C E] | [[C E] | [[C E] | [C E]]]]];
    rewrite E; unfold Qdiv;
    change (/ 10) with (1 # 10); change (/ 30) with (1 # 30);
    change (/ 50) with (1 # 50); change (/ 80) with (1 # 80); lra.
Qed.

Lemma area_from_9 (width depth : Q) : 3 <= width -> 3 <= depth -> 9 <= width * depth.
Proof.
  intros Hw Hd.
  assert (H : 0 <= (width - 3) * (depth - 3)) by (apply Qmult_le_0_compat; lra).
  lra.
Qed.

Lemma rounded_height_range (width depth : Q) :
  3 <= width -> 3 <= depth ->
  5.9 <= PyNum.round1 (Polygon.estimate_height (width * depth)) <= 43.
Proof.
  intros Hw Hd.
  destruct (estimate_height_from_9 _ (area_from_9 _ _ Hw Hd)) as [Hlo Hhi].
  apply round1_mono in Hlo, Hhi.
  assert (E1 : PyNum.round1 5.9 == 5.9) by (vm_compute; reflexivity).
  assert (E2 : PyNum.round1 43 == 43) by (vm_compute; reflexivity).
  rewrite E1 in Hlo. rewrite E2 in Hhi. split; assumption.
Qed.

(** X7.  Every building that extract_downtown.py or rebuild_all.py writes
    has a height, size[1], between 5.9 and 43 metres. *)
Theorem X7_emitted_heights_between_5_9_and_43
  (fetch : Osm.Query -> PyNum.Exc (list Osm.Element))
  (transform : Q -> Q -> PyNum.Exc (Q * Q))
  (shapes : list (list (Q * Q))) (b : Building) :
  In b (ExtractDowntown.written (ExtractDowntown.main transform shapes)) \/
  In b (RebuildAll.emitted_buildings (RebuildAll.rebuild_all fetch transform shapes)) ->
  5.9 <= size1 b <= 43.
Proof.
  apply (emitted_buildings_Forall (fun b => 5.9 <= size1 b <= 43)).
  - intros b1 b0 _ _ Es H. unfold size1 in *. rewrite Es. exact H.
  - intros n points b1 H. unfold ExtractDowntown.building_of in H. exc_cases H.
    match type of H with
    | (if ?c then _ else _) = _ => destruct c eqn:Etiny
    end; [discriminate H |].
    apply not_tiny in Etiny. destruct Etiny as [Hw Hd].
    injection H as <-. unfold size1. simpl. apply rounded_height_range; assumption.
  - intros F n points b1 H. unfold RebuildAll.building_of in H. exc_cases H.
    match type of H with
    | (if ?c then _ else _) = _ => destruct c eqn:Etiny
    end; [discriminate H |].
    apply not_tiny in Etiny. destruct Etiny as [Hw Hd].
    injection H as <-. unfold size1. simpl. apply rounded_height_range; assumption.
Qed.

Lemma X7_emitted_heights_between_5_9_and_43_witness :
  5.9 <= 43.0 <= 43.
Proof.
  apply (X7_emitted_heights_between_5_9_and_43
           (fun q => PyNum.ret [])
           (fun x y => PyNum.ret (x, y))
           [[(-89.984, 38.520); (-89.983, 38.520); (-89.983, 38.521); (-89.984, 38.521)]]
           (mkBuilding "bldg-1"
              [(- (87 # 10), 0 # 10); (783 # 10, 0 # 10);
               (783 # 10, - (1110 # 10)); (- (87 # 10), - (1110 # 10))]
              (348 # 10, 0, - (555 # 10))
              (87.0, 43.0, 111.0)
              (Some "#74b9ff"%string))).
  left. vm_compute. left. reflexivity.
Defined.

(** ** The closing sort, renumbering and colouring *)

Section SortFacts.
Variable A : Type.
Variable key : A -> Q.

Lemma insert_HdRel (a b : A) (l : list A) :
  key_le key b a -> HdRel (key_le key) b l -> HdRel (key_le key) b (PySort.insert A key a l).
Proof.
  intros Hba Hl. destruct l as [| c l]; simpl.
  - constructor. exact Hba.
  - destruct (Qlt_bool (key a) (key c)); constructor; [exact Hba |].
    inversion Hl; assumption.
Qed.

Lemma insert_Sorted (a : A) (l : list A) :
  Sorted (key_le key) l -> Sorted (key_le key) (PySort.insert A key a l).
Proof.
  induction 1 as [| b l Hs IH Hb]; simpl.
  - repeat constructor.
  - destruct (Qlt_bool (key a) (key b)) eqn:E.
    + apply Qlt_bool_iff in E. constructor; [constructor; assumption |].
      constructor. unfold key_le. lra.
    + apply Qlt_bool_false_iff in E. constructor; [exact IH |].
      apply insert_HdRel; assumption.
Qed.

Lemma insert_Permutation (a : A) (l : list A) :
  Permutation (PySort.insert A key a l) (a :: l).
Proof.
  induction l as [| b l IH]; simpl; [reflexivity |].
  destruct (Qlt_bool (key a) (key b)); [reflexivity |].
  rewrite IH. apply perm_swap.
Qed.

Lemma sort_loop_Sorted (l acc : list A) :
  Sorted (key_le key) acc ->
  Sorted (key_le key) (fold_left (fun acc a => PySort.insert A key a acc) l acc).
Proof.
  revert acc. induction l as [| a l IH]; intros acc H; simpl; [exact H |].
  apply IH, insert_Sorted, H.
Qed.

Lemma sort_loop_Permutation (l acc : list A) :
  Permutation (fold_left (fun acc a => PySort.insert A key a acc) l acc) (l ++ acc).
Proof.
  revert acc. induction l as [| a l IH]; intros acc; simpl; [reflexivity |].
  rewrite IH. rewrite insert_Permutation. symmetry. apply Permutation_middle.
Qed.

Lemma sort_StronglySorted (l : list A) : StronglySorted (key_le key) (PySort.sort key l).
Proof.
  apply Sorted_StronglySorted.
  - intros x y z Hxy Hyz. unfold key_le in *. lra.
  - apply sort_loop_Sorted. constructor.
Qed.

Lemma sort_Permutation (l : list A) : Permutation (PySort.sort key l) l.
Proof.
  unfold PySort.sort. rewrite sort_loop_Permutation, app_nil_r. reflexivity.
Qed.

End SortFacts.

Lemma enumerate_nth (A : Type) (l : list A) (k i : nat) :
  nth_error (PySort.enumerate_from k l) i =
  match nth_error l i with
  | Some a => Some ((k + i)%nat, a)
  | None => None
  end.
Proof.
  revert k i. induction l as [| a l IH]; intros k i; simpl.
  - destruct i; reflexivity.
  - destruct i as [| i]; simpl.
    + rewrite Nat.add_0_r. reflexivity.
    + rewrite IH. replace (S k + i)%nat with (k + S i)%nat by lia. reflexivity.
Qed.

Lemma recolor_enumerate_core (l : list Building) (k : nat) :
  map (fun b => (b_footprint b, b_position b, b_size b))
      (map Buildings.recolor (PySort.enumerate_from k l))
  = map (fun b => (b_footprint b, b_position b, b_size b)) l.
Proof.
  revert k. induction l as [| a l IH]; intros k; simpl; [reflexivity |].
  rewrite IH. reflexivity.
Qed.

Lemma recolor_enumerate_sorted (l : list Building) (k : nat) :
  StronglySorted (key_le Buildings.dist2) l ->
  StronglySorted (key_le Buildings.dist2)
                 (map Buildings.recolor (PySort.enumerate_from k l)).
Proof.
  intros H. revert k. induction H as [| a l Hs IH Ha]; intros k; simpl.
  - constructor.
  - constructor; [apply IH |].
    apply Forall_forall. intros b Hb.
    apply in_map_iff in Hb. destruct Hb as [[i b0] [<- Hb]].
    apply enumerate_In in Hb. rewrite Forall_forall in Ha.
    exact (Ha _ Hb).
Qed.

(** X8.  The closing loop of extract_downtown.py and rebuild_all.py puts
    the accepted buildings in order of non-decreasing squared distance of
    their position from the origin, and changes no footprint, position or
    size: these are a rearrangement of the ones it was given. *)
Theorem X8_buildings_sorted_by_distance (buildings : list Building) :
  StronglySorted (fun a b => Buildings.dist2 a <= Buildings.dist2 b)
                 (Buildings.sort_and_color buildings) /\
  Permutation
    (map (fun b => (b_footprint b, b_position b, b_size b))
         (Buildings.sort_and_color buildings))
    (map (fun b => (b_footprint b, b_position b, b_size b)) buildings).
Proof.
  unfold Buildings.sort_and_color. split.
  - apply (recolor_enumerate_sorted _ 0). apply sort_StronglySorted.
  - rewrite recolor_enumerate_core. apply Permutation_map, sort_Permutation.
Qed.

(** X9.  After the closing loop the building at rank i (from 0) has the id
    "bldg-" followed by i+1 and the colour number i mod 14 of the palette;
    as many buildings come out as went in. *)
Theorem X9_buildings_numbered_and_coloured_by_rank (buildings : list Building) :
  length (Buildings.sort_and_color buildings) = length buildings /\
  (forall i b,
      nth_error (Buildings.sort_and_color buildings) i = Some b ->
      b_id b = String.append "bldg-" (PyStr.of_nat (i + 1)) /\
      b_color b = Some (nth (i mod 14) Buildings.colors EmptyString) /\
      In (nth (i mod 14) Buildings.colors EmptyString) Buildings.colors).
Proof.
  split.
  - unfold Buildings.sort_and_color.
    pose proof (f_equal (@length _) (recolor_enumerate_core
                  (PySort.sort Buildings.dist2 buildings) 0)) as E.
    rewrite !length_map in E. rewrite length_map, E.
    apply Permutation_length, sort_Permutation.
  - intros i b H. unfold Buildings.sort_and_color in H.
    rewrite nth_error_map, enumerate_nth in H.
    destruct (nth_error (PySort.sort Buildings.dist2 buildings) i) as [b0 |];
      [| discriminate H].
    cbn [option_map] in H. injection H as <-.
    split; [reflexivity |]. split; [reflexivity |].
    apply nth_In. change (length Buildings.colors) with 14%nat.
    apply Nat.mod_upper_bound. discriminate.
Qed.

Lemma X9_buildings_numbered_and_coloured_by_rank_witness :
  b_id (mkBuilding "bldg-2" [] (9, 0, 9) (4, 6, 4) (Some "#a29bfe"%string))
    = String.append "bldg-" (PyStr.of_nat (1 + 1)).
Proof.
  apply (proj2 (X9_buildings_numbered_and_coloured_by_rank
                  [mkBuilding "bldg-3" [] (9, 0, 9) (4, 6, 4) None;
                   mkBuilding "bldg-7" [] (1, 0, 1) (4, 6, 4) None]) 1%nat
               (mkBuilding "bldg-2" [] (9, 0, 9) (4, 6, 4) (Some "#a29bfe"%string))).
  reflexivity.
Defined.

(** ** When the shape loops finish and when they die *)

Lemma every_nth_nonempty (A : Type) (points : list A) (step : nat) :
  (1 <= step)%nat -> points <> [] -> Polygon.every_nth points step <> [].
Proof.
  intros Hs Hp E.
  pose proof (every_nth_nth A points step 0 Hs) as H.
  rewrite E in H. simpl in H.
  destruct points as [| p rest]; [congruence |]. simpl in H. discriminate H.
Qed.

Lemma decimate_nonempty (A : Type) (points : list A) :
  points <> [] -> Polygon.decimate points <> [].
Proof.
  intros H. apply every_nth_nonempty; [apply step_of_pos | exact H].
Qed.

Lemma simplify_polygon_nonempty (points : list Point) :
  points <> [] -> ExtractDowntown.simplify_polygon points <> [].
Proof.
  intros H. unfold ExtractDowntown.simplify_polygon, Polygon.simplify_polygon.
  destruct (length points <=? 4)%nat; [exact H |].
  pose proof (every_nth_nonempty _ points _ (step_of_pos _ points) H) as Hn.
  cbv zeta.
  destruct (Polygon.every_nth points (Polygon.step_of points)) as [| f more];
    [congruence |].
  destruct (negb _); [| discriminate].
  destruct more; discriminate.
Qed.

Lemma map_nonempty (A B : Type) (f : A -> B) (l : list A) : l <> [] -> map f l <> [].
Proof. destruct l; [congruence | discriminate]. Qed.

Section Totality.
Variable transform : Q -> Q -> PyNum.Exc (Q * Q).
Hypothesis transform_total : forall x y, exists ll, transform x y = inr ll.

Lemma downtown_local_points_total (points : list (Q * Q)) :
  exists lp, ExtractDowntown.local_points_of transform points = inr lp /\
             (points <> [] -> lp <> []).
Proof.
  induction points as [| [px py] r [lp [IH _]]]; simpl.
  - exists []. split; [reflexivity | congruence].
  - destruct (transform_total px py) as [ll E]. rewrite E. simpl.
    destruct (ExtractDowntown.convert_to_local (fst ll) (snd ll)) as [lx lz].
    rewrite IH. simpl. eexists. split; [reflexivity | discriminate].
Qed.

Lemma downtown_building_of_total (n : nat) (points : list (Q * Q)) :
  points <> [] -> exists ob, ExtractDowntown.building_of transform n points = inr ob.
Proof.
  intros Hp. unfold ExtractDowntown.building_of.
  destruct (downtown_local_points_total points) as [lp [E Hlp]]. rewrite E. simpl.
  pose proof (simplify_polygon_nonempty lp (Hlp Hp)) as Hs.
  destruct (py_min_some _ (map_nonempty _ _ fst _ Hs)) as [a Ea].
  destruct (py_max_some _ (map_nonempty _ _ fst _ Hs)) as [b Eb].
  destruct (py_min_some _ (map_nonempty _ _ snd _ Hs)) as [c Ec].
  destruct (py_max_some _ (map_nonempty _ _ snd _ Hs)) as [d Ed].
  rewrite Ea. simpl. rewrite Eb. simpl. rewrite Ec. simpl. rewrite Ed. simpl.
  destruct (_ || _); eexists; reflexivity.
Qed.

Lemma downtown_loop_total (shapes : list (list (Q * Q))) st :
  exists st', ExtractDowntown.shapes_loop transform st shapes = inr st'.
Proof.
  revert st. induction shapes as [| points shapes IH]; intros st; simpl.
  - eexists. reflexivity.
  - assert (Hs : exists st1, ExtractDowntown.shape_step transform st points = inr st1).
    { unfold ExtractDowntown.shape_step. destruct st as [buildings in_bounds].
      destruct points as [| [x y] rest]; [eexists; reflexivity |].
      destruct (transform x y) as [e | [lon lat]]; [eexists; reflexivity |].
      destruct (negb _); [eexists; reflexivity |].
      destruct (downtown_building_of_total (S in_bounds) ((x, y) :: rest))
        as [ob E]; [discriminate |].
      rewrite E. simpl. destruct ob; eexists; reflexivity. }
    destruct Hs as [st1 E]. rewrite E. simpl. apply IH.
Qed.

Variable F : Frame.

Lemma rebuild_local_points_total (points : list (Q * Q)) :
  exists lp, RebuildAll.local_points_of F transform points = inr lp /\
             (points <> [] -> lp <> []).
Proof.
  induction points as [| [px py] r [lp [IH _]]]; simpl.
  - exists []. split; [reflexivity | congruence].
  - destruct (transform_total px py) as [ll E]. rewrite E. simpl.
    rewrite IH. simpl. eexists. split; [reflexivity | discriminate].
Qed.

Lemma rebuild_building_of_total (n : nat) (points : list (Q * Q)) :
  points <> [] -> exists ob, RebuildAll.building_of F transform n points = inr ob.
Proof.
  intros Hp. unfold RebuildAll.building_of.
  destruct (rebuild_local_points_total points) as [lp [E Hlp]]. rewrite E. simpl.
  pose proof (decimate_nonempty _ lp (Hlp Hp)) as Hs.
  destruct (py_min_some _ (map_nonempty _ _ fst _ Hs)) as [a Ea].
  destruct (py_max_some _ (map_nonempty _ _ fst _ Hs)) as [b Eb].
  destruct (py_min_some _ (map_nonempty _ _ snd _ Hs)) as [c Ec].
  destruct (py_max_some _ (map_nonempty _ _ snd _ Hs)) as [d Ed].
  rewrite Eb. simpl. rewrite Ea. simpl. rewrite Ed. simpl. rewrite Ec. simpl.
  destruct (_ || _); eexists; reflexivity.
Qed.

Lemma rebuild_loop_total (shapes : list (list (Q * Q))) buildings :
  exists bs, RebuildAll.shapes_loop F transform buildings shapes = inr bs.
Proof.
  revert buildings. induction shapes as [| points shapes IH]; intros bs; simpl.
  - eexists. reflexivity.
  - assert (Hs : exists bs1, RebuildAll.shape_step F transform bs points = inr bs1).
    { unfold RebuildAll.shape_step.
      destruct points as [| [x y] rest]; [eexists; reflexivity |].
      destruct (transform x y) as [e | [lon lat]]; [eexists; reflexivity |].
      destruct (negb _); [eexists; reflexivity |].
      destruct (rebuild_building_of_total (length bs) ((x, y) :: rest))
        as [ob E]; [discriminate |].
      rewrite E. simpl. destruct ob; eexists; reflexivity. }
    destruct Hs as [bs1 E]. rewrite E. simpl. apply IH.
Qed.

End Totality.

(** X10.  When the coordinate transformer raises on no vertex,
    extract_downtown.py runs to the end and writes its list, and so does
    the shape loop of rebuild_all.py for any centre: no [min] or [max] is
    ever taken of an empty list, since a shape with no points is skipped
    and thinning keeps the first point. *)
Theorem X10_shape_loops_finish
  (transform : Q -> Q -> PyNum.Exc (Q * Q)) (shapes : list (list (Q * Q))) :
  (forall x y, exists ll, transform x y = inr ll) ->
  (exists buildings, ExtractDowntown.main transform shapes = inr buildings) /\
  (forall F, exists buildings,
        RebuildAll.shapes_loop F transform [] shapes = inr buildings).
Proof.
  intros Ht. split.
  - unfold ExtractDowntown.main.
    destruct (downtown_loop_total transform Ht shapes ([], 0%nat)) as [st E].
    rewrite E. simpl. eexists. reflexivity.
  - intros F. apply rebuild_loop_total. exact Ht.
Qed.

Lemma X10_shape_loops_finish_witness :
  exists buildings,
    ExtractDowntown.main (fun x y => PyNum.ret (x, y))
      [[]; [(0, 0)];
       [(-89.984, 38.520); (-89.983, 38.520); (-89.983, 38.521); (-89.984, 38.521)]]
    = inr buildings.
Proof.
  apply (X10_shape_loops_finish (fun x y => PyNum.ret (x, y))
           [[]; [(0, 0)];
            [(-89.984, 38.520); (-89.983, 38.520); (-89.983, 38.521); (-89.984, 38.521)]]).
  intros x y. exists (x, y). reflexivity.
Defined.

Section BadVertex.
Variable transform : Q -> Q -> PyNum.Exc (Q * Q).
Variables (points : list (Q * Q)) (x y : Q) (rest : list (Q * Q)) (lon lat : Q).
Variables (px py : Q) (e : PyNum.PyErr).
Hypothesis first_vertex : points = (x, y) :: rest.
Hypothesis first_ok : transform x y = inr (lon, lat).
Hypothesis bad_vertex : In (px, py) points.
Hypothesis bad_fails : transform px py = inl e.

Lemma downtown_local_points_fail (pts : list (Q * Q)) :
  In (px, py) pts -> exists e', ExtractDowntown.local_points_of transform pts = inl e'.
Proof.
  induction pts as [| [qx qy] r IH]; simpl; [intros [] |].
  intros [E | H].
  - injection E as -> ->. rewrite bad_fails. eexists. reflexivity.
  - destruct (transform qx qy) as [e1 | ll]; simpl; [eexists; reflexivity |].
    destruct (ExtractDowntown.convert_to_local (fst ll) (snd ll)) as [lx lz].
    destruct (IH H) as [e' E]. rewrite E. eexists. reflexivity.
Qed.

Lemma rebuild_local_points_fail (F : Frame) (pts : list (Q * Q)) :
  In (px, py) pts -> exists e', RebuildAll.local_points_of F transform pts = inl e'.
Proof.
  induction pts as [| [qx qy] r IH]; simpl; [intros [] |].
  intros [E | H].
  - injection E as -> ->. rewrite bad_fails. eexists. reflexivity.
  - destruct (transform qx qy) as [e1 | ll]; simpl; [eexists; reflexivity |].
    destruct (IH H) as [e' E]. rewrite E. eexists. reflexivity.
Qed.

Lemma downtown_step_fails st :
  between ExtractDowntown.MIN_LAT lat ExtractDowntown.MAX_LAT
  && between ExtractDowntown.MIN_LON lon ExtractDowntown.MAX_LON = true ->
  exists e', ExtractDowntown.shape_step transform st points = inl e'.
Proof.
  intros Hbox. unfold ExtractDowntown.shape_step. destruct st as [buildings n].
  rewrite first_vertex, first_ok, Hbox. simpl negb. cbv iota.
  unfold ExtractDowntown.building_of. rewrite <- first_vertex.
  destruct (downtown_local_points_fail points bad_vertex) as [e' E].
  rewrite E. eexists. reflexivity.
Qed.

Lemma rebuild_step_fails (F : Frame) buildings :
  between RebuildAll.MIN_LAT lat RebuildAll.MAX_LAT
  && between RebuildAll.MIN_LON lon RebuildAll.MAX_LON = true ->
  exists e', RebuildAll.shape_step F transform buildings points = inl e'.
Proof.
  intros Hbox. unfold RebuildAll.shape_step.
  rewrite first_vertex, first_ok, Hbox. simpl negb. cbv iota.
  unfold RebuildAll.building_of. rewrite <- first_vertex.
  destruct (rebuild_local_points_fail F points bad_vertex) as [e' E].
  rewrite E. eexists. reflexivity.
Qed.

Lemma downtown_loop_fails (shapes : list (list (Q * Q))) st :
  between ExtractDowntown.MIN_LAT lat ExtractDowntown.MAX_LAT
  && between ExtractDowntown.MIN_LON lon ExtractDowntown.MAX_LON = true ->
  In points shapes ->
  exists e', ExtractDowntown.shapes_loop transform st shapes = inl e'.
Proof.
  intros Hbox. revert st. induction shapes as [| p shapes IH]; intros st; [intros [] |].
  intros [-> | H]; simpl.
  - destruct (downtown_step_fails st Hbox) as [e' E]. rewrite E. eexists. reflexivity.
  - destruct (ExtractDowntown.shape_step transform st p) as [e1 | st1]; simpl;
      [eexists; reflexivity | apply IH, H].
Qed.

Lemma rebuild_loop_fails (F : Frame) (shapes : list (list (Q * Q))) buildings :
  between RebuildAll.MIN_LAT lat RebuildAll.MAX_LAT
  && between RebuildAll.MIN_LON lon RebuildAll.MAX_LON = true ->
  In points shapes ->
  exists e', RebuildAll.shapes_loop F transform buildings shapes = inl e'.
Proof.
  intros Hbox. revert buildings.
  induction shapes as [| p shapes IH]; intros bs; [intros [] |].
  intros [-> | H]; simpl.
  - destruct (rebuild_step_fails F bs Hbox) as [e' E]. rewrite E. eexists. reflexivity.
  - destruct (RebuildAll.shape_step F transform bs p) as [e1 | bs1]; simpl;
      [eexists; reflexivity | apply IH, H].
Qed.

End BadVertex.

(** X11.  In extract_downtown.py a transform failure is caught only for the
    first vertex of a shape.  When a shape whose first vertex falls in the
    downtown box has any vertex on which the transformer raises, the script
    dies there and buildings.json is not written, whatever the other shapes
    are. *)
Theorem X11_bad_vertex_kills_extract_downtown
  (transform : Q -> Q -> PyNum.Exc (Q * Q)) (shapes : list (list (Q * Q)))
  (x y : Q) (rest : list (Q * Q)) (lon lat px py : Q) (e : PyNum.PyErr) :
  In ((x, y) :: rest) shapes ->
  transform x y = inr (lon, lat) ->
  between ExtractDowntown.MIN_LAT lat ExtractDowntown.MAX_LAT
  && between ExtractDowntown.MIN_LON lon ExtractDowntown.MAX_LON = true ->
  In (px, py) ((x, y) :: rest) ->
  transform px py = inl e ->
  (exists e', ExtractDowntown.main transform shapes = inl e') /\
  ExtractDowntown.written (ExtractDowntown.main transform shapes) = [].
Proof.
  intros Hin Hfirst Hbox Hbad Hfail.
  destruct (downtown_loop_fails transform ((x, y) :: rest) x y rest lon lat px py e
              eq_refl Hfirst Hbad Hfail shapes ([], 0%nat) Hbox Hin) as [e' E].
  unfold ExtractDowntown.main. rewrite E. simpl.
  split; [eexists; reflexivity | reflexivity].
Qed.

Lemma X11_bad_vertex_kills_extract_downtown_witness :
  ExtractDowntown.written
    (ExtractDowntown.main
       (fun x y => if Qeq_bool y 0 then PyNum.raise PyNum.TransformError
                   else PyNum.ret (x, y))
       [[(-89.984, 38.520); (-89.983, 38.520); (-89.983, 38.521); (-89.984, 38.521)];
        [(-89.984, 38.520); (-89.983, 0)]]) = [].
Proof.
  apply (X11_bad_vertex_kills_extract_downtown
           (fun x y => if Qeq_bool y 0 then PyNum.raise PyNum.TransformError
                       else PyNum.ret (x, y))
           [[(-89.984, 38.520); (-89.983, 38.520); (-89.983, 38.521); (-89.984, 38.521)];
            [(-89.984, 38.520); (-89.983, 0)]]
           (-89.984) 38.520 [(-89.983, 0)] (-89.984) 38.520 (-89.983) 0
           PyNum.TransformError).
  - right. left. reflexivity.
  - reflexivity.
  - reflexivity.
  - right. left. reflexivity.
  - reflexivity.
Defined.

(** X12.  rebuild_all.py writes streets.json before it reads the shapefile.
    When the centre was found and the streets fetched, and then a shape
    whose first vertex falls in the box has a vertex on which the
    transformer raises, the run ends in that error with streets.json
    written and buildings.json not. *)
Theorem X12_rebuild_all_partial_output
  (fetch : Osm.Query -> PyNum.Exc (list Osm.Element))
  (transform : Q -> Q -> PyNum.Exc (Q * Q)) (shapes : list (list (Q * Q)))
  (anchor streets : list Osm.Element) (F : Frame)
  (x y : Q) (rest : list (Q * Q)) (lon lat px py : Q) (e : PyNum.PyErr) :
  fetch RebuildAll.illinois_query = inr anchor ->
  RebuildAll.find_center anchor = inr F ->
  fetch RebuildAll.streets_query = inr streets ->
  In ((x, y) :: rest) shapes ->
  transform x y = inr (lon, lat) ->
  between RebuildAll.MIN_LAT lat RebuildAll.MAX_LAT
  && between RebuildAll.MIN_LON lon RebuildAll.MAX_LON = true ->
  In (px, py) ((x, y) :: rest) ->
  transform px py = inl e ->
  exists e',
    RebuildAll.rebuild_all fetch transform shapes =
    ([RebuildAll.WriteStreets "src/data/streets.json"
        (filter (RebuildAll.in_area) (RebuildAll.extract_streets F streets))],
     inl e').
Proof.
  intros Hq1 Hc Hq2 Hin Hfirst Hbox Hbad Hfail.
  destruct (rebuild_loop_fails transform ((x, y) :: rest) x y rest lon lat px py e
              eq_refl Hfirst Hbad Hfail F shapes [] Hbox Hin) as [e' E].
  exists e'. unfold RebuildAll.rebuild_all. rewrite Hq1. simpl PyNum.bind.
  rewrite Hc, Hq2, E. reflexivity.
Qed.

Lemma X12_rebuild_all_partial_output_witness :
  exists e' w,
    RebuildAll.rebuild_all
      (fun q => PyNum.ret
                  (Osm.answer
                     [Osm.ENode (Osm.mkNode 1 (-89.984) 38.520);
                      Osm.ENode (Osm.mkNode 2 (-89.984) 38.522);
                      Osm.EWay (Osm.mkWay 7 (Some [1%Z; 2%Z])
                                  [("name", "North Illinois Street");
                                   ("highway", "primary")]%string)] q))
      (fun x y => if Qeq_bool y 0 then PyNum.raise PyNum.TransformError
                  else PyNum.ret (x, y))
      [[(-89.984, 38.520); (-89.983, 0)]]
    = ([w], inl e').
Proof.
  set (db := [Osm.ENode (Osm.mkNode 1 (-89.984) 38.520);
              Osm.ENode (Osm.mkNode 2 (-89.984) 38.522);
              Osm.EWay (Osm.mkWay 7 (Some [1%Z; 2%Z])
                          [("name", "North Illinois Street");
                           ("highway", "primary")]%string)]).
  set (F := match RebuildAll.find_center (Osm.answer db RebuildAll.illinois_query) with
            | inr F => F
            | inl _ => mkFrame 0 0 0 0
            end).
  destruct (X12_rebuild_all_partial_output
              (fun q => PyNum.ret (Osm.answer db q))
              (fun x y => if Qeq_bool y 0 then PyNum.raise PyNum.TransformError
                          else PyNum.ret (x, y))
              [[(-89.984, 38.520); (-89.983, 0)]]
              (Osm.answer db RebuildAll.illinois_query)
              (Osm.answer db RebuildAll.streets_query)
              F (-89.984) 38.520 [(-89.983, 0)] (-89.984) 38.520 (-89.983) 0
              PyNum.TransformError) as [e' E].
  - reflexivity.
  - vm_compute. reflexivity.
  - reflexivity.
  - left. reflexivity.
  - reflexivity.
  - reflexivity.
  - right. left. reflexivity.
  - reflexivity.
  - exists e'. eexists. exact E.
Defined.

(** ** The centre rebuild_all.py derives *)

Lemma fold_Qplus_acc (l : list Q) (a : Q) : fold_left Qplus l a == a + fold_left Qplus l 0.
Proof.
  revert a. induction l as [| x l IH]; intros a; simpl.
  - ring.
  - rewrite (IH (a + x)), (IH (0 + x)). ring.
Qed.

Lemma py_sum_cons (x : Q) (l : list Q) :
  RebuildAll.py_sum (x :: l) == x + RebuildAll.py_sum l.
Proof.
  unfold RebuildAll.py_sum. simpl. rewrite fold_Qplus_acc. ring.
Qed.

Lemma len_pos (A : Type) (a : A) (l : list A) : 0 < RebuildAll.len (a :: l).
Proof.
  unfold RebuildAll.len. cbn [length].
  change 0 with (inject_Z 0). rewrite <- Zlt_Qlt. lia.
Qed.

Lemma py_sum_bounds (l : list Q) (lo hi : Q) :
  (forall x, In x l -> lo <= x <= hi) ->
  RebuildAll.len l * lo <= RebuildAll.py_sum l <= RebuildAll.len l * hi.
Proof.
  induction l as [| x l IH]; intros H.
  - unfold RebuildAll.len, RebuildAll.py_sum. cbn [length fold_left Z.of_nat].
    change (inject_Z 0) with 0. lra.
  - rewrite py_sum_cons.
    assert (Hx : lo <= x <= hi) by (apply H; left; reflexivity).
    assert (Hl : RebuildAll.len l * lo <= RebuildAll.py_sum l <= RebuildAll.len l * hi)
      by (apply IH; intros y Hy; apply H; right; exact Hy).
    assert (E : RebuildAll.len (x :: l) == RebuildAll.len l + 1).
    { unfold RebuildAll.len. cbn [length].
      rewrite Nat2Z.inj_succ, <- Z.add_1_r, inject_Z_plus. reflexivity. }
    rewrite E. lra.
Qed.

Lemma mean_bounds (total n lo hi : Q) :
  0 < n -> n * lo <= total <= n * hi -> lo <= total / n <= hi.
Proof.
  intros Hn [Hlo Hhi]. split.
  - apply Qle_shift_div_l; [exact Hn | lra].
  - apply Qle_shift_div_r; [exact Hn | lra].
Qed.

Lemma round1_nonneg (x : Q) : 0 <= x -> 0 <= PyNum.round1 x.
Proof.
  intros H. apply round1_mono in H. rewrite (round1_zero 0) in H by reflexivity.
  exact H.
Qed.

Lemma round1_nonpos (x : Q) : x <= 0 -> PyNum.round1 x <= 0.
Proof.
  intros H. apply round1_mono in H. rewrite (round1_zero 0) in H by reflexivity.
  exact H.
Qed.

(** X13.  The script finds a centre exactly when some node of the returned
    ways is known.  The centre latitude then lies between the anchor's
    extreme latitudes, and in the one-decimal local coordinates the script
    writes the anchor straddles the origin: its westernmost node has
    x <= 0 and its easternmost x >= 0, its northernmost z <= 0 and its
    southernmost z >= 0, and every anchor node lies in the box these four
    span. *)
Theorem X13_anchor_straddles_the_origin (result : list Osm.Element) :
  (RebuildAll.illinois_coords result <> [] <->
   exists F, RebuildAll.find_center result = inr F) /\
  (forall F, RebuildAll.find_center result = inr F ->
     exists south north west east,
       In south (RebuildAll.illinois_coords result) /\
       In north (RebuildAll.illinois_coords result) /\
       In west (RebuildAll.illinois_coords result) /\
       In east (RebuildAll.illinois_coords result) /\
       (forall c, In c (RebuildAll.illinois_coords result) ->
                  snd south <= snd c <= snd north /\ fst west <= fst c <= fst east) /\
       snd south <= CENTER_LAT F <= snd north /\
       snd (RebuildAll.to_local F (fst north) (snd north)) <= 0 /\
       0 <= snd (RebuildAll.to_local F (fst south) (snd south)) /\
       fst (RebuildAll.to_local F (fst west) (snd west)) <= 0 /\
       0 <= fst (RebuildAll.to_local F (fst east) (snd east)) /\
       (forall c, In c (RebuildAll.illinois_coords result) ->
          snd (RebuildAll.to_local F (fst north) (snd north))
            <= snd (RebuildAll.to_local F (fst c) (snd c))
            <= snd (RebuildAll.to_local F (fst south) (snd south)) /\
          fst (RebuildAll.to_local F (fst west) (snd west))
            <= fst (RebuildAll.to_local F (fst c) (snd c))
            <= fst (RebuildAll.to_local F (fst east) (snd east)))).
Proof.
  unfold RebuildAll.find_center.
  destruct (RebuildAll.illinois_coords result) as [| c0 cs] eqn:Ec.
  - split.
    + split; [congruence | intros [F H]; discriminate H].
    + intros F H. discriminate H.
  - set (coords := c0 :: cs) in *.
    destruct (py_min_some (map snd coords) ltac:(discriminate)) as [lo Elo].
    destruct (py_max_some (map snd coords) ltac:(discriminate)) as [hi Ehi].
    destruct (py_min_some (map fst coords) ltac:(discriminate)) as [wl Ewl].
    destruct (py_max_some (map fst coords) ltac:(discriminate)) as [el Eel].
    rewrite Elo, Ehi. cbn [PyNum.bind PyNum.ret].
    split; [split; [intros _; eexists; reflexivity | discriminate] |].
    intros F HF. injection HF as <-.
    apply py_min_spec in Elo, Ewl. apply py_max_spec in Ehi, Eel.
    destruct Elo as [Hlo_in Hlo]. destruct Ehi as [Hhi_in Hhi].
    destruct Ewl as [Hwl_in Hwl]. destruct Eel as [Hel_in Hel].
    apply in_map_iff in Hlo_in. destruct Hlo_in as [south [Es Hs]].
    apply in_map_iff in Hhi_in. destruct Hhi_in as [north [En Hn]].
    apply in_map_iff in Hwl_in. destruct Hwl_in as [west [Ew Hw]].
    apply in_map_iff in Hel_in. destruct Hel_in as [east [Ee He]].
    assert (Hbox : forall c, In c coords ->
                     lo <= snd c <= hi /\ wl <= fst c <= el).
    { intros c Hc.
      pose proof (Hlo _ (in_map snd _ _ Hc)). pose proof (Hhi _ (in_map snd _ _ Hc)).
      pose proof (Hwl _ (in_map fst _ _ Hc)). pose proof (Hel _ (in_map fst _ _ Hc)).
      repeat split; assumption. }
    assert (Hmean : wl <= RebuildAll.py_sum (map fst coords) / RebuildAll.len coords <= el).
    { apply mean_bounds; [apply len_pos |].
      assert (El : RebuildAll.len coords == RebuildAll.len (map fst coords))
        by (unfold RebuildAll.len; rewrite length_map; reflexivity).
      rewrite El. apply py_sum_bounds. intros x Hx.
      split; [apply Hwl | apply Hel]; exact Hx. }
    assert (Hmid : lo <= (lo + hi) / 2 <= hi).
    { destruct (Hbox c0 (or_introl eq_refl)) as [[H1 H2] _].
      unfold Qdiv. change (/ 2) with (1 # 2). split; lra. }
    change (fst c0 :: map fst cs) with (map fst coords).
    set (mean := RebuildAll.py_sum (map fst coords) / RebuildAll.len coords) in *.
    set (mid := (lo + hi) / 2) in *.
    exists south, north, west, east.
    unfold RebuildAll.to_local, Projection.to_local.
    cbn [CENTER_LAT CENTER_LON LAT_TO_METERS LON_TO_METERS fst snd].
    rewrite Es, En, Ew, Ee.
    split; [exact Hs |]. split; [exact Hn |]. split; [exact Hw |]. split; [exact He |].
    split; [exact Hbox |]. split; [exact Hmid |].
    split; [apply round1_nonpos; lra |].
    split; [apply round1_nonneg; lra |].
    split; [apply round1_nonpos; lra |].
    split; [apply round1_nonneg; lra |].
    intros c Hc. destruct (Hbox c Hc) as [[H1 H2] [H3 H4]].
    repeat split; apply round1_mono; lra.
Qed.

Lemma X13_anchor_straddles_the_origin_witness :
  exists F,
    RebuildAll.find_center
      [Osm.ENode (Osm.mkNode 1 (-89.984) 38.520);
       Osm.ENode (Osm.mkNode 2 (-89.986) 38.522);
       Osm.EWay (Osm.mkWay 7 (Some [1%Z; 2%Z]) [])] = inr F.
Proof.
  apply (proj1 (proj1 (X13_anchor_straddles_the_origin
                         [Osm.ENode (Osm.mkNode 1 (-89.984) 38.520);
                          Osm.ENode (Osm.mkNode 2 (-89.986) 38.522);
                          Osm.EWay (Osm.mkWay 7 (Some [1%Z; 2%Z]) [])]))).
  vm_compute. discriminate.
Defined.

(** ** The node dictionary *)

Section Nodes.
Import Osm.

Lemma nodes_fold_get (l : list Element) (acc : PyDict.dict Z (Q * Q)) (k : Z) (c : Q * Q) :
  PyDict.get Z.eqb
    (fold_left (fun d el => match el with
                            | ENode n => PyDict.set d (n_id n) (n_lon n, n_lat n)
                            | _ => d
                            end) l acc) k = Some c ->
  (exists n, In (ENode n) l /\ n_id n = k /\ c = (n_lon n, n_lat n)) \/
  PyDict.get Z.eqb acc k = Some c.
Proof.
  revert acc. induction l as [| el l IH]; intros acc H; simpl in H.
  - right. exact H.
  - destruct (IH _ H) as [[n [Hn Hk]] | Hacc].
    + left. exists n. split; [right; exact Hn | exact Hk].
    + destruct el as [n | w |].
      * unfold PyDict.set in Hacc. simpl in Hacc.
        destruct (Z.eqb k (n_id n)) eqn:E.
        -- apply Z.eqb_eq in E. injection Hacc as <-.
           left. exists n. split; [left; reflexivity | split; [symmetry; exact E | reflexivity]].
        -- right. exact Hacc.
      * right. exact Hacc.
      * right. exact Hacc.
Qed.

Lemma nodes_fold_keeps (l : list Element) (acc : PyDict.dict Z (Q * Q)) (k : Z) :
  (forall n, In (ENode n) l -> n_id n <> k) ->
  PyDict.get Z.eqb
    (fold_left (fun d el => match el with
                            | ENode n => PyDict.set d (n_id n) (n_lon n, n_lat n)
                            | _ => d
                            end) l acc) k = PyDict.get Z.eqb acc k.
Proof.
  revert acc. induction l as [| el l IH]; intros acc H; simpl; [reflexivity |].
  rewrite IH by (intros n Hn; apply H; right; exact Hn).
  destruct el as [n | w |]; try reflexivity.
  unfold PyDict.set. simpl.
  destruct (Z.eqb k (n_id n)) eqn:E; [| reflexivity].
  apply Z.eqb_eq in E. exfalso. apply (H n); [left; reflexivity | symmetry; exact E].
Qed.

Lemma resolve_In (nodes : PyDict.dict Z (Q * Q)) (nids : list Z) (c : Q * Q) :
  In c (resolve nodes nids) ->
  exists nid, In nid nids /\ PyDict.get Z.eqb nodes nid = Some c.
Proof.
  unfold resolve. intros H. apply in_flat_map in H. destruct H as [nid [Hn H]].
  exists nid. split; [exact Hn |].
  destruct (PyDict.get Z.eqb nodes nid) as [c' |]; [| contradiction].
  destruct H as [<- | []]. reflexivity.
Qed.

Lemma resolve_length (nodes : PyDict.dict Z (Q * Q)) (nids : list Z) :
  (length (resolve nodes nids) <= length nids)%nat.
Proof.
  unfold resolve. induction nids as [| nid nids IH]; simpl; [lia |].
  rewrite length_app. destruct (PyDict.get Z.eqb nodes nid); simpl; lia.
Qed.

End Nodes.

(** X15.  The node dictionary the Overpass scripts build answers a node id
    with the coordinates of the last node element that carries it, and a
    way's point list holds only coordinates of node elements of the
    response whose ids the way lists: an id the response does not define
    is passed over, so the list is never longer than the way's id list. *)
Theorem X15_node_dictionary (result : list Osm.Element) :
  (forall nids c,
      In c (Osm.resolve (Osm.nodes_of result) nids) ->
      exists n, In (Osm.ENode n) result /\ In (Osm.n_id n) nids /\
                c = (Osm.n_lon n, Osm.n_lat n)) /\
  (forall nids,
      (length (Osm.resolve (Osm.nodes_of result) nids) <= length nids)%nat) /\
  (forall before n after,
      result = before ++ Osm.ENode n :: after ->
      (forall n', In (Osm.ENode n') after -> Osm.n_id n' <> Osm.n_id n) ->
      PyDict.get Z.eqb (Osm.nodes_of result) (Osm.n_id n)
      = Some (Osm.n_lon n, Osm.n_lat n)).
Proof.
  split; [| split].
  - intros nids c H. apply resolve_In in H. destruct H as [nid [Hnid Hget]].
    unfold Osm.nodes_of in Hget. apply nodes_fold_get in Hget.
    destruct Hget as [[n [Hn [Hk Hc]]] | Hempty]; [| discriminate Hempty].
    exists n. subst nid. repeat split; assumption.
  - intros nids. apply resolve_length.
  - intros before n after -> Hlast. unfold Osm.nodes_of.
    rewrite fold_left_app. cbn [fold_left].
    rewrite nodes_fold_keeps by exact Hlast.
    unfold PyDict.set. simpl. rewrite Z.eqb_refl. reflexivity.
Qed.

Lemma X15_node_dictionary_witness :
  PyDict.get Z.eqb
    (Osm.nodes_of [Osm.ENode (Osm.mkNode 1 (-89.984) 38.520);
                   Osm.ENode (Osm.mkNode 1 (-89.986) 38.522);
                   Osm.ENode (Osm.mkNode 2 (-89.980) 38.521)]) 1%Z
  = Some (-89.986, 38.522).
Proof.
  apply (proj2 (proj2 (X15_node_dictionary
                         [Osm.ENode (Osm.mkNode 1 (-89.984) 38.520);
                          Osm.ENode (Osm.mkNode 1 (-89.986) 38.522);
                          Osm.ENode (Osm.mkNode 2 (-89.980) 38.521)]))
               [Osm.ENode (Osm.mkNode 1 (-89.984) 38.520)]
               (Osm.mkNode 1 (-89.986) 38.522)
               [Osm.ENode (Osm.mkNode 2 (-89.980) 38.521)]).
  - reflexivity.
  - intros n' [H | []]. injection H as <-. simpl. discriminate.
Defined.

(** ** Streets extracted from an Overpass response *)

Lemma round1_on_grid (x : Q) : on_grid (PyNum.round1 x).
Proof. eexists. reflexivity. Qed.

Lemma to_local_on_grid (F : Frame) (lon lat : Q) :
  pt_on_grid (Projection.to_local F lon lat).
Proof. split; apply round1_on_grid. Qed.

Lemma dict_get_In (V : Type) (d : PyDict.dict string V) (k : string) (v : V) :
  PyDict.get String.eqb d k = Some v -> In v (map snd d).
Proof.
  induction d as [| [k' v'] d IH]; simpl; [discriminate |].
  destruct (String.eqb k k'); [intros E; injection E as <-; left; reflexivity |].
  intros H. right. exact (IH H).
Qed.

Lemma strictly_between_iff (lo v hi : Q) :
  strictly_between lo v hi = true <-> lo < v < hi.
Proof.
  unfold strictly_between. rewrite andb_true_iff.
  change (negb (Qle_bool v lo)) with (Qlt_bool lo v).
  change (negb (Qle_bool hi v)) with (Qlt_bool v hi).
  rewrite !Qlt_bool_iff. reflexivity.
Qed.

Lemma rebuild_style (ht : string) :
  let ti := match PyDict.get String.eqb RebuildAll.street_types ht with
            | Some ti => ti
            | None => (6%Z, "#353545"%string)
            end in
  In (ht, fst ti, snd ti)
     [("primary", 10%Z, "#3a3a4a"); ("secondary", 8%Z, "#3a3a4a");
      ("tertiary", 7%Z, "#353545"); ("residential", 6%Z, "#353545");
      ("service", 4%Z, "#303040")]%string \/
  (~ In ht ["primary"; "secondary"; "tertiary"; "residential"; "service"]%string /\
   (fst ti, snd ti) = (6%Z, "#353545"%string)).
Proof.
  cbv zeta. unfold RebuildAll.street_types. cbn [PyDict.get].
  destruct (String.eqb_spec ht "primary") as [-> | N1]; [left; simpl; tauto |].
  destruct (String.eqb_spec ht "secondary") as [-> | N2]; [left; simpl; tauto |].
  destruct (String.eqb_spec ht "tertiary") as [-> | N3]; [left; simpl; tauto |].
  destruct (String.eqb_spec ht "residential") as [-> | N4]; [left; simpl; tauto |].
  destruct (String.eqb_spec ht "service") as [-> | N5]; [left; simpl; tauto |].
  right. split; [| reflexivity].
  intros [E | [E | [E | [E | [E | []]]]]]; congruence.
Qed.

(** What [street_of] returns, field by field. *)
Lemma rebuild_street_of_fields (F : Frame) nodes (w : Osm.Way) (s : Street) :
  RebuildAll.street_of F nodes w = Some s ->
  exists nids,
    Osm.w_nodes w = Some nids /\
    (2 <= length (s_points s))%nat /\
    s_points s = map (fun c => RebuildAll.to_local F (fst c) (snd c))
                     (Osm.resolve nodes nids) /\
    s_id s = String.append "street-" (PyStr.of_Z (Osm.w_id w)) /\
    s_type s = match Osm.tag w "highway" with
               | Some t => t
               | None => "residential"%string
               end /\
    s_name s = match Osm.tag w "name" with Some n => n | None => EmptyString end /\
    (s_width s, s_color s) =
      match PyDict.get String.eqb RebuildAll.street_types (s_type s) with
      | Some ti => ti
      | None => (6%Z, "#353545"%string)
      end.
Proof.
  unfold RebuildAll.street_of.
  destruct (Osm.w_nodes w) as [nids |]; [| discriminate].
  destruct (2 <=? length _)%nat eqn:E; [| discriminate].
  intros H. injection H as <-. exists nids.
  split; [reflexivity |]. split; [apply Nat.leb_le; exact E |].
  repeat split. symmetry. apply surjective_pairing.
Qed.

Lemma rebuild_street_of_spec (F : Frame) nodes (w : Osm.Way) (s : Street) :
  RebuildAll.street_of F nodes w = Some s ->
  (2 <= length (s_points s))%nat /\
  Forall pt_on_grid (s_points s) /\
  (In (s_type s, s_width s, s_color s)
      [("primary", 10%Z, "#3a3a4a"); ("secondary", 8%Z, "#3a3a4a");
       ("tertiary", 7%Z, "#353545"); ("residential", 6%Z, "#353545");
       ("service", 4%Z, "#303040")]%string \/
   (~ In (s_type s)
         ["primary"; "secondary"; "tertiary"; "residential"; "service"]%string /\
    (s_width s, s_color s) = (6%Z, "#353545"%string))).
Proof.
  intros H. destruct (rebuild_street_of_fields _ _ _ _ H)
    as [nids [_ [H2 [Hp [_ [_ [_ Hstyle]]]]]]].
  split; [exact H2 |]. split.
  - rewrite Hp. apply Forall_forall. intros p Hin. apply in_map_iff in Hin.
    destruct Hin as [c [<- _]]. apply to_local_on_grid.
  - pose proof (rebuild_style (s_type s)) as R. cbv zeta in R.
    rewrite <- Hstyle in R. exact R.
Qed.

(** X14.  Every street rebuild_all.py writes goes to streets.json, has at
    least two points, all with one decimal, and a point strictly inside
    -900 < x < 900, -800 < z < 600.  It comes from a way of the street
    response: its id is "street-" and the way's id, its type the way's
    highway tag (residential when there is none), its name the way's name
    tag.  Its width and colour are those of its type in the script's table,
    and 6 and "#353545", the residential ones, when the type is not one
    of the five the table lists. *)
Theorem X14_rebuild_all_streets
  (fetch : Osm.Query -> PyNum.Exc (list Osm.Element))
  (transform : Q -> Q -> PyNum.Exc (Q * Q)) (shapes : list (list (Q * Q)))
  (path : string) (streets : list Street) (s : Street) :
  In (RebuildAll.WriteStreets path streets)
     (fst (RebuildAll.rebuild_all fetch transform shapes)) ->
  In s streets ->
  path = "src/data/streets.json"%string /\
  (2 <= length (s_points s))%nat /\
  Forall pt_on_grid (s_points s) /\
  (exists p, In p (s_points s) /\ -900 < fst p < 900 /\ -800 < snd p < 600) /\
  (exists result w,
      fetch RebuildAll.streets_query = inr result /\
      In (Osm.EWay w) result /\
      s_id s = String.append "street-" (PyStr.of_Z (Osm.w_id w)) /\
      s_type s = match Osm.tag w "highway" with
                 | Some t => t
                 | None => "residential"%string
                 end /\
      s_name s = match Osm.tag w "name" with Some n => n | None => EmptyString end) /\
  (In (s_type s, s_width s, s_color s)
      [("primary", 10%Z, "#3a3a4a"); ("secondary", 8%Z, "#3a3a4a");
       ("tertiary", 7%Z, "#353545"); ("residential", 6%Z, "#353545");
       ("service", 4%Z, "#303040")]%string \/
   (~ In (s_type s)
         ["primary"; "secondary"; "tertiary"; "residential"; "service"]%string /\
    (s_width s, s_color s) = (6%Z, "#353545"%string))).
Proof.
  intros Hw Hs.
  assert (Hfrom : path = "src/data/streets.json"%string /\
                  exists F result,
                    fetch RebuildAll.streets_query = inr result /\
                    streets = filter RebuildAll.in_area
                                     (RebuildAll.extract_streets F result)).
  { unfold RebuildAll.rebuild_all in Hw.
    destruct (PyNum.bind _ _) as [e | F]; [simpl in Hw; tauto |].
    destruct (fetch RebuildAll.streets_query) as [e | result]; [simpl in Hw; tauto |].
    destruct (RebuildAll.shapes_loop F transform [] shapes) as [e | bs];
      simpl in Hw.
    - destruct Hw as [E | []]. injection E as <- <-.
      split; [reflexivity | exists F, result; split; reflexivity].
    - destruct Hw as [E | [E | []]]; [| discriminate E]. injection E as <- <-.
      split; [reflexivity | exists F, result; split; reflexivity]. }
  destruct Hfrom as [Hp [F [result [Hq ->]]]]. split; [exact Hp |].
  apply filter_In in Hs. destruct Hs as [Hs Harea].
  unfold RebuildAll.extract_streets in Hs. apply in_flat_map in Hs.
  destruct Hs as [el [Hel Hs]]. destruct el as [n | w |]; try contradiction.
  destruct (RebuildAll.street_of F (Osm.nodes_of result) w) as [s0 |] eqn:E;
    [| contradiction].
  destruct Hs as [<- | []].
  destruct (rebuild_street_of_spec _ _ _ _ E) as [H2 [Hg Hstyle]].
  destruct (rebuild_street_of_fields _ _ _ _ E)
    as [nids [_ [_ [_ [Hid [Hty [Hname _]]]]]]].
  split; [exact H2 |]. split; [exact Hg |]. split.
  - unfold RebuildAll.in_area in Harea. apply existsb_exists in Harea.
    destruct Harea as [p [Hp' Hb]]. apply andb_true_iff in Hb.
    destruct Hb as [Hx Hz]. apply strictly_between_iff in Hx, Hz.
    exists p. split; [exact Hp' | split; assumption].
  - split; [| exact Hstyle].
    exists result, w. repeat split; assumption.
Qed.

Lemma X14_rebuild_all_streets_witness :
  Nat.le 2 (length [(0.0, 111.0); (0.0, -111.0)]).
Proof.
  apply (X14_rebuild_all_streets
           (fun q => PyNum.ret
                       (Osm.answer
                          [Osm.ENode (Osm.mkNode 1 (-89.984) 38.520);
                           Osm.ENode (Osm.mkNode 2 (-89.984) 38.522);
                           Osm.EWay (Osm.mkWay 7 (Some [1%Z; 2%Z])
                                       [("name", "North Illinois Street");
                                        ("highway", "primary")]%string)] q))
           (fun x y => PyNum.ret (x, y)) []
           "src/data/streets.json"
           [mkStreet "street-7" "North Illinois Street" "primary"
                     [(0.0, 111.0); (0.0, -111.0)] 10 "#3a3a4a"]
           (mkStreet "street-7" "North Illinois Street" "primary"
                     [(0.0, 111.0); (0.0, -111.0)] 10 "#3a3a4a")).
  - vm_compute. left. reflexivity.
  - left. reflexivity.
Defined.

Lemma extract_style (ht : string) :
  In (ht, fst (ExtractStreetsScript.type_info ht), snd (ExtractStreetsScript.type_info ht))
     [("primary", 12%Z, "#636e72"); ("secondary", 10%Z, "#636e72");
      ("tertiary", 8%Z, "#4a5568"); ("residential", 6%Z, "#4a5568");
      ("service", 4%Z, "#3d4448"); ("footway", 2%Z, "#2d3436");
      ("path", 2%Z, "#2d3436")]%string \/
  (~ In ht ["primary"; "secondary"; "tertiary"; "residential";
            "service"; "footway"; "path"]%string /\
   (fst (ExtractStreetsScript.type_info ht), snd (ExtractStreetsScript.type_info ht))
   = (6%Z, "#4a5568"%string)).
Proof.
  unfold ExtractStreetsScript.type_info, ExtractStreetsScript.street_types.
  cbn [PyDict.get].
  destruct (String.eqb_spec ht "primary") as [-> | N1]; [left; simpl; tauto |].
  destruct (String.eqb_spec ht "secondary") as [-> | N2]; [left; simpl; tauto |].
  destruct (String.eqb_spec ht "tertiary") as [-> | N3]; [left; simpl; tauto |].
  destruct (String.eqb_spec ht "residential") as [-> | N4]; [left; simpl; tauto |].
  destruct (String.eqb_spec ht "service") as [-> | N5]; [left; simpl; tauto |].
  destruct (String.eqb_spec ht "footway") as [-> | N6]; [left; simpl; tauto |].
  destruct (String.eqb_spec ht "path") as [-> | N7]; [left; simpl; tauto |].
  right. split; [| reflexivity].
  intros [E | [E | [E | [E | [E | [E | [E | []]]]]]]]; congruence.
Qed.

Lemma extract_street_of_spec nodes (w : Osm.Way) (s : Street) :
  ExtractStreetsScript.street_of nodes w = Some s ->
  (2 <= length (s_points s))%nat /\
  Forall pt_on_grid (s_points s) /\
  (s_width s, s_color s) = ExtractStreetsScript.type_info (s_type s) /\
  s_id s = String.append "street-" (PyStr.of_Z (Osm.w_id w)) /\
  s_type s = match Osm.tag w "highway" with
             | Some t => t
             | None => "residential"%string
             end /\
  s_name s = match Osm.tag w "name" with Some n => n | None => EmptyString end.
Proof.
  unfold ExtractStreetsScript.street_of.
  destruct (Osm.w_nodes w) as [nids |]; [| discriminate].
  destruct (2 <=? length _)%nat eqn:E; [| discriminate].
  intros H. injection H as <-. cbn [s_points s_width s_color s_type s_id s_name].
  split; [apply Nat.leb_le; exact E |]. split.
  - apply Forall_forall. intros p Hp. apply in_map_iff in Hp.
    destruct Hp as [c [<- _]]. apply to_local_on_grid.
  - split; [symmetry; apply surjective_pairing | repeat split].
Qed.

(** X16.  extract_streets.py writes nothing when the Overpass request
    fails.  Otherwise every street it writes has at least two points, all
    with one decimal, and comes from a way of the response: its id is
    "street-" and the way's id, its type the way's highway tag (residential
    when there is none), its name the way's name tag.  Its width and colour
    are those the table gives for its type; a type the table does not list
    is drawn as residential, 6 wide in "#4a5568", and keeps its own type
    name. *)
Theorem X16_extract_streets_output
  (fetch : Osm.Query -> PyNum.Exc (list Osm.Element)) :
  (forall e, fetch ExtractStreetsScript.streets_query = inl e ->
             ExtractStreetsScript.main fetch = None) /\
  (forall streets s,
      ExtractStreetsScript.main fetch = Some streets -> In s streets ->
      (2 <= length (s_points s))%nat /\
      Forall pt_on_grid (s_points s) /\
      (exists elements w,
          fetch ExtractStreetsScript.streets_query = inr elements /\
          In (Osm.EWay w) elements /\
          s_id s = String.append "street-" (PyStr.of_Z (Osm.w_id w)) /\
          s_type s = match Osm.tag w "highway" with
                     | Some t => t
                     | None => "residential"%string
                     end /\
          s_name s = match Osm.tag w "name" with
                     | Some n => n
                     | None => EmptyString
                     end) /\
      (In (s_type s, s_width s, s_color s)
          [("primary", 12%Z, "#636e72"); ("secondary", 10%Z, "#636e72");
           ("tertiary", 8%Z, "#4a5568"); ("residential", 6%Z, "#4a5568");
           ("service", 4%Z, "#3d4448"); ("footway", 2%Z, "#2d3436");
           ("path", 2%Z, "#2d3436")]%string \/
       (~ In (s_type s) ["primary"; "secondary"; "tertiary"; "residential";
                         "service"; "footway"; "path"]%string /\
        (s_width s, s_color s) = (6%Z, "#4a5568"%string)))).
Proof.
  split.
  - intros e E. unfold ExtractStreetsScript.main. rewrite E. reflexivity.
  - intros streets s Hm Hs. unfold ExtractStreetsScript.main in Hm.
    destruct (fetch ExtractStreetsScript.streets_query) as [e | elements] eqn:Hq;
      [discriminate Hm |].
    injection Hm as <-. unfold ExtractStreetsScript.streets_of in Hs.
    apply in_flat_map in Hs. destruct Hs as [el [Hel Hs]].
    destruct el as [n | w |]; try contradiction.
    destruct (ExtractStreetsScript.street_of (Osm.nodes_of elements) w)
      as [s0 |] eqn:E; [| contradiction].
    destruct Hs as [<- | []].
    destruct (extract_street_of_spec _ _ _ E) as [H2 [Hg [Hstyle [Hid [Hty Hname]]]]].
    split; [exact H2 |]. split; [exact Hg |]. split.
    + exists elements, w. repeat split; assumption.
    + assert (Ew : s_width s0 = fst (ExtractStreetsScript.type_info (s_type s0)))
        by (rewrite <- Hstyle; reflexivity).
      assert (Ec : s_color s0 = snd (ExtractStreetsScript.type_info (s_type s0)))
        by (rewrite <- Hstyle; reflexivity).
      rewrite Ew, Ec. exact (extract_style (s_type s0)).
Qed.

Lemma X16_extract_streets_output_witness :
  Nat.le 2 (length [(0.0, 0.0); (0.0, -222.0)]).
Proof.
  apply (proj2 (X16_extract_streets_output
                  (fun q => PyNum.ret
                              [Osm.ENode (Osm.mkNode 1 (-89.9839) 38.520);
                               Osm.ENode (Osm.mkNode 2 (-89.9839) 38.522);
                               Osm.EWay (Osm.mkWay 7 (Some [1%Z; 2%Z])
                                           [("highway", "primary_link")]%string)]))
               [mkStreet "street-7" "" "primary_link"
                         [(0.0, 0.0); (0.0, -222.0)] 6 "#4a5568"]
               (mkStreet "street-7" "" "primary_link"
                         [(0.0, 0.0); (0.0, -222.0)] 6 "#4a5568")).
  - vm_compute. reflexivity.
  - left. reflexivity.
Defined.

(** ** Land-use features *)

Lemma classify_range (w : Osm.Way) (t c : string) :
  FetchLanduseScript.classify w = Some (t, c) ->
  In (t, c)
     [("park", "#1a2a1a"); ("grass", "#1a2a1a"); ("residential", "#1c1c26");
      ("commercial", "#1e1e28"); ("industrial", "#1a1a22"); ("parking", "#202028");
      ("water", "#1a2a3a"); ("waterway", "#1a2a3a"); ("railway", "#2a2a2a")]%string.
Proof.
  unfold FetchLanduseScript.classify.
  repeat match goal with
         | |- context [if ?b then _ else _] => destruct b
         end;
    intros E; try discriminate E; injection E as <- <-; simpl; tauto.
Qed.

(** X17.  Every feature fetch_landuse.py writes comes from a tagged way of
    the response, has at least three points, all with one decimal, has one
    of the script's nine types with the colour that goes with it, and an
    id made of the type and the way's id.  Ways the query also returns,
    such as bridges or other natural or landuse values, are not written. *)
Theorem X17_landuse_features (result : list Osm.Element) (f : Feature) :
  In f (FetchLanduseScript.features_of result) ->
  (3 <= length (f_points f))%nat /\
  Forall pt_on_grid (f_points f) /\
  In (f_type f, f_color f)
     [("park", "#1a2a1a"); ("grass", "#1a2a1a"); ("residential", "#1c1c26");
      ("commercial", "#1e1e28"); ("industrial", "#1a1a22"); ("parking", "#202028");
      ("water", "#1a2a3a"); ("waterway", "#1a2a3a"); ("railway", "#2a2a2a")]%string /\
  exists w,
    In (Osm.EWay w) result /\ Osm.w_tags w <> [] /\
    FetchLanduseScript.classify w = Some (f_type f, f_color f) /\
    f_id f = String.append (f_type f) (String.append "-" (PyStr.of_Z (Osm.w_id w))).
Proof.
  unfold FetchLanduseScript.features_of. intros H.
  apply in_flat_map in H. destruct H as [el [Hel H]].
  destruct el as [n | w |]; try contradiction.
  unfold FetchLanduseScript.feature_of in H.
  destruct (Osm.w_tags w) as [| tg tags] eqn:Et; [contradiction |].
  destruct (FetchLanduseScript.classify w) as [[t c] |] eqn:Ec; [| contradiction].
  destruct (3 <=? length _)%nat eqn:E3; [| contradiction].
  destruct H as [<- | []]. cbn [f_points f_type f_color f_id].
  split; [apply Nat.leb_le; exact E3 |]. split.
  - apply Forall_forall. intros p Hp. apply in_map_iff in Hp.
    destruct Hp as [c0 [<- _]]. apply to_local_on_grid.
  - split; [exact (classify_range _ _ _ Ec) |].
    exists w. split; [exact Hel |]. split; [rewrite Et; discriminate |].
    split; [exact Ec | reflexivity].
Qed.

Lemma X17_landuse_features_witness :
  Nat.le 3 (length [(17.8, 147.2); (17.8, -74.8); (191.8, 36.2)]).
Proof.
  apply (X17_landuse_features
           [Osm.ENode (Osm.mkNode 1 (-89.984) 38.520);
            Osm.ENode (Osm.mkNode 2 (-89.984) 38.522);
            Osm.ENode (Osm.mkNode 3 (-89.982) 38.521);
            Osm.EWay (Osm.mkWay 9 (Some [1%Z; 2%Z; 3%Z])
                        [("leisure", "park"); ("amenity", "parking")]%string)]
           (mkFeature "park-9" "park" "" [(17.8, 147.2); (17.8, -74.8); (191.8, 36.2)]
                      "#1a2a1a")).
  vm_compute. left. reflexivity.
Defined.

(** ** Overture rows *)

Section Overture.
Import FetchOvertureScript.
Variable cos_radians : Q -> Q.
Variable hash : string -> Z.

Lemma palette_In (z : Z) :
  In (nth (Z.to_nat (z mod 25)) color_palette EmptyString) color_palette.
Proof.
  apply nth_In. change (length color_palette) with 25%nat.
  pose proof (Z.mod_pos_bound z 25 ltac:(lia)). lia.
Qed.

Lemma min_le_max (xs : list Q) (lo hi : Q) :
  PyNum.py_min xs = inr lo -> PyNum.py_max xs = inr hi -> 0 <= hi - lo.
Proof.
  intros Hlo Hhi. apply py_min_spec in Hlo. apply py_max_spec in Hhi.
  destruct Hlo as [_ Hlo]. destruct Hhi as [Hin _].
  specialize (Hlo _ Hin). lra.
Qed.

Lemma building_of_ring_spec (row : BuildingRow) (i : nat) (ring : list (Q * Q)) :
  exists ob, building_of_ring cos_radians hash row i ring = inr ob /\
             forall b, ob = Some b -> overture_ok b.
Proof.
  unfold building_of_ring.
  set (footprint := map (to_local cos_radians) (removelast ring)).
  destruct (length footprint <? 3)%nat eqn:E.
  - eexists. split; [reflexivity | discriminate].
  - apply Nat.ltb_ge in E.
    assert (Hn : footprint <> []) by (destruct footprint; [simpl in E; lia | discriminate]).
    destruct (py_max_some _ (map_nonempty _ _ fst _ Hn)) as [a Ea].
    destruct (py_min_some _ (map_nonempty _ _ fst _ Hn)) as [b Eb].
    destruct (py_max_some _ (map_nonempty _ _ snd _ Hn)) as [c Ec].
    destruct (py_min_some _ (map_nonempty _ _ snd _ Hn)) as [d Ed].
    rewrite Ea. simpl. rewrite Eb. simpl. rewrite Ec. simpl. rewrite Ed. simpl.
    eexists. split; [reflexivity |].
    intros b0 Hb. injection Hb as <-. unfold overture_ok. cbn [ob_footprint ob_size ob_color fst snd].
    split; [exact E |].
    split; [exact (min_le_max _ _ _ Eb Ea) |].
    split; [exact (min_le_max _ _ _ Ed Ec) | apply palette_In].
Qed.

Lemma rings_loop_spec (row : BuildingRow) (rings : list (nat * list (Q * Q)))
      (buildings : list OvertureBuilding) :
  Forall overture_ok buildings ->
  exists bs, rings_loop cos_radians hash row buildings rings = inr bs /\
             Forall overture_ok bs.
Proof.
  revert buildings. induction rings as [| [i ring] rings IH]; intros bs H; simpl.
  - exists bs. split; [reflexivity | exact H].
  - destruct (building_of_ring_spec row i ring) as [ob [E Hob]]. rewrite E. simpl.
    apply IH. destruct ob as [b |]; [| exact H].
    apply Forall_app. split; [exact H |].
    constructor; [apply Hob; reflexivity | constructor].
Qed.

Lemma rows_loop_spec (rows : list BuildingRow) (buildings : list OvertureBuilding) :
  Forall overture_ok buildings ->
  exists bs, rows_loop cos_radians hash buildings rows = inr bs /\
             Forall overture_ok bs.
Proof.
  revert buildings. induction rows as [| row rows IH]; intros bs H; simpl.
  - exists bs. split; [reflexivity | exact H].
  - destruct (rings_of (br_geom row)) as [rings |]; [| apply IH; exact H].
    destruct (rings_loop_spec row (PySort.enumerate_from 0 rings) bs H) as [bs1 [E H1]].
    rewrite E. simpl. apply IH. exact H1.
Qed.

End Overture.

Lemma street_type_range (road_class : option string) :
  In (FetchOvertureScript.street_type road_class)
     ["primary"; "secondary"; "tertiary"; "residential"; "service"]%string.
Proof.
  unfold FetchOvertureScript.street_type.
  destruct road_class as [c |]; [| simpl; tauto].
  destruct (PyDict.get String.eqb FetchOvertureScript.road_type_map c) as [t |] eqn:G;
    [| simpl; tauto].
  apply dict_get_In in G. simpl in G. simpl. tauto.
Qed.

(** X18.  [fetch_buildings] never dies on its rows: the rings it keeps have
    at least three vertices once the closing point is dropped, so the
    centroid division and the [min] and [max] are safe.  Every building it
    returns has such a footprint, a width and depth that are not negative,
    and a colour of the palette. *)
Theorem X18_overture_buildings_well_formed
  (cos_radians : Q -> Q) (hash : string -> Z)
  (rows : list FetchOvertureScript.BuildingRow) :
  exists buildings,
    FetchOvertureScript.fetch_buildings cos_radians hash rows = inr buildings /\
    forall b, In b buildings ->
      (3 <= length (FetchOvertureScript.ob_footprint b))%nat /\
      0 <= fst (fst (FetchOvertureScript.ob_size b)) /\
      0 <= snd (FetchOvertureScript.ob_size b) /\
      In (FetchOvertureScript.ob_color b) FetchOvertureScript.color_palette.
Proof.
  destruct (rows_loop_spec cos_radians hash rows [] (Forall_nil _)) as [bs [E H]].
  exists bs. split; [exact E |].
  intros b Hb. rewrite Forall_forall in H. exact (H b Hb).
Qed.

(** X19.  The height of an Overture building is its height attribute when
    that is present and not zero, else 3.5 times its floor count when that
    is present and not zero, else a whole number of metres from 8 to 32
    picked by the hash of its id. *)
Theorem X19_overture_building_height
  (hash : string -> Z) (id_ : string) (height : option Q) (num_floors : option Z) :
  (forall h, height = Some h -> ~ h == 0 ->
             FetchOvertureScript.building_height hash id_ height num_floors = h) /\
  ((height = None \/ exists h, height = Some h /\ h == 0) ->
   (forall n, num_floors = Some n -> n <> 0%Z ->
              FetchOvertureScript.building_height hash id_ height num_floors
              = inject_Z n * 3.5) /\
   (num_floors = None \/ num_floors = Some 0%Z ->
    exists k : Z,
      (0 <= k <= 24)%Z /\
      FetchOvertureScript.building_height hash id_ height num_floors
      = 8 + inject_Z k /\
      8 <= FetchOvertureScript.building_height hash id_ height num_floors <= 32)).
Proof.
  unfold FetchOvertureScript.building_height. split.
  - intros h -> Hh. destruct (Qeq_bool h 0) eqn:E; [| reflexivity].
    apply Qeq_bool_iff in E. contradiction.
  - intros Hheight.
    assert (Hfall : forall X Y : Q,
               match height with
               | Some h => if negb (Qeq_bool h 0) then h else X
               | None => Y
               end = match height with Some _ => X | None => Y end).
    { intros X Y. destruct Hheight as [-> | [h [-> Hz]]]; [reflexivity |].
      apply Qeq_bool_iff in Hz. rewrite Hz. reflexivity. }
    rewrite Hfall.
    assert (Hk : (0 <= hash id_ mod 25 <= 24)%Z)
      by (pose proof (Z.mod_pos_bound (hash id_) 25 ltac:(lia)); lia).
    assert (Hrange : 8 <= 8 + inject_Z (hash id_ mod 25) <= 32).
    { destruct Hk as [H0 H24]. rewrite Zle_Qle in H0, H24.
      change (inject_Z 0) with 0 in H0. change (inject_Z 24) with 24 in H24. lra. }
    split.
    + intros n -> Hn. apply Z.eqb_neq in Hn. rewrite Hn. destruct height; reflexivity.
    + intros [-> | ->]; (exists (hash id_ mod 25)%Z; split; [exact Hk |]);
        destruct height; (split; [reflexivity | exact Hrange]).
Qed.

Lemma X19_overture_building_height_witness :
  FetchOvertureScript.building_height (fun _ => 49%Z) "w1" (Some 12.5) None = 12.5 /\
  FetchOvertureScript.building_height (fun _ => 49%Z) "w1" (Some 0) (Some 2%Z)
    = inject_Z 2 * 3.5 /\
  8 <= FetchOvertureScript.building_height (fun _ => 49%Z) "w1" None (Some 0%Z) <= 32.
Proof.
  split; [| split].
  - apply (proj1 (X19_overture_building_height (fun _ => 49%Z) "w1" (Some 12.5) None) 12.5).
    + reflexivity.
    + intros H. vm_compute in H. discriminate H.
  - apply (proj1 (proj2 (X19_overture_building_height (fun _ => 49%Z) "w1"
                           (Some 0) (Some 2%Z))
                        (or_intror (ex_intro _ 0 (conj eq_refl (Qeq_refl 0))))) 2%Z).
    + reflexivity.
    + discriminate.
  - destruct (proj2 (proj2 (X19_overture_building_height (fun _ => 49%Z) "w1"
                              None (Some 0%Z))
                           (or_introl eq_refl))
                    (or_intror eq_refl)) as [k [_ [_ H]]].
    exact H.
Defined.

Lemma street_type_table (c : string) :
  In (c, FetchOvertureScript.street_type (Some c))
     [("motorway", "primary"); ("trunk", "primary"); ("primary", "primary");
      ("secondary", "secondary"); ("tertiary", "tertiary");
      ("residential", "residential"); ("service", "service");
      ("unclassified", "residential"); ("living_street", "residential")]%string \/
  (~ In c ["motorway"; "trunk"; "primary"; "secondary"; "tertiary";
           "residential"; "service"; "unclassified"; "living_street"]%string /\
   FetchOvertureScript.street_type (Some c) = "residential"%string).
Proof.
  unfold FetchOvertureScript.street_type, FetchOvertureScript.road_type_map.
  cbn [PyDict.get].
  destruct (String.eqb_spec c "motorway") as [-> | N1]; [left; simpl; tauto |].
  destruct (String.eqb_spec c "trunk") as [-> | N2]; [left; simpl; tauto |].
  destruct (String.eqb_spec c "primary") as [-> | N3]; [left; simpl; tauto |].
  destruct (String.eqb_spec c "secondary") as [-> | N4]; [left; simpl; tauto |].
  destruct (String.eqb_spec c "tertiary") as [-> | N5]; [left; simpl; tauto |].
  destruct (String.eqb_spec c "residential") as [-> | N6]; [left; simpl; tauto |].
  destruct (String.eqb_spec c "service") as [-> | N7]; [left; simpl; tauto |].
  destruct (String.eqb_spec c "unclassified") as [-> | N8]; [left; simpl; tauto |].
  destruct (String.eqb_spec c "living_street") as [-> | N9]; [left; simpl; tauto |].
  right. split; [| reflexivity].
  intros [E | [E | [E | [E | [E | [E | [E | [E | [E | []]]]]]]]]]; congruence.
Qed.

(** X20.  [fetch_roads] returns exactly one street for each LineString row
    of the query result, in the order of the rows, and none for a row of
    another geometry; there is no minimum number of points, so a LineString
    of one coordinate, or of none, still gives a street.  The street of a
    row has the id "street-" and the row's id, the row's name (empty when it
    is null), every coordinate of the row converted by [latlon_to_local],
    and the type the class table gives: motorway, trunk and primary are
    primary, secondary, tertiary and service are themselves, residential,
    unclassified and living_street are residential, and so is a null class
    or one the table does not list.  The type is thus always one of
    primary, secondary, tertiary, residential and service. *)
Theorem X20_overture_roads
  (cos_radians : Q -> Q) (rows : list FetchOvertureScript.RoadRow) :
  (length (FetchOvertureScript.fetch_roads cos_radians rows) <= length rows)%nat /\
  (forall r, In r (FetchOvertureScript.fetch_roads cos_radians rows) ->
    In (FetchOvertureScript.rd_type r)
       ["primary"; "secondary"; "tertiary"; "residential"; "service"]%string /\
    exists row coords,
      In row rows /\
      FetchOvertureScript.rr_geom row = FetchOvertureScript.LineString coords /\
      length (FetchOvertureScript.rd_points r) = length coords /\
      FetchOvertureScript.rd_id r
      = String.append "street-" (FetchOvertureScript.rr_id row)) /\
  Forall2
    (fun row r =>
       exists coords,
         FetchOvertureScript.rr_geom row = FetchOvertureScript.LineString coords /\
         FetchOvertureScript.rd_id r
         = String.append "street-" (FetchOvertureScript.rr_id row) /\
         FetchOvertureScript.rd_name r
         = match FetchOvertureScript.rr_name row with
           | Some n => n
           | None => EmptyString
           end /\
         FetchOvertureScript.rd_points r
         = map (fun c => FetchOverture.latlon_to_local cos_radians (fst c) (snd c)
                           FetchOverture.CENTER_LON FetchOverture.CENTER_LAT)
               coords /\
         length (FetchOvertureScript.rd_points r) = length coords /\
         match FetchOvertureScript.rr_class row with
         | None => FetchOvertureScript.rd_type r = "residential"%string
         | Some c =>
             In (c, FetchOvertureScript.rd_type r)
                [("motorway", "primary"); ("trunk", "primary");
                 ("primary", "primary"); ("secondary", "secondary");
                 ("tertiary", "tertiary"); ("residential", "residential");
                 ("service", "service"); ("unclassified", "residential");
                 ("living_street", "residential")]%string \/
             (~ In c ["motorway"; "trunk"; "primary"; "secondary"; "tertiary";
                      "residential"; "service"; "unclassified";
                      "living_street"]%string /\
              FetchOvertureScript.rd_type r = "residential"%string)
         end)
    (filter (fun row => match FetchOvertureScript.rr_geom row with
                        | FetchOvertureScript.LineString _ => true
                        | _ => false
                        end) rows)
    (FetchOvertureScript.fetch_roads cos_radians rows) /\
  length (FetchOvertureScript.fetch_roads cos_radians rows)
  = length (filter (fun row => match FetchOvertureScript.rr_geom row with
                               | FetchOvertureScript.LineString _ => true
                               | _ => false
                               end) rows) /\
  (forall row, In row rows ->
     FetchOvertureScript.rr_geom row = FetchOvertureScript.LineString [] ->
     exists r, In r (FetchOvertureScript.fetch_roads cos_radians rows) /\
               FetchOvertureScript.rd_id r
               = String.append "street-" (FetchOvertureScript.rr_id row) /\
               FetchOvertureScript.rd_points r = []).
Proof.
  assert (HF : Forall2
    (fun row r =>
       exists coords,
         FetchOvertureScript.rr_geom row = FetchOvertureScript.LineString coords /\
         FetchOvertureScript.rd_id r
         = String.append "street-" (FetchOvertureScript.rr_id row) /\
         FetchOvertureScript.rd_name r
         = match FetchOvertureScript.rr_name row with
           | Some n => n
           | None => EmptyString
           end /\
         FetchOvertureScript.rd_points r
         = map (fun c => FetchOverture.latlon_to_local cos_radians (fst c) (snd c)
                           FetchOverture.CENTER_LON FetchOverture.CENTER_LAT)
               coords /\
         length (FetchOvertureScript.rd_points r) = length coords /\
         match FetchOvertureScript.rr_class row with
         | None => FetchOvertureScript.rd_type r = "residential"%string
         | Some c =>
             In (c, FetchOvertureScript.rd_type r)
                [("motorway", "primary"); ("trunk", "primary");
                 ("primary", "primary"); ("secondary", "secondary");
                 ("tertiary", "tertiary"); ("residential", "residential");
                 ("service", "service"); ("unclassified", "residential");
                 ("living_street", "residential")]%string \/
             (~ In c ["motorway"; "trunk"; "primary"; "secondary"; "tertiary";
                      "residential"; "service"; "unclassified";
                      "living_street"]%string /\
              FetchOvertureScript.rd_type r = "residential"%string)
         end)
    (filter (fun row => match FetchOvertureScript.rr_geom row with
                        | FetchOvertureScript.LineString _ => true
                        | _ => false
                        end) rows)
    (FetchOvertureScript.fetch_roads cos_radians rows)).
  { unfold FetchOvertureScript.fetch_roads.
    induction rows as [| row rows IH]; [constructor |].
    cbn [filter flat_map]. unfold FetchOvertureScript.road_of at 1.
    destruct (FetchOvertureScript.rr_geom row) as [coords | | |] eqn:G;
      cbn [app]; try exact IH.
    constructor; [| exact IH].
    exists coords.
    cbn [FetchOvertureScript.rd_type FetchOvertureScript.rd_points
         FetchOvertureScript.rd_id FetchOvertureScript.rd_name].
    split; [exact G |]. split; [reflexivity |]. split; [reflexivity |].
    split; [reflexivity |]. split; [apply length_map |].
    destruct (FetchOvertureScript.rr_class row) as [c |];
      [apply street_type_table | reflexivity]. }
  split; [| split; [| split; [exact HF | split]]].
  - clear HF. unfold FetchOvertureScript.fetch_roads.
    induction rows as [| row rows IH]; simpl; [lia |].
    rewrite length_app.
    destruct (FetchOvertureScript.road_of cos_radians row); simpl; lia.
  - intros r H. unfold FetchOvertureScript.fetch_roads in H.
    apply in_flat_map in H. destruct H as [row [Hrow H]].
    unfold FetchOvertureScript.road_of in H.
    destruct (FetchOvertureScript.rr_geom row) as [coords | | |] eqn:G;
      try contradiction.
    destruct H as [<- | []].
    cbn [FetchOvertureScript.rd_type FetchOvertureScript.rd_points
         FetchOvertureScript.rd_id].
    split; [apply street_type_range |].
    exists row, coords. repeat split; [exact Hrow | exact G | apply length_map].
  - symmetry. exact (Forall2_length HF).
  - intros row Hrow G.
    exists (FetchOvertureScript.mkRoad
              (String.append "street-" (FetchOvertureScript.rr_id row))
              (FetchOvertureScript.name_or_empty (FetchOvertureScript.rr_name row))
              (FetchOvertureScript.street_type (FetchOvertureScript.rr_class row))
              []).
    split; [| split; reflexivity].
    unfold FetchOvertureScript.fetch_roads. apply in_flat_map.
    exists row. split; [exact Hrow |].
    unfold FetchOvertureScript.road_of. rewrite G. left. reflexivity.
Qed.

Lemma X20_overture_roads_witness :
  In "residential"%string
     ["primary"; "secondary"; "tertiary"; "residential"; "service"]%string /\
  (exists r,
      In r (FetchOvertureScript.fetch_roads (fun _ => 1)
              [FetchOvertureScript.mkRoadRow "r1" None (Some "track"%string)
                 (FetchOvertureScript.LineString [(-89.9842, 38.5170)]);
               FetchOvertureScript.mkRoadRow "r2" None None
                 (FetchOvertureScript.Polygon [] []);
               FetchOvertureScript.mkRoadRow "r3" (Some "Main"%string) None
                 (FetchOvertureScript.LineString [])]) /\
      FetchOvertureScript.rd_id r = "street-r3"%string /\
      FetchOvertureScript.rd_points r = []).
Proof.
  split.
  - apply (proj1 (proj1 (proj2 (X20_overture_roads (fun _ => 1)
                         [FetchOvertureScript.mkRoadRow "r1" None (Some "track"%string)
                            (FetchOvertureScript.LineString [(-89.9842, 38.5170)]);
                          FetchOvertureScript.mkRoadRow "r2" None None
                            (FetchOvertureScript.Polygon [] []);
                          FetchOvertureScript.mkRoadRow "r3" (Some "Main"%string) None
                            (FetchOvertureScript.LineString [])]))
                      (FetchOvertureScript.mkRoad "street-r1" "" "residential"
                                                  [(0.0, 0.0)])
                      (or_introl eq_refl))).
  - apply (proj2 (proj2 (proj2 (proj2 (X20_overture_roads (fun _ => 1)
                         [FetchOvertureScript.mkRoadRow "r1" None (Some "track"%string)
                            (FetchOvertureScript.LineString [(-89.9842, 38.5170)]);
                          FetchOvertureScript.mkRoadRow "r2" None None
                            (FetchOvertureScript.Polygon [] []);
                          FetchOvertureScript.mkRoadRow "r3" (Some "Main"%string) None
                            (FetchOvertureScript.LineString [])]))))
                 (FetchOvertureScript.mkRoadRow "r3" (Some "Main"%string) None
                    (FetchOvertureScript.LineString []))).
    + right. right. left. reflexivity.
    + reflexivity.
Defined.

(** ** What the recentering scripts do to written data *)

Lemma round1_near_grid (k : Z) (e : Q) :
  - (5 # 100) < e < 5 # 100 ->
  PyNum.round1 (inject_Z k / 10 + e) = inject_Z k / 10.
Proof.
  intros He. unfold PyNum.round1.
  rewrite (round_half_even_unique _ k); [reflexivity |].
  apply Qabs_Qlt_condition. split; field_simplify; lra.
Qed.

Lemma total_shift_small :
  - (5 # 100) < RecenterCorrect.total_shift_x < 5 # 100 /\
  - (5 # 100) < RecenterCorrect.total_shift_z < 5 # 100.
Proof.
  assert (Ex : RecenterCorrect.total_shift_x == - (39 # 1000))
    by (vm_compute; reflexivity).
  assert (Ez : RecenterCorrect.total_shift_z == - (23 # 1000))
    by (vm_compute; reflexivity).
  rewrite Ex, Ez. split; lra.
Qed.

Lemma fix_point_after_recenter (pt : Point) :
  RecenterCorrect.fix_point (RecenterData.recenter_point pt)
  = RecenterData.recenter_point pt.
Proof.
  destruct total_shift_small as [Hx Hz].
  unfold RecenterCorrect.fix_point, RecenterData.recenter_point. cbn [fst snd].
  unfold PyNum.round1 at 2 4.
  rewrite (round1_near_grid _ _ Hx), (round1_near_grid _ _ Hz).
  reflexivity.
Qed.

(** X21.  On coordinates with one decimal recenter_data.py is the exact
    translation by +87.3 in x and +245.0 in z: the rounded form of its
    offsets, as the comment of recenter_correct.py describes the shift it
    means to undo. *)
Theorem X21_recenter_data_adds_87_3_and_245 (n m : Z) :
  pt_eq (RecenterData.recenter_point (inject_Z n / 10, inject_Z m / 10))
        (inject_Z n / 10 + 87.3, inject_Z m / 10 + 245.0).
Proof.
  assert (Ex : RecenterData.offset_x == - (87261 # 1000)) by (vm_compute; reflexivity).
  assert (Ez : RecenterData.offset_z == - (244977 # 1000)) by (vm_compute; reflexivity).
  unfold RecenterData.recenter_point, RecenterData.moved_x, RecenterData.moved_z.
  split; cbn [fst snd].
  - assert (E : inject_Z n / 10 - RecenterData.offset_x
                == inject_Z (n + 873) / 10 + - (39 # 1000)).
    { rewrite Ex, inject_Z_plus. change (inject_Z 873) with 873. field. }
    rewrite E, round1_grid by lra.
    rewrite inject_Z_plus. change (inject_Z 873) with 873. field.
  - assert (E : inject_Z m / 10 - RecenterData.offset_z
                == inject_Z (m + 2450) / 10 + - (23 # 1000)).
    { rewrite Ez, inject_Z_plus. change (inject_Z 2450) with 2450. field. }
    rewrite E, round1_grid by lra.
    rewrite inject_Z_plus. change (inject_Z 2450) with 2450. field.
Qed.

(** X22.  Run after recenter_data.py, recenter_correct.py changes nothing:
    every street and every building comes out of it exactly as
    recenter_data.py wrote it, so the earlier shift is not undone. *)
Theorem X22_recenter_correct_keeps_recentered_data :
  (forall s, RecenterCorrect.fix_street (RecenterData.recenter_street s)
             = RecenterData.recenter_street s) /\
  (forall b, RecenterCorrect.fix_building (RecenterData.recenter_building b)
             = RecenterData.recenter_building b).
Proof.
  assert (Hmap : forall pts,
             map RecenterCorrect.fix_point (map RecenterData.recenter_point pts)
             = map RecenterData.recenter_point pts).
  { intros pts. rewrite map_map. apply map_ext. intros p.
    apply fix_point_after_recenter. }
  destruct total_shift_small as [Hx Hz].
  split.
  - intros s. unfold RecenterCorrect.fix_street, RecenterData.recenter_street, set_points.
    cbn [s_points s_id s_name s_type s_width s_color]. rewrite Hmap. reflexivity.
  - intros b. unfold RecenterCorrect.fix_building, RecenterData.recenter_building.
    cbn [b_id b_footprint b_position b_size b_color position0 position2 fst snd].
    rewrite Hmap.
    unfold PyNum.round1 at 2 4.
    rewrite (round1_near_grid _ _ Hx), (round1_near_grid _ _ Hz).
    reflexivity.
Qed.

(** ** The shift of fix_alignment.py *)

Lemma round1_close (y : Q) : - (5 # 100) <= PyNum.round1 y - y <= 5 # 100.
Proof.
  unfold PyNum.round1. pose proof (round_half_even_close (y * 10)) as H.
  unfold Qdiv. change (/ 10) with (1 # 10). split; lra.
Qed.

Lemma py_min_map_mono (f : Q -> Q) (xs : list Q) (lo : Q) :
  (forall x y, x <= y -> f x <= f y) ->
  PyNum.py_min xs = inr lo ->
  exists lo', PyNum.py_min (map f xs) = inr lo' /\ lo' == f lo.
Proof.
  intros Hf Hlo.
  assert (Hne : xs <> []) by (destruct xs; [discriminate Hlo | discriminate]).
  destruct (py_min_some _ (map_nonempty _ _ f _ Hne)) as [lo' E].
  exists lo'. split; [exact E |].
  apply py_min_spec in Hlo. apply py_min_spec in E.
  destruct Hlo as [Hin Hall]. destruct E as [Hin' Hall'].
  apply in_map_iff in Hin'. destruct Hin' as [x0 [<- Hx0]].
  apply Qle_antisym.
  - apply Hall'. apply in_map. exact Hin.
  - apply Hf. apply Hall. exact Hx0.
Qed.

Lemma py_max_map_mono (f : Q -> Q) (xs : list Q) (hi : Q) :
  (forall x y, x <= y -> f x <= f y) ->
  PyNum.py_max xs = inr hi ->
  exists hi', PyNum.py_max (map f xs) = inr hi' /\ hi' == f hi.
Proof.
  intros Hf Hhi.
  assert (Hne : xs <> []) by (destruct xs; [discriminate Hhi | discriminate]).
  destruct (py_max_some _ (map_nonempty _ _ f _ Hne)) as [hi' E].
  exists hi'. split; [exact E |].
  apply py_max_spec in Hhi. apply py_max_spec in E.
  destruct Hhi as [Hin Hall]. destruct E as [Hin' Hall'].
  apply in_map_iff in Hin'. destruct Hin' as [x0 [<- Hx0]].
  apply Qle_antisym.
  - apply Hf. apply Hall. exact Hx0.
  - apply Hall'. apply in_map. exact Hin.
Qed.

Lemma round_shift_mono (o x y : Q) :
  x <= y -> PyNum.round1 (x + o) <= PyNum.round1 (y + o).
Proof. intros H. apply round1_mono. lra. Qed.

Lemma shifted_points (ox oz : Q) (streets : list Street) :
  flat_map s_points (map (FixAlignment.shift ox oz) streets)
  = map (fun pt => (PyNum.round1 (fst pt + ox), PyNum.round1 (snd pt + oz)))
        (flat_map s_points streets).
Proof.
  induction streets as [| s streets IH]; simpl; [reflexivity |].
  rewrite IH, map_app. reflexivity.
Qed.

(** After a rounded shift by [target - (lo + hi) / 2] the middle of the
    range is within 0.05 of [target]. *)
Lemma shifted_centre_close (xs : list Q) (lo hi target : Q) :
  PyNum.py_min xs = inr lo -> PyNum.py_max xs = inr hi ->
  exists lo' hi',
    PyNum.py_min (map (fun x => PyNum.round1 (x + (target - (lo + hi) / 2))) xs) = inr lo' /\
    PyNum.py_max (map (fun x => PyNum.round1 (x + (target - (lo + hi) / 2))) xs) = inr hi' /\
    Qabs ((lo' + hi') / 2 - target) <= 5 # 100.
Proof.
  intros Hlo Hhi. set (o := target - (lo + hi) / 2).
  destruct (py_min_map_mono (fun x => PyNum.round1 (x + o)) xs lo
              (round_shift_mono o) Hlo) as [lo' [El Hl]].
  destruct (py_max_map_mono (fun x => PyNum.round1 (x + o)) xs hi
              (round_shift_mono o) Hhi) as [hi' [Eh Hh]].
  exists lo', hi'. split; [exact El |]. split; [exact Eh |].
  pose proof (round1_close (lo + o)) as Cl.
  pose proof (round1_close (hi + o)) as Ch.
  apply Qabs_Qle_condition. rewrite Hl, Hh. unfold o in *.
  unfold Qdiv in *. change (/ 2) with (1 # 2) in *. split; lra.
Qed.

(** X23.  The shift fix_alignment.py applies to the streets brings the
    middle of their bounding box to within 0.05 m of the middle of the
    buildings' bounding box in both axes; the rounding of each point to one
    decimal is what keeps the two from coinciding exactly. *)
Theorem X23_fix_alignment_centres_boxes
  (streets : list Street) (buildings : list Building)
  (blo_x bhi_x blo_z bhi_z slo_x shi_x slo_z shi_z : Q) :
  PyNum.py_min (map fst (flat_map b_footprint buildings)) = inr blo_x ->
  PyNum.py_max (map fst (flat_map b_footprint buildings)) = inr bhi_x ->
  PyNum.py_min (map snd (flat_map b_footprint buildings)) = inr blo_z ->
  PyNum.py_max (map snd (flat_map b_footprint buildings)) = inr bhi_z ->
  PyNum.py_min (map fst (flat_map s_points streets)) = inr slo_x ->
  PyNum.py_max (map fst (flat_map s_points streets)) = inr shi_x ->
  PyNum.py_min (map snd (flat_map s_points streets)) = inr slo_z ->
  PyNum.py_max (map snd (flat_map s_points streets)) = inr shi_z ->
  let offset_x := (blo_x + bhi_x) / 2 - (slo_x + shi_x) / 2 in
  let offset_z := (blo_z + bhi_z) / 2 - (slo_z + shi_z) / 2 in
  let shifted := map (FixAlignment.shift offset_x offset_z) streets in
  exists lo_x hi_x lo_z hi_z,
    PyNum.py_min (map fst (flat_map s_points shifted)) = inr lo_x /\
    PyNum.py_max (map fst (flat_map s_points shifted)) = inr hi_x /\
    PyNum.py_min (map snd (flat_map s_points shifted)) = inr lo_z /\
    PyNum.py_max (map snd (flat_map s_points shifted)) = inr hi_z /\
    Qabs ((lo_x + hi_x) / 2 - (blo_x + bhi_x) / 2) <= 0.05 /\
    Qabs ((lo_z + hi_z) / 2 - (blo_z + bhi_z) / 2) <= 0.05.
Proof.
  intros _ _ _ _ Hsx Hsx' Hsz Hsz'. cbv zeta.
  rewrite shifted_points, !map_map. cbn [fst snd].
  rewrite <- (map_map fst (fun x => PyNum.round1 (x + _))).
  rewrite <- (map_map snd (fun z => PyNum.round1 (z + _))).
  destruct (shifted_centre_close _ _ _ ((blo_x + bhi_x) / 2) Hsx Hsx')
    as [lo_x [hi_x [E1 [E2 Cx]]]].
  destruct (shifted_centre_close _ _ _ ((blo_z + bhi_z) / 2) Hsz Hsz')
    as [lo_z [hi_z [E3 [E4 Cz]]]].
  exists lo_x, hi_x, lo_z, hi_z.
  repeat split; assumption.
Qed.

Lemma X23_fix_alignment_centres_boxes_witness :
  exists lo_x hi_x lo_z hi_z,
    PyNum.py_min
      (map fst (flat_map s_points
                  (map (FixAlignment.shift ((0 + 10) / 2 - (100 + 120) / 2)
                                           ((0 + 20) / 2 - (100 + 110) / 2))
                       [mkStreet "street-1" "Main Street" "primary"
                                 [(100, 100); (120, 110)] 10 "#3a3a4a"]))) = inr lo_x /\
    PyNum.py_max
      (map fst (flat_map s_points
                  (map (FixAlignment.shift ((0 + 10) / 2 - (100 + 120) / 2)
                                           ((0 + 20) / 2 - (100 + 110) / 2))
                       [mkStreet "street-1" "Main Street" "primary"
                                 [(100, 100); (120, 110)] 10 "#3a3a4a"]))) = inr hi_x /\
    PyNum.py_min
      (map snd (flat_map s_points
                  (map (FixAlignment.shift ((0 + 10) / 2 - (100 + 120) / 2)
                                           ((0 + 20) / 2 - (100 + 110) / 2))
                       [mkStreet "street-1" "Main Street" "primary"
                                 [(100, 100); (120, 110)] 10 "#3a3a4a"]))) = inr lo_z /\
    PyNum.py_max
      (map snd (flat_map s_points
                  (map (FixAlignment.shift ((0 + 10) / 2 - (100 + 120) / 2)
                                           ((0 + 20) / 2 - (100 + 110) / 2))
                       [mkStreet "street-1" "Main Street" "primary"
                                 [(100, 100); (120, 110)] 10 "#3a3a4a"]))) = inr hi_z /\
    Qabs ((lo_x + hi_x) / 2 - (0 + 10) / 2) <= 0.05 /\
    Qabs ((lo_z + hi_z) / 2 - (0 + 20) / 2) <= 0.05.
Proof.
  exact (X23_fix_alignment_centres_boxes
           [mkStreet "street-1" "Main Street" "primary"
                     [(100, 100); (120, 110)] 10 "#3a3a4a"]
           [mkBuilding "bldg-1" [(0, 0); (10, 20)] (5, 0, 10) (10, 9, 20) None]
           0 10 0 20 100 120 100 110
           eq_refl eq_refl eq_refl eq_refl eq_refl eq_refl eq_refl eq_refl).
Defined.

